(** * Time-slot availability and booking engine of the nail-art booking backend

    Shallow embedding of the Google Apps Script modules
    [rear-end-fire/modular/bookingService.gs], [calendarService.gs] and the
    date helpers of [utils.gs], with the properties of the booking engine
    stated and settled against it.

    Conventions of the embedding.
    - A JS [Date] is its time value in milliseconds, [Some t], or the
      invalid date [None] (time value NaN).  Relational operators on two
      dates compare the time values and are [false] when one is NaN.
    - A [YYYY-MM-DD] string is the triple of its fields.  With a
      four-digit year and two-digit month and day, string equality is
      equality of the triples and the [>=]/[<=] string comparisons of the
      code are the lexicographic order of the triples.
    - The script time zone of the Apps Script project is Asia/Taipei
      (UTC+08:00, no daylight saving time), as the code assumes throughout.
    - Titles are JS strings, lists of UTF-16 code units.
    - A thrown JS exception is the [Throw] branch of [res]. *)

From Stdlib Require Import ZArith List String Ascii Bool Lia.
From Equations Require Import Equations.
From Stdlib Require Import Sorting.Permutation Sorting.Sorted.
Import ListNotations.
Open Scope Z_scope.

(* ------------------------------------------------------------------ *)
(** ** Results with exceptions *)

Inductive res (A : Type) : Type :=
| Ok (a : A)
| Throw (msg : string).
Arguments Ok {A} a.
Arguments Throw {A} msg.

Definition res_bind {A B} (c : res A) (k : A -> res B) : res B :=
  match c with
  | Ok a => k a
  | Throw m => Throw m
  end.

Declare Scope res_scope.
Notation "x <- c ;; k" := (res_bind c (fun x => k))
  (at level 61, c at next level, right associativity) : res_scope.
Open Scope res_scope.

(** [try { c } catch (e) { h(e) }] *)
Definition try_catch {A} (c : res A) (h : string -> A) : A :=
  match c with
  | Ok a => a
  | Throw m => h m
  end.

(* ------------------------------------------------------------------ *)
(** ** Dates *)

Definition MS_PER_MINUTE : Z := 60 * 1000.
Definition MS_PER_HOUR : Z := 60 * MS_PER_MINUTE.
Definition MS_PER_DAY : Z := 1000 * 60 * 60 * 24.

(** [const UTC_OFFSET_MS = 8 * 60 * 60 * 1000] *)
Definition UTC_OFFSET_MS : Z := 8 * 60 * 60 * 1000.

Definition jsdate := option Z.

(** A [YYYY-MM-DD] string, as (year, month, day). *)
Definition ymd := (Z * Z * Z)%type.

Definition ymd_eqb (a b : ymd) : bool :=
  let '(y, m, d) := a in let '(y', m', d') := b in
  (y =? y') && (m =? m') && (d =? d').

(** [a <= b] on [YYYY-MM-DD] strings. *)
Definition ymd_leb (a b : ymd) : bool :=
  let '(y, m, d) := a in let '(y', m', d') := b in
  (y <? y') || ((y =? y') && ((m <? m') || ((m =? m') && (d <=? d')))).

(** Days from 1970-01-01 to the proleptic Gregorian date [y-m-d]. *)
Definition days_from_civil (y m d : Z) : Z :=
  let y' := if m <=? 2 then y - 1 else y in
  let era := y' / 400 in
  let yoe := y' - era * 400 in
  let mp := (m + 9) mod 12 in
  let doy := (153 * mp + 2) / 5 + d - 1 in
  let doe := yoe * 365 + yoe / 4 - yoe / 100 + doy in
  era * 146097 + doe - 719468.

(** The proleptic Gregorian date of day number [z] (inverse of
    [days_from_civil]): the date part of [toISOString()]. *)
Definition civil_from_days (z : Z) : ymd :=
  let z := z + 719468 in
  let era := z / 146097 in
  let doe := z - era * 146097 in
  let yoe := (doe - doe / 1460 + doe / 36524 - doe / 146096) / 365 in
  let doy := doe - (365 * yoe + yoe / 4 - yoe / 100) in
  let mp := (5 * doy + 2) / 153 in
  let d := doy - (153 * mp + 2) / 5 + 1 in
  let m := if mp <? 10 then mp + 3 else mp - 9 in
  let y := yoe + era * 400 in
  (if m <=? 2 then y + 1 else y, m, d).

(** The day number V8 gives to the date fields of an ISO string: month
    01..12 and day 01..31 are accepted, a day past the end of the month
    rolls over into the next month; other fields give the invalid date. *)
Definition ymd_day_number (date : ymd) : option Z :=
  let '(y, m, d) := date in
  if (1 <=? m) && (m <=? 12) && (1 <=? d) && (d <=? 31)
  then Some (days_from_civil y m d) else None.

(** [date1 < date2] on JS dates. *)
Definition date_lt (a b : jsdate) : bool :=
  match a, b with
  | Some x, Some y => x <? y
  | _, _ => false
  end.

(** [getTaipeiDateString(date)] of utils.gs:
    [new Date(date.getTime() + UTC_OFFSET_MS).toISOString().split('T')[0]];
    [toISOString] throws a RangeError on an invalid date. *)
Definition getTaipeiDateString (date : jsdate) : res ymd :=
  match date with
  | None => Throw "RangeError: Invalid time value"
  | Some t => Ok (civil_from_days ((t + UTC_OFFSET_MS) / MS_PER_DAY))
  end.

(** [new Date(dateStr + 'T' + HH + ':' + MM + ':' + SS + '+08:00')].
    V8 reads the ISO form: the hour field is 00..24, the minute and second
    fields 00..59, and hour 24 is accepted only as [24:00:00]; every other
    string (including a field that is not two digits) gives the invalid
    date. *)
Definition parseTaipeiDateTimeSec (date : ymd) (hour minute second : Z) : jsdate :=
  match ymd_day_number date with
  | Some day =>
      if (0 <=? hour) && (hour <=? 24) && (0 <=? minute) && (minute <=? 59)
         && (0 <=? second) && (second <=? 59)
         && implb (hour =? 24) ((minute =? 0) && (second =? 0))
      then Some (day * MS_PER_DAY + hour * MS_PER_HOUR
                 + minute * MS_PER_MINUTE + second * 1000 - UTC_OFFSET_MS)
      else None
  | None => None
  end.

(** [new Date(dateStr + 'T' + HH + ':' + MM + ':00+08:00')], where [HH] and
    [MM] are [String(hour).padStart(2, '0')] and
    [String(minute).padStart(2, '0')]: a padded field is two digits exactly
    for 0..99, and outside 0..24 (or 0..59) the date is invalid anyway. *)
Definition parseTaipeiDateTime (date : ymd) (hour minute : Z) : jsdate :=
  parseTaipeiDateTimeSec date hour minute 0.

(* ------------------------------------------------------------------ *)
(** ** Calendar events and availability records *)

(** A JS string as its UTF-16 code units. *)
Definition jsstring := list Z.

(** The compatible event object: [getTitle()], [getStartTime()],
    [getEndTime()]. *)
Record event := mkEvent {
  ev_title : jsstring;
  ev_start : jsdate;
  ev_end : jsdate
}.

(** [CALENDAR_CONFIG.defaultDuration] (hours). *)
Definition defaultDuration : Z := 1.

(** The value of a requested [timeSlot] as seen by
    [const [hour, minute] = timeSlot.split(':').map(Number)]:
    a string whose two parts convert to the integers [hour] and [minute];
    a string whose parts convert to NaN or to non-integers (the padded
    fields are then not two digits and both dates are invalid); or a value
    that is not a string, on which [split] throws a TypeError. *)
Inductive slot_arg :=
| SlotHM (hour minute : Z)
| SlotUnparsable
| SlotNotString.

(** The object returned for one slot: [available], [conflictCount] and
    [conflictingEvents] (the failure object has no [conflictingEvents];
    it is [[]] here). *)
Record availability := mkAvail {
  available : bool;
  conflictCount : Z;
  conflictingEvents : list event
}.

(** The failure object of the [catch] blocks:
    [{ available: false, conflictCount: -1, reason: ... }]. *)
Definition failedAvailability : availability := mkAvail false (-1) [].

(** The [for (const event of events)] loop of
    [checkSingleTimeSlotAvailability], collecting [conflictingEvents]. *)
Fixpoint conflict_loop (events : list event) (slotStart slotEnd : jsdate)
    (queryDateStr : ymd) (acc : list event) : res (list event) :=
  match events with
  | [] => Ok acc
  | ev :: rest =>
      eventDateStr <- getTaipeiDateString (ev_start ev) ;;
      if negb (ymd_eqb eventDateStr queryDateStr)
      then conflict_loop rest slotStart slotEnd queryDateStr acc
      else if date_lt slotStart (ev_end ev) && date_lt (ev_start ev) slotEnd
      then conflict_loop rest slotStart slotEnd queryDateStr (acc ++ [ev])
      else conflict_loop rest slotStart slotEnd queryDateStr acc
  end.

(** [slotStart] and [slotEnd] as built from the slot string. *)
Definition slot_window (timeSlot : slot_arg) (queryDateStr : ymd)
    : res (jsdate * jsdate) :=
  match timeSlot with
  | SlotHM hour minute =>
      let endHour := hour + defaultDuration in
      Ok (parseTaipeiDateTime queryDateStr hour minute,
          parseTaipeiDateTime queryDateStr endHour minute)
  | SlotUnparsable => Ok (None, None)
  | SlotNotString => Throw "TypeError: timeSlot.split is not a function"
  end.

(** The [try] block of [checkSingleTimeSlotAvailability]. *)
Definition checkSingle_body (events : list event) (timeSlot : slot_arg)
    (queryDateStr : ymd) : res availability :=
  w <- slot_window timeSlot queryDateStr ;;
  let (slotStart, slotEnd) := w in
  conflicting <- conflict_loop events slotStart slotEnd queryDateStr [] ;;
  let conflictCount := Z.of_nat (List.length conflicting) in
  Ok (mkAvail (conflictCount =? 0) conflictCount conflicting).

(** [checkSingleTimeSlotAvailability(events, timeSlot, date, queryDateStr)]
    (bookingService.gs, lines 594-642). *)
Definition checkSingleTimeSlotAvailability (events : list event)
    (timeSlot : slot_arg) (queryDateStr : ymd) : availability :=
  try_catch (checkSingle_body events timeSlot queryDateStr)
            (fun _ => failedAvailability).

(** [checkSingleTimeSlotAvailabilityFromEvents] (lines 821-866), the batch
    copy of the same code. *)
Definition checkSingleTimeSlotAvailabilityFromEvents
    (bookingEvents : list event) (timeSlot : slot_arg) (queryDateStr : ymd)
    : availability :=
  try_catch
    (w <- slot_window timeSlot queryDateStr ;;
     let (slotStart, slotEnd) := w in
     conflicting <- conflict_loop bookingEvents slotStart slotEnd queryDateStr [] ;;
     let conflictCount := Z.of_nat (List.length conflicting) in
     Ok (mkAvail (conflictCount =? 0) conflictCount conflicting))
    (fun _ => failedAvailability).

(* ------------------------------------------------------------------ *)
(** ** The interval reading of the overlap rule *)

(** Half-open overlap of the slot window [[s, s+d)] with the event
    [[a, b)], as the specification words it: [s < b AND a < s + d]. *)
Definition spec_overlap (s d a b : Z) : bool := (s <? b) && (a <? s + d).

(** The events of [events] that conflict with a slot starting at [s] on
    [queryDateStr] by the interval reading: same Taipei start date and
    [spec_overlap]. *)
Definition spec_conflicts (events : list event) (queryDateStr : ymd) (s : Z)
    : list event :=
  filter (fun e =>
            match ev_start e, ev_end e with
            | Some a, Some b =>
                ymd_eqb (civil_from_days ((a + UTC_OFFSET_MS) / MS_PER_DAY))
                        queryDateStr
                && spec_overlap s (defaultDuration * MS_PER_HOUR) a b
            | _, _ => false
            end) events.

(** Events whose start and end are valid dates. *)
Definition valid_event (e : event) : Prop :=
  exists a b, ev_start e = Some a /\ ev_end e = Some b.

(* ------------------------------------------------------------------ *)
(** ** Time-slot extraction from event titles *)

(** UTF-16 code units used by the patterns. *)
Definition CH_COLON : Z := 58.     (* ':' *)
Definition CH_DIAN : Z := 40670.   (* U+9EDE *)
Definition CH_SHI : Z := 26178.    (* U+6642 *)
Definition CH_SHANG : Z := 19978.  (* U+4E0A *)
Definition CH_WU : Z := 21320.     (* U+5348 *)
Definition CH_XIA : Z := 19979.    (* U+4E0B *)
Definition CH_WAN : Z := 26202.    (* U+665A *)

Definition MARK_AM : jsstring := [CH_SHANG; CH_WU].   (* morning marker *)
Definition MARK_PM : jsstring := [CH_XIA; CH_WU].     (* afternoon marker *)
Definition MARK_EVE : jsstring := [CH_WAN; CH_SHANG]. (* evening marker *)

(** [\d] *)
Definition is_digit (c : Z) : bool := (48 <=? c) && (c <=? 57).

(** [\s]: the JS white-space and line-terminator code units. *)
Definition is_space (c : Z) : bool :=
  existsb (Z.eqb c) [9; 10; 11; 12; 13; 32; 160; 5760; 8232; 8233; 8239;
                     8287; 12288; 65279]
  || ((8192 <=? c) && (c <=? 8202)).

(** [str.includes(sub)] *)
Fixpoint prefix_of (p s : jsstring) : bool :=
  match p, s with
  | [], _ => true
  | c :: p', d :: s' => (c =? d) && prefix_of p' s'
  | _ :: _, [] => false
  end.

Fixpoint includes (s sub : jsstring) : bool :=
  prefix_of sub s || match s with [] => false | _ :: s' => includes s' sub end.

(** A match of one pattern at the current position: the number of code
    units consumed, [parseInt(match[1])], and the value of [match[2]]
    ([None] when the group did not participate). *)
Definition match_result := (nat * Z * option Z)%type.

(** [(\d{2})] at the head of [s]. *)
Definition two_digits (s : jsstring) : option Z :=
  match s with
  | d1 :: d2 :: _ =>
      if is_digit d1 && is_digit d2 then Some (10 * (d1 - 48) + (d2 - 48))
      else None
  | _ => None
  end.

(** The alternatives of the greedy [(\d{1,2})] at the head of [s], in the
    order the regex engine tries them: two digits, then one digit; each
    with its value, its length and the rest of the input. *)
Definition hour_alternatives (s : jsstring) : list (Z * nat * jsstring) :=
  match s with
  | d1 :: rest1 =>
      if is_digit d1 then
        let one := (d1 - 48, 1%nat, rest1) in
        match rest1 with
        | d2 :: rest2 =>
            if is_digit d2 then [(10 * (d1 - 48) + (d2 - 48), 2%nat, rest2); one]
            else [one]
        | [] => [one]
        end
      else []
  | [] => []
  end.

(** First alternative for which the continuation succeeds (backtracking). *)
Fixpoint first_some {A B} (f : A -> option B) (l : list A) : option B :=
  match l with
  | [] => None
  | x :: l' => match f x with Some b => Some b | None => first_some f l' end
  end.

(** [/(\d{1,2}):(\d{2})/] at the head of [s]. *)
Definition pat_colon (s : jsstring) : option match_result :=
  first_some (fun '(h, n, rest) =>
      match rest with
      | c :: rest' =>
          if c =? CH_COLON then
            match two_digits rest' with
            | Some m => Some ((n + 3)%nat, h, Some m)
            | None => None
            end
          else None
      | [] => None
      end) (hour_alternatives s).

(** [/(\d{1,2})<suffix>(\d{2})?/] at the head of [s], for the suffixes
    U+9EDE and U+6642. *)
Definition pat_suffix (suffix : Z) (s : jsstring) : option match_result :=
  first_some (fun '(h, n, rest) =>
      match rest with
      | c :: rest' =>
          if c =? suffix then
            match two_digits rest' with
            | Some m => Some ((n + 3)%nat, h, Some m)
            | None => Some ((n + 1)%nat, h, None)
            end
          else None
      | [] => None
      end) (hour_alternatives s).

(** [\s*] (greedy; a shorter run cannot help since a digit must follow). *)
Fixpoint skip_spaces (s : jsstring) : nat * jsstring :=
  match s with
  | c :: s' => if is_space c then let '(k, r) := skip_spaces s' in (S k, r)
               else (0%nat, s)
  | [] => (0%nat, [])
  end.

(** [/<marker>\s*(\d{1,2}):?(\d{2})?/] at the head of [s], for the markers
    of morning, afternoon and evening.  Everything after [(\d{1,2})] is
    optional, so the first (greedy) choice of each quantifier succeeds. *)
Definition pat_marker (marker : jsstring) (s : jsstring) : option match_result :=
  if prefix_of marker s then
    let '(k, s1) := skip_spaces (skipn (List.length marker) s) in
    match hour_alternatives s1 with
    | (h, n, rest) :: _ =>
        let pre := (List.length marker + k + n)%nat in
        match rest with
        | c :: rest' =>
            if c =? CH_COLON then
              match two_digits rest' with
              | Some m => Some ((pre + 3)%nat, h, Some m)
              | None => Some ((pre + 1)%nat, h, None)
              end
            else
              match two_digits rest with
              | Some m => Some ((pre + 2)%nat, h, Some m)
              | None => Some (pre, h, None)
              end
        | [] => Some (pre, h, None)
        end
    | [] => None
    end
  else None.

(** The [timePatterns] array, in order. *)
Definition timePatterns : list (jsstring -> option match_result) :=
  [pat_colon; pat_suffix CH_DIAN; pat_suffix CH_SHI;
   pat_marker MARK_AM; pat_marker MARK_PM; pat_marker MARK_EVE].

(** [while ((match = pattern.exec(title)) !== null)] with the [g] flag:
    each [exec] finds the leftmost match at or after [lastIndex] and moves
    [lastIndex] past it.  A match consumes at least one code unit (the
    head [c] and [Nat.pred len] more). *)
Equations? exec_all (pattern : jsstring -> option match_result) (s : jsstring)
    : list (Z * option Z) by wf (List.length s) lt :=
  exec_all pattern [] := [];
  exec_all pattern (c :: cs) with pattern (c :: cs) => {
    | Some (len, h, m) := (h, m) :: exec_all pattern (skipn (Nat.pred len) cs);
    | None := exec_all pattern cs }.
Proof.
  all: try rewrite length_skipn; simpl; lia.
Qed.

(** A time string [String(hour).padStart(2,'0') + ':' +
    String(minute).padStart(2,'0')]: for integers 0..99 it is determined by
    the pair; the string of an invalid start time is ["NaN:NaN"]. *)
Inductive time_str :=
| TimeHM (hour minute : Z)
| TimeNaN.

Definition time_str_eqb (a b : time_str) : bool :=
  match a, b with
  | TimeHM h m, TimeHM h' m' => (h =? h') && (m =? m')
  | TimeNaN, TimeNaN => true
  | _, _ => false
  end.

(** [foundTimes.add(timeStr)] on an insertion-ordered [Set]. *)
Definition set_add (t : time_str) (s : list time_str) : list time_str :=
  if existsb (time_str_eqb t) s then s else s ++ [t].

(** The 12-hour correction of the loop body. *)
Definition correct_hour (title : jsstring) (hour : Z) : Z :=
  if includes title MARK_PM && (hour <? 12) then hour + 12
  else if includes title MARK_AM && (hour =? 12) then 0
  else hour.

(** The two nested loops over [timePatterns] and their matches. *)
Definition found_times (title : jsstring) : list time_str :=
  fold_left (fun found pattern =>
      fold_left (fun found '(h, m) =>
          let hour := correct_hour title h in
          let minute := match m with Some v => v | None => 0 end in
          set_add (TimeHM hour minute) found)
        (exec_all pattern title) found)
    timePatterns [].

(** [eventStartTime.getHours()], [getMinutes()] in the script time zone. *)
Definition local_time_str (d : jsdate) : time_str :=
  match d with
  | Some t => let local := (t + UTC_OFFSET_MS) mod MS_PER_DAY in
              TimeHM (local / MS_PER_HOUR) ((local mod MS_PER_HOUR) / MS_PER_MINUTE)
  | None => TimeNaN
  end.

Inductive period := Morning | Afternoon | Evening.  (* 上午, 下午, 晚上 *)

(** [let period = '晚上'; if (hour >= 6 && hour < 12) ...] *)
Definition period_of (t : time_str) : period :=
  match t with
  | TimeHM hour _ =>
      if (6 <=? hour) && (hour <? 12) then Morning
      else if (12 <=? hour) && (hour <? 18) then Afternoon
      else Evening
  | TimeNaN => Evening
  end.

(** A slot object; [label], [available: true], [source] and
    [originalTitle] are determined by these fields and the title. *)
Record slot := mkSlot { slot_time : time_str; slot_period : period }.

(** [extractTimeSlotsFromTitle(title, eventStartTime)] (lines 436-497);
    [eventStartTime] is [None] when it is not given. *)
Definition extractTimeSlotsFromTitle (title : jsstring)
    (eventStartTime : option jsdate) : list slot :=
  let found := found_times title in
  let found :=
    match found, eventStartTime with
    | [], Some d => set_add (local_time_str d) found
    | _, _ => found
    end in
  map (fun t => mkSlot t (period_of t)) found.

(* ------------------------------------------------------------------ *)
(** ** Calendar Event Source (AdvancedCalendarService) *)

(** A response of [Calendar.Events.list]: the page's items (already
    converted by [convertToCompatibleEvents]) and its [nextPageToken], or a
    thrown error. *)
Inductive page_response :=
| PageOk (items : list event) (nextPageToken : option string)
| PageError.

(** The upstream calendar of one query.  Within one query the calendar id,
    [timeMin], [timeMax] and [maxResults] are fixed, so the answer of the
    [n]-th call of [Calendar.Events.list] is an arbitrary function of [n]
    and of the page token sent.  [calendar_app] is the fallback
    [CalendarApp.getCalendarById(id).getEvents(start, end)]; [None] when it
    throws or finds no calendar. *)
Record upstream := mkUpstream {
  events_list : nat -> option string -> page_response;
  calendar_app : option (list event)
}.

(** [while (pageToken)]: [null], [undefined] and [''] are falsy. *)
Definition token_truthy (t : option string) : bool :=
  match t with
  | Some s => negb (String.eqb s "")
  | None => false
  end.

(** The [do { ... } while (pageToken)] loop of [executePaginatedQuery]
    (calendarService.gs, lines 96-140), returning [allEvents] and the page
    tokens of the [Calendar.Events.list] calls made, in order.  [pageCount]
    is the value before the [pageCount++] of the iteration; the loop only
    continues when [pageCount > 20] was false, so [21 - pageCount]
    decreases. *)
Equations? paginate_loop (api : nat -> option string -> page_response)
    (pageCount : nat) (pageToken : option string) (allEvents : list event)
    (fetches : list (option string)) : list event * list (option string)
    by wf (21 - pageCount)%nat lt :=
  paginate_loop api pageCount pageToken allEvents fetches
    with api (S pageCount) pageToken => {
    | PageError := (allEvents, fetches ++ [pageToken]);
    | PageOk items next with lt_dec 20%nat (S pageCount) => {
        | left _ := (allEvents ++ items, fetches ++ [pageToken]);
        | right Hle with token_truthy next => {
            | true := paginate_loop api (S pageCount) next (allEvents ++ items)
                        (fetches ++ [pageToken]);
            | false := (allEvents ++ items, fetches ++ [pageToken]) } } }.
Proof. clear paginate_loop. change (20 - pageCount < 21 - pageCount)%nat. lia. Qed.

(** [executePaginatedQuery]: [pageToken = null], [pageCount = 0]. *)
Definition executePaginatedQuery (u : upstream) : list event * list (option string) :=
  paginate_loop (events_list u) 0 None [] [].

(** [getEventsDirectly]: one [Calendar.Events.list] call; on error the
    [fallbackToCalendarApp] path, which returns [[]] when it fails too. *)
Definition fallbackToCalendarApp (u : upstream) : list event :=
  match calendar_app u with
  | Some evs => evs
  | None => []
  end.

Definition getEventsDirectly (u : upstream) : list event :=
  match events_list u 1%nat None with
  | PageOk items _ => items
  | PageError => fallbackToCalendarApp u
  end.

(** [Math.ceil(a / b)] for integers and positive [b]. *)
Definition ceil_div (a b : Z) : Z := - ((- a) / b).

(** [analyzeQueryComplexity(startTime, endTime).shouldUsePagination]:
    [queryDays > 30 || queryDays * 15 * 1.2 > 200 || queryDays > 90 / 3]. *)
Definition shouldUsePagination (startTime endTime : Z) : bool :=
  let queryDays := ceil_div (endTime - startTime) MS_PER_DAY in
  (30 <? queryDays) || (200 * 10 <? queryDays * 15 * 12) || (30 <? queryDays).

(** [AdvancedCalendarService.getEvents(calendarId, startTime, endTime)]
    with smart pagination enabled.  No branch throws.  With an invalid
    bound, [queryDays] is NaN, the direct query is chosen and its
    [startTime.toISOString()] throws inside its [try], so the CalendarApp
    fallback answers. *)
Definition getEvents (u : upstream) (startTime endTime : jsdate) : list event :=
  match startTime, endTime with
  | Some st, Some en =>
      if shouldUsePagination st en
      then fst (executePaginatedQuery u)
      else getEventsDirectly u
  | _, _ => fallbackToCalendarApp u
  end.

(* ------------------------------------------------------------------ *)
(** ** Configuration and the world the services run against *)

(** The script properties read by [CALENDAR_CONFIG]; [""] when unset. *)
Record config := mkConfig {
  GOOGLE_CALENDAR_ID : string;
  GOOGLE_TIMESLOTS_CALENDAR_ID : string
}.

Definition MSG_CALENDAR_ID_UNSET : string :=
  "Error: set the GOOGLE_CALENDAR_ID script property".

(** [get calendarId()] (config.gs, lines 79-85). *)
Definition calendarId (c : config) : res string :=
  if String.eqb (GOOGLE_CALENDAR_ID c) "" then Throw MSG_CALENDAR_ID_UNSET
  else Ok (GOOGLE_CALENDAR_ID c).

(** [get timeSlotsCalendarId()] (config.gs, lines 88-94). *)
Definition timeSlotsCalendarId (c : config) : res string :=
  if String.eqb (GOOGLE_TIMESLOTS_CALENDAR_ID c) "" then calendarId c
  else Ok (GOOGLE_TIMESLOTS_CALENDAR_ID c).

Definition CALENDAR_PLACEHOLDER : string := "YOUR_CALENDAR_ID@gmail.com".

(** What the services observe: whether [bookingLock.waitLock(30000)]
    succeeds, the configuration, and the upstream answers of each calendar
    for each query window. *)
Record world := mkWorld {
  w_lock_free : bool;
  w_config : config;
  w_calendar : string -> jsdate -> jsdate -> upstream
}.

(** A booking submission: the fields read by the validation and the row
    written; [None] is a missing property. *)
Record booking := mkBooking {
  customerName : option string;
  phone : option string;
  date : option string;
  time : option string;
  services : option string;
  remarks : option string
}.

(** The observable effects, in program order. *)
Inductive effect :=
| LockWait (acquired : bool)
| LockRelease
| FetchEvents (calId : string) (startTime endTime : jsdate)
| ClearCustomerCache
| AppendRow (row : booking)
| ClearBookingCache
| UpdateCustomerBookingInfo
| CreateCalendarEvent
| SendLineBookingConfirmation.

(** The trace of effects and the booking sheet's rows. *)
Record state := mkState {
  trace : list effect;
  store : list booking
}.

(** State and exceptions. *)
Definition M (A : Type) : Type := state -> res A * state.

Definition retM {A} (a : A) : M A := fun s => (Ok a, s).

Definition bindM {A B} (c : M A) (k : A -> M B) : M B :=
  fun s => match c s with
           | (Ok a, s') => k a s'
           | (Throw m, s') => (Throw m, s')
           end.

Notation "'let*' x ':=' c 'in' k" := (bindM c (fun x => k))
  (at level 200, x name, c at level 100, k at level 200).

Definition liftM {A} (r : res A) : M A := fun s => (r, s).

Definition emit (e : effect) : M unit :=
  fun s => (Ok tt, mkState (trace s ++ [e]) (store s)).

(** [bookingSheet.appendRow(rowData)]. *)
Definition appendRow (b : booking) : M unit :=
  fun s => (Ok tt, mkState (trace s ++ [AppendRow b]) (store s ++ [b])).

(** [try { c } catch (e) { h(e.message) }] *)
Definition catchM {A} (c : M A) (h : string -> M A) : M A :=
  fun s => match c s with
           | (Ok a, s') => (Ok a, s')
           | (Throw m, s') => h m s'
           end.

(** [try { c } finally { f }] *)
Definition finallyM {A} (c : M A) (f : M unit) : M A :=
  fun s => let '(r, s') := c s in
           match f s' with
           | (Ok _, s'') => (r, s'')
           | (Throw m, s'') => (Throw m, s'')
           end.

(** [AdvancedCalendarService.getEvents(calId, startTime, endTime)]: a
    fresh upstream query, recorded in the trace. *)
Definition getEventsM (w : world) (calId : string) (startTime endTime : jsdate)
    : M (list event) :=
  let* _ := emit (FetchEvents calId startTime endTime) in
  retM (getEvents (w_calendar w calId startTime endTime) startTime endTime).

(** [getOptimizedQueryRange(queryDateStr)] (part_002, lines 232-282) with
    [enableBusinessHoursFilter] on and business hours 08:00-22:00. *)
Definition getOptimizedQueryRange (queryDateStr : ymd) : jsdate * jsdate :=
  let businessStartTime := parseTaipeiDateTimeSec queryDateStr 8 0 0 in
  let businessEndTime := parseTaipeiDateTimeSec queryDateStr 22 0 59 in
  let dayStart := parseTaipeiDateTimeSec queryDateStr 0 0 0 in
  let dayEnd := parseTaipeiDateTimeSec queryDateStr 23 59 59 in
  (if date_lt businessStartTime dayStart then dayStart else businessStartTime,
   if date_lt dayEnd businessEndTime then dayEnd else businessEndTime).

(** [checkTimeSlotsAvailability(date, dateStr, timeSlots, calendarId)]
    (bookingService.gs, lines 567-588), the map as a list in slot order. *)
Definition checkTimeSlotsAvailability (w : world) (dateStr : ymd)
    (timeSlots : list slot_arg) (calId : string)
    : M (list (slot_arg * availability)) :=
  catchM
    (let '(startTime, endTime) := getOptimizedQueryRange dateStr in
     let* events := getEventsM w calId startTime endTime in
     retM (map (fun ts => (ts, checkSingleTimeSlotAvailability events ts dateStr))
               timeSlots))
    (fun _ => retM (map (fun ts => (ts, failedAvailability)) timeSlots)).

(** The object returned by [verifyBackendTimeSlotAvailability]:
    [available], [errorCode] ([None] for [null]) and [slotStatus]. *)
Record verify_result := mkVerify {
  v_available : bool;
  v_errorCode : option string;
  v_slotStatus : option availability
}.

Definition verify_default (errorCode : string) : verify_result :=
  mkVerify false (Some errorCode) None.

(** [verifyBackendTimeSlotAvailability(dateStr, timeStr)] (lines 246-295).
    Its only caller passes [booking.date] and [booking.time] after both
    passed their format checks, so the guard [!dateStr || !timeStr] never
    fires there and the strings are taken as their parsed fields.  Every
    read of [CALENDAR_CONFIG.calendarId] runs the getter, which throws when
    the property is unset; the reads all give the same value. *)
Definition verifyBackendTimeSlotAvailability (w : world) (dateStr : ymd)
    (timeStr : slot_arg) : M verify_result :=
  catchM
    (let* calId := liftM (calendarId (w_config w)) in
     if String.eqb calId CALENDAR_PLACEHOLDER
     then retM (verify_default "CALENDAR_NOT_CONFIGURED")
     else
       let* calId' := liftM (calendarId (w_config w)) in
       let* availabilityMap := checkTimeSlotsAvailability w dateStr [timeStr] calId' in
       match availabilityMap with
       | (_, slotStatus) :: _ =>
           retM (mkVerify (available slotStatus)
                   (if available slotStatus then None else Some "TIME_SLOT_CONFLICT"%string)
                   (Some slotStatus))
       | [] => retM (verify_default "SLOT_STATUS_MISSING")
       end)
    (fun _ => retM (verify_default "TIME_SLOT_CHECK_FAILED")).

(* ------------------------------------------------------------------ *)
(** ** Booking validation and the commit protocol *)

Definition ascii_digit (a : ascii) : option Z :=
  let n := Z.of_nat (nat_of_ascii a) in
  if (48 <=? n) && (n <=? 57) then Some (n - 48) else None.

(** The value of a string of decimal digits; [None] when a character is
    not a digit. *)
Definition digits_value (l : list ascii) : option Z :=
  fold_left (fun acc a =>
      match acc, ascii_digit a with
      | Some v, Some d => Some (10 * v + d)
      | _, _ => None
      end) l (Some 0).

(** [/^\d{4}-\d{2}-\d{2}$/.test(s)], with the three fields. *)
Definition date_regex_match (s : string) : option ymd :=
  match list_ascii_of_string s with
  | [y1; y2; y3; y4; d1; m1; m2; d2; a1; a2] =>
      if Ascii.eqb d1 "-"%char && Ascii.eqb d2 "-"%char then
        match digits_value [y1; y2; y3; y4], digits_value [m1; m2],
              digits_value [a1; a2] with
        | Some y, Some m, Some d => Some (y, m, d)
        | _, _, _ => None
        end
      else None
  | _ => None
  end.

(** [/[TZ]/i.test(s)] *)
Definition has_TZ (s : string) : bool :=
  existsb (fun a => Ascii.eqb a "T"%char || Ascii.eqb a "t"%char
                    || Ascii.eqb a "Z"%char || Ascii.eqb a "z"%char)
          (list_ascii_of_string s).

Definition digit_in (a : ascii) (lo hi : Z) : bool :=
  match ascii_digit a with
  | Some d => (lo <=? d) && (d <=? hi)
  | None => false
  end.

(** [SYSTEM_CONFIG.TIME_FORMAT_REGEX = /^([01]?\d|2[0-3]):[0-5]\d$/]: the
    strings it accepts, with the numbers [split(':').map(Number)] gives. *)
Definition time_regex_match (s : string) : option (Z * Z) :=
  match list_ascii_of_string s with
  | [h; c; m1; m2] =>
      if digit_in h 0 9 && Ascii.eqb c ":"%char && digit_in m1 0 5 && digit_in m2 0 9
      then match digits_value [h], digits_value [m1; m2] with
           | Some hv, Some mv => Some (hv, mv)
           | _, _ => None
           end
      else None
  | [h1; h2; c; m1; m2] =>
      if ((digit_in h1 0 1 && digit_in h2 0 9) || (digit_in h1 2 2 && digit_in h2 0 3))
         && Ascii.eqb c ":"%char && digit_in m1 0 5 && digit_in m2 0 9
      then match digits_value [h1; h2], digits_value [m1; m2] with
           | Some hv, Some mv => Some (hv, mv)
           | _, _ => None
           end
      else None
  | _ => None
  end.

(** [!booking[field]]: a missing property or [''] is falsy. *)
Definition field_missing (f : option string) : bool :=
  match f with
  | Some s => String.eqb s ""
  | None => true
  end.

Definition MSG_INVALID_DATE : string := "Error: invalid date format, use YYYY-MM-DD".
Definition MSG_INVALID_TIME : string := "Error: invalid time format, use HH:MM".

(** The validation at the top of the [try] block of [handleSaveBooking]
    (lines 34-55), returning the date and time it accepted.  The booking
    is always an object here. *)
Definition validateBooking (b : booking) : res (ymd * slot_arg) :=
  if field_missing (customerName b) then Throw "Error: missing required field: customerName"
  else if field_missing (phone b) then Throw "Error: missing required field: phone"
  else if field_missing (date b) then Throw "Error: missing required field: date"
  else if field_missing (time b) then Throw "Error: missing required field: time"
  else
    let ds := match date b with Some s => s | None => ""%string end in
    let ts := match time b with Some s => s | None => ""%string end in
    match date_regex_match ds with
    | None => Throw MSG_INVALID_DATE
    | Some d =>
        if has_TZ ds then Throw MSG_INVALID_DATE else
        match time_regex_match ts with
        | None => Throw MSG_INVALID_TIME
        | Some (hour, minute) => Ok (d, SlotHM hour minute)
        end
    end.

(** The object [handleSaveBooking] returns: [LOCK_TIMEOUT], a failure with
    [error] and [conflictDetails], or success.  A rethrown exception is
    [Throw]. *)
Inductive save_result :=
| SaveLockTimeout
| SaveRejected (error : string) (conflictDetails : option availability)
| SaveSuccess.

(** [handleSaveBooking(booking)] (bookingService.gs, lines 15-236).  The
    [catch] only rethrows.  The steps after [appendRow] that can fail
    (calendar event, notification, LINE message) catch their own errors;
    the sheets are assumed to exist. *)
Definition handleSaveBooking (w : world) (b : booking) : M save_result :=
  let* _ := emit (LockWait (w_lock_free w)) in
  if negb (w_lock_free w) then retM SaveLockTimeout
  else
    finallyM
      (let* v := liftM (validateBooking b) in
       let '(d, ts) := v in
       let* backendSlotCheck := verifyBackendTimeSlotAvailability w d ts in
       if negb (v_available backendSlotCheck)
       then retM (SaveRejected
                    (match v_errorCode backendSlotCheck with
                     | Some c => c
                     | None => "TIME_SLOT_UNAVAILABLE"%string
                     end)
                    (v_slotStatus backendSlotCheck))
       else
         let* _ := emit ClearCustomerCache in
         let* _ := appendRow b in
         let* _ := emit ClearBookingCache in
         let* _ := emit UpdateCustomerBookingInfo in
         let* _ := emit CreateCalendarEvent in
         let* _ := emit SendLineBookingConfirmation in
         retM SaveSuccess)
      (emit LockRelease).

(* ------------------------------------------------------------------ *)
(** ** Concrete inputs of the examples *)

(** The 2025-07-15 of the examples. *)
Definition day_2025_07_15 : ymd := (2025, 7, 15).

(** The titles "下午2:00" and "晚上8:00". *)
Definition title_pm_2 : jsstring := [CH_XIA; CH_WU; 50; 58; 48; 48].
Definition title_eve_8 : jsstring := [CH_WAN; CH_SHANG; 56; 58; 48; 48].

(** An upstream whose [nextPageToken] never becomes empty. *)
Definition endless_token_api : nat -> option string -> page_response :=
  fun _ _ => PageOk [] (Some "next"%string).

(** A configured booking calendar ["salon@example.com"]. *)
Definition example_config : config := mkConfig "salon@example.com" "".

(** A booking event on 2025-07-15 from 10:00 to 11:00 (+08:00). *)
Definition booking_1000 : event :=
  mkEvent [] (Some (20284 * MS_PER_DAY + 2 * MS_PER_HOUR))
             (Some (20284 * MS_PER_DAY + 3 * MS_PER_HOUR)).

(** A free lock, and a booking calendar whose every query answers
    [booking_1000] on one page. *)
Definition world_busy_1000 : world :=
  mkWorld true example_config
    (fun _ _ _ => mkUpstream (fun _ _ => PageOk [booking_1000] None) None).

(** A free lock, and a booking calendar whose list calls all fail and
    whose CalendarApp fallback fails too. *)
Definition world_fetch_fails : world :=
  mkWorld true example_config
    (fun _ _ _ => mkUpstream (fun _ _ => PageError) None).

(** A well-formed booking for 2025-07-15 10:00. *)
Definition booking_0715_1000 : booking :=
  mkBooking (Some "Amy"%string) (Some "0912345678"%string)
            (Some "2025-07-15"%string) (Some "10:00"%string) None None.

(** The same booking without its phone. *)
Definition booking_no_phone : booking :=
  mkBooking (Some "Amy"%string) None
            (Some "2025-07-15"%string) (Some "10:00"%string) None None.

(* ------------------------------------------------------------------ *)
(** ** The batch availability query *)

Definition throwM {A} (msg : string) : M A := liftM (Throw msg).

(** [new Date('YYYY-MM-DD')]: the date-only ISO form is UTC midnight. *)
Definition parseDateOnly (d : ymd) : jsdate :=
  match ymd_day_number d with
  | Some day => Some (day * MS_PER_DAY)
  | None => None
  end.

(** [d.setHours(h, m, 0, 0)] in the script time zone, Asia/Taipei, which
    has no daylight saving time; on the invalid date it stays invalid. *)
Definition setHoursTaipei (d : jsdate) (h m : Z) : jsdate :=
  match d with
  | Some t =>
      let localDay := (t + UTC_OFFSET_MS) / MS_PER_DAY in
      Some (localDay * MS_PER_DAY + h * MS_PER_HOUR + m * MS_PER_MINUTE - UTC_OFFSET_MS)
  | None => None
  end.

(** [getOptimizedQueryRangeBatch(startDateStr, endDateStr)] (part_002,
    lines 289-326) with business hours 08:00-22:00; nothing in its [try]
    throws. *)
Definition getOptimizedQueryRangeBatch (startDateStr endDateStr : ymd) : jsdate * jsdate :=
  let startDate := parseTaipeiDateTimeSec startDateStr 0 0 0 in
  let endDate := parseTaipeiDateTimeSec endDateStr 23 59 59 in
  (setHoursTaipei startDate 8 0, setHoursTaipei endDate 22 0).

(** A plain object keyed by date strings, in insertion order. *)
Definition date_dict := list (ymd * list event).

Fixpoint dict_get (k : ymd) (m : date_dict) : option (list event) :=
  match m with
  | [] => None
  | (k', l) :: rest => if ymd_eqb k k' then Some l else dict_get k rest
  end.

(** [obj[k] || []] *)
Definition dict_find (k : ymd) (m : date_dict) : list event :=
  match dict_get k m with
  | Some l => l
  | None => []
  end.

(** [if (!obj[k]) obj[k] = []; obj[k].push(e);] *)
Fixpoint dict_push (k : ymd) (e : event) (m : date_dict) : date_dict :=
  match m with
  | [] => [(k, [e])]
  | (k', l) :: rest =>
      if ymd_eqb k k' then (k', l ++ [e]) :: rest else (k', l) :: dict_push k e rest
  end.

(** The [events.forEach] grouping by Taipei date of
    [handleBatchCheckTimeSlotAvailability], keeping the dates in
    [startDate..endDate] (string comparison). *)
Fixpoint group_by_date (startDate endDate : ymd) (events : list event)
    (acc : date_dict) : res date_dict :=
  match events with
  | [] => Ok acc
  | ev :: rest =>
      eventDateStr <- getTaipeiDateString (ev_start ev) ;;
      if ymd_leb startDate eventDateStr && ymd_leb eventDateStr endDate
      then group_by_date startDate endDate rest (dict_push eventDateStr ev acc)
      else group_by_date startDate endDate rest acc
  end.

(** [availableSlots.find(s => s.time === slot.time)] and [push]. *)
Definition slot_add (acc : list slot) (sl : slot) : list slot :=
  if existsb (fun s => time_str_eqb (slot_time s) (slot_time sl)) acc
  then acc else acc ++ [sl].

(** The [for (const event of events)] loop of [extractTimeSlotsFromEvents]. *)
Fixpoint extract_loop (events : list event) (dateStr : ymd) (acc : list slot)
    : res (list slot) :=
  match events with
  | [] => Ok acc
  | ev :: rest =>
      eventDateStr <- getTaipeiDateString (ev_start ev) ;;
      if ymd_eqb eventDateStr dateStr
      then extract_loop rest dateStr
             (fold_left slot_add (extractTimeSlotsFromTitle (ev_title ev) (Some (ev_start ev))) acc)
      else extract_loop rest dateStr acc
  end.

(** [a.time.localeCompare(b.time) < 0] on ["HH:MM"] strings of two-digit
    fields; ["NaN:NaN"] sorts after digits. *)
Definition time_str_ltb (a b : time_str) : bool :=
  match a, b with
  | TimeHM h m, TimeHM h' m' => (h <? h') || ((h =? h') && (m <? m'))
  | TimeHM _ _, TimeNaN => true
  | TimeNaN, _ => false
  end.

Fixpoint insert_slot (sl : slot) (l : list slot) : list slot :=
  match l with
  | [] => [sl]
  | x :: rest =>
      if time_str_ltb (slot_time sl) (slot_time x) then sl :: l
      else x :: insert_slot sl rest
  end.

(** [availableSlots.sort((a, b) => a.time.localeCompare(b.time))], a
    stable sort. *)
Definition sort_slots (l : list slot) : list slot :=
  fold_left (fun acc sl => insert_slot sl acc) l [].

(** [extractTimeSlotsFromEvents(events, dateStr)] (lines 766-794). *)
Definition extractTimeSlotsFromEvents (events : list event) (dateStr : ymd) : list slot :=
  try_catch (acc <- extract_loop events dateStr [] ;; Ok (sort_slots acc))
            (fun _ => []).

(** A slot's [time] string read back by [split(':').map(Number)]. *)
Definition slot_arg_of_time_str (t : time_str) : slot_arg :=
  match t with
  | TimeHM h m => SlotHM h m
  | TimeNaN => SlotUnparsable
  end.

(** [checkTimeSlotsAvailabilityFromEvents(bookingEvents, timeSlots, date,
    queryDateStr)] (lines 799-817); its [catch] never fires, each slot's
    check catching its own errors. *)
Definition checkTimeSlotsAvailabilityFromEvents (bookingEvents : list event)
    (timeSlots : list time_str) (queryDateStr : ymd) : list (time_str * availability) :=
  map (fun t => (t, checkSingleTimeSlotAvailabilityFromEvents bookingEvents
                      (slot_arg_of_time_str t) queryDateStr))
      timeSlots.

(** [result[dateStr]]: [{}] for a day without slots, or the slots'
    availability map. *)
Inductive day_result :=
| DayEmpty
| DaySlots (availability : list (time_str * availability)).

(** The [try] block of one day of the loop; nothing in it throws, so its
    [catch] never fires. *)
Definition processDay (dayTimeSlotsEvents dayBookingEvents : list event)
    (dateStr : ymd) : day_result :=
  match extractTimeSlotsFromEvents dayTimeSlotsEvents dateStr with
  | [] => DayEmpty
  | availableSlots =>
      let timeSlotStrings := map slot_time availableSlots in
      DaySlots (checkTimeSlotsAvailabilityFromEvents dayBookingEvents
                  timeSlotStrings dateStr)
  end.

(** [for (let currentDate = new Date(start); currentDate <= end;
    currentDate.setDate(currentDate.getDate() + 1))]: a local day is
    [MS_PER_DAY] in Asia/Taipei.  [fuel] bounds the iterations; it is
    given one more than the whole days from [start] to [end], which the
    loop condition never exceeds. *)
Fixpoint day_loop (fuel : nat) (currentDate endTime : Z)
    (timeSlotsByDate bookingsByDate : date_dict) : res (list (ymd * day_result)) :=
  match fuel with
  | O => Ok []
  | S fuel' =>
      if currentDate <=? endTime then
        dateStr <- getTaipeiDateString (Some currentDate) ;;
        let dayTimeSlotsEvents := dict_find dateStr timeSlotsByDate in
        let dayBookingEvents := dict_find dateStr bookingsByDate in
        rest <- day_loop fuel' (currentDate + MS_PER_DAY) endTime
                  timeSlotsByDate bookingsByDate ;;
        Ok ((dateStr, processDay dayTimeSlotsEvents dayBookingEvents dateStr) :: rest)
      else Ok []
  end.

(** The returned object: [{ success: true, data }] or
    [{ success: false, error }]. *)
Inductive batch_result :=
| BatchOk (data : list (ymd * day_result))
| BatchFail (error : string).

Definition MSG_DATE_FORMAT : string := "date format error, use YYYY-MM-DD".
Definition MSG_INVALID_DATE_VALUE : string := "invalid date format".
Definition MSG_START_AFTER_END : string := "start date cannot be later than end date".
Definition MSG_RANGE_TOO_LARGE : string := "query range too large, at most 62 days".
Definition MSG_CALENDAR_NOT_SET : string := "calendar configuration not set".

Definition maxDays : Z := 62.

(** [handleBatchCheckTimeSlotAvailability(startDate, endDate)]
    (bookingService.gs, lines 649-761).  The outer [catch] returns the
    thrown message. *)
Definition handleBatchCheckTimeSlotAvailability (w : world)
    (startDate endDate : string) : M batch_result :=
  catchM
    (match date_regex_match startDate, date_regex_match endDate with
     | Some sd, Some ed =>
         match parseDateOnly sd, parseDateOnly ed with
         | Some start, Some end_ =>
             if end_ <? start then throwM MSG_START_AFTER_END else
             let daysDiff := ceil_div (end_ - start) MS_PER_DAY in
             if maxDays <? daysDiff then throwM MSG_RANGE_TOO_LARGE else
             let* timeSlotsCalId := liftM (timeSlotsCalendarId (w_config w)) in
             let* bookingCalId := liftM (calendarId (w_config w)) in
             if String.eqb timeSlotsCalId "" || String.eqb bookingCalId ""
             then retM (BatchFail MSG_CALENDAR_NOT_SET) else
             let '(rangeStartTime, rangeEndTime) := getOptimizedQueryRangeBatch sd ed in
             let* timeSlotsEvents := getEventsM w timeSlotsCalId rangeStartTime rangeEndTime in
             let* bookingEvents := getEventsM w bookingCalId rangeStartTime rangeEndTime in
             let* timeSlotsByDate := liftM (group_by_date sd ed timeSlotsEvents []) in
             let* bookingsByDate := liftM (group_by_date sd ed bookingEvents []) in
             let* result := liftM (day_loop (Z.to_nat ((end_ - start) / MS_PER_DAY) + 1)
                                    start end_ timeSlotsByDate bookingsByDate) in
             retM (BatchOk result)
         | _, _ => throwM MSG_INVALID_DATE_VALUE
         end
     | _, _ => throwM MSG_DATE_FORMAT
     end)
    (fun msg => retM (BatchFail msg)).

(** The events of [events] whose Taipei date is [d] and lies in
    [startDate..endDate]: the bucket of [d] as the spec describes it. *)
Definition bucket (startDate endDate : ymd) (events : list event) (d : ymd) : list event :=
  filter (fun ev => match getTaipeiDateString (ev_start ev) with
                    | Ok d' => ymd_eqb d' d && ymd_leb startDate d' && ymd_leb d' endDate
                    | Throw _ => false
                    end) events.

(* ------------------------------------------------------------------ *)
(** ** The slot queries of the booking page *)

Definition MSG_DATE_MISSING : string := "missing query date parameter".
Definition MSG_RANGE_MISSING : string := "missing start date or end date parameter".
Definition MSG_CALENDAR_UNSET : string := "calendar not set".

(** [createTaipeiDateFromYMD(dateString)] (part_002) on a string that
    passed [/^\d{4}-\d{2}-\d{2}$/]:
    [new Date(dateString + 'T00:00:00+08:00')]. *)
Definition createTaipeiDateFromYMD (d : ymd) : jsdate :=
  parseTaipeiDateTimeSec d 0 0 0.

(** [getAvailableTimeSlotsFromCalendar(date)] (bookingService.gs, lines
    398-430).  Its loop is the loop of [extractTimeSlotsFromEvents]
    ([extract_loop]); the [catch] answers [[]]. *)
Definition getAvailableTimeSlotsFromCalendar (w : world) (date : jsdate)
    : M (list slot) :=
  catchM
    (let* readCalendarId := liftM (timeSlotsCalendarId (w_config w)) in
     let* queryDateStr := liftM (getTaipeiDateString date) in
     let '(startTime, endTime) := getOptimizedQueryRange queryDateStr in
     let* events := getEventsM w readCalendarId startTime endTime in
     let* availableSlots := liftM (extract_loop events queryDateStr []) in
     retM (sort_slots availableSlots))
    (fun _ => retM []).

(** The object [handleGetAvailableTimeSlots] returns: success with
    [availableSlots], success with [[]] for a past date, or a failure. *)
Inductive slots_result :=
| SlotsFound (availableSlots : list slot)
| SlotsPastDate
| SlotsFail (error : string).

(** [handleGetAvailableTimeSlots(date)] (bookingService.gs, lines 327-396)
    at the instant [now] ([new Date()]).  The [calendarId] getter throws
    when the property is unset, so [!calendarId] never holds after it
    returned. *)
Definition handleGetAvailableTimeSlots (w : world) (now : Z) (date : option string)
    : M slots_result :=
  catchM
    (if field_missing date then throwM MSG_DATE_MISSING else
     let ds := match date with Some s => s | None => ""%string end in
     match date_regex_match ds with
     | None => throwM MSG_DATE_FORMAT
     | Some d =>
         let* calId := liftM (calendarId (w_config w)) in
         if String.eqb calId CALENDAR_PLACEHOLDER
         then retM (SlotsFail MSG_CALENDAR_UNSET) else
         match parseDateOnly d with
         | None => throwM MSG_INVALID_DATE_VALUE
         | Some queryDate =>
             let today := setHoursTaipei (Some now) 0 0 in
             if date_lt (Some queryDate) today then retM SlotsPastDate else
             let* availableSlots := getAvailableTimeSlotsFromCalendar w (Some queryDate) in
             retM (SlotsFound availableSlots)
         end
     end)
    (fun msg => retM (SlotsFail msg)).

(** [dateSlots[dateStr]]: a skipped past day, or the day's slots. *)
Inductive day_slots :=
| DaySkipped
| DayQueried (availableSlots : list slot).

(** The day loop of [handleGetBatchAvailableTimeSlots], with [fuel] as in
    [day_loop].  [getAvailableTimeSlotsFromCalendar] catches its own
    errors, so the per-day [catch] never fires. *)
Fixpoint slots_day_loop (w : world) (fuel : nat) (currentDate endTime : Z)
    (today : jsdate) : M (list (ymd * day_slots)) :=
  match fuel with
  | O => retM []
  | S fuel' =>
      if currentDate <=? endTime then
        let* dateStr := liftM (getTaipeiDateString (Some currentDate)) in
        if date_lt (Some currentDate) today then
          let* rest := slots_day_loop w fuel' (currentDate + MS_PER_DAY) endTime today in
          retM ((dateStr, DaySkipped) :: rest)
        else
          let* availableSlots := getAvailableTimeSlotsFromCalendar w (Some currentDate) in
          let* rest := slots_day_loop w fuel' (currentDate + MS_PER_DAY) endTime today in
          retM ((dateStr, DayQueried availableSlots) :: rest)
      else retM []
  end.

(** The object [handleGetBatchAvailableTimeSlots] returns; its counters
    [totalDays] and [totalSlots] count the [DayQueried] entries and their
    slots. *)
Inductive batch_slots_result :=
| BatchSlotsOk (dateSlots : list (ymd * day_slots))
| BatchSlotsFail (error : string).

(** [handleGetBatchAvailableTimeSlots(startDate, endDate)]
    (bookingService.gs, lines 873-961) at the instant [now]. *)
Definition handleGetBatchAvailableTimeSlots (w : world) (now : Z)
    (startDate endDate : option string) : M batch_slots_result :=
  catchM
    (if field_missing startDate || field_missing endDate
     then throwM MSG_RANGE_MISSING else
     let sds := match startDate with Some s => s | None => ""%string end in
     let eds := match endDate with Some s => s | None => ""%string end in
     match date_regex_match sds, date_regex_match eds with
     | Some sd, Some ed =>
         let* calId := liftM (calendarId (w_config w)) in
         if String.eqb calId CALENDAR_PLACEHOLDER
         then retM (BatchSlotsFail MSG_CALENDAR_UNSET) else
         match parseDateOnly sd, parseDateOnly ed with
         | Some start, Some end_ =>
             if end_ <? start then throwM MSG_START_AFTER_END else
             let daysDiff := ceil_div (end_ - start) MS_PER_DAY in
             if maxDays <? daysDiff then throwM MSG_RANGE_TOO_LARGE else
             let today := setHoursTaipei (Some now) 0 0 in
             let* dateSlots := slots_day_loop w (Z.to_nat ((end_ - start) / MS_PER_DAY) + 1)
                                 start end_ today in
             retM (BatchSlotsOk dateSlots)
         | _, _ => throwM MSG_INVALID_DATE_VALUE
         end
     | _, _ => throwM MSG_DATE_FORMAT
     end)
    (fun msg => retM (BatchSlotsFail msg)).




(* ------------------------------------------------------------------ *)
(** ** Stable sorting *)

(** Insertion of [x] before the first element it must precede. *)
Fixpoint insert_by {A} (before : A -> A -> bool) (x : A) (l : list A) : list A :=
  match l with
  | [] => [x]
  | y :: rest => if before x y then x :: l else y :: insert_by before x rest
  end.

(** [Array.prototype.sort] with a comparator, which is stable: [before a b]
    is [compare(a, b) < 0]. *)
Definition sort_by {A} (before : A -> A -> bool) (l : list A) : list A :=
  fold_left (fun acc x => insert_by before x acc) l [].

(* ------------------------------------------------------------------ *)
(** ** Yearly booking sheets *)

(** [BOOKING_SHEET_NAME = '預約記錄'] (config.gs, line 10). *)
Definition BOOKING_SHEET_NAME : jsstring := [38928; 32004; 35352; 37636].

(** [/^預約記錄\d{4}$/.test(sheetName)] (part_002, lines 173-176). *)
Definition isBookingSheetName (sheetName : jsstring) : bool :=
  match sheetName with
  | [c1; c2; c3; c4; y1; y2; y3; y4] =>
      (c1 =? 38928) && (c2 =? 32004) && (c3 =? 35352) && (c4 =? 37636)
      && is_digit y1 && is_digit y2 && is_digit y3 && is_digit y4
  | _ => false
  end.

(** [getBookingSheetNameByDate(dateStr)] (part_002, lines 183-196) on a
    string: [''] is falsy; [year = dateStr.substring(0, 4)]. *)
Definition getBookingSheetNameByDate (dateStr : jsstring) : res jsstring :=
  match dateStr with
  | [] => Throw "invalid date parameter"
  | _ =>
      let year := firstn 4 dateStr in
      if (List.length year =? 4)%nat && forallb is_digit year
      then Ok (BOOKING_SHEET_NAME ++ year)
      else Throw "cannot extract the year from the date"
  end.

(** [parseInt] of a string of decimal digits. *)
Definition js_digits_value (l : jsstring) : Z :=
  fold_left (fun acc c => 10 * acc + (c - 48)) l 0.

(** [parseInt(name.replace(BOOKING_SHEET_NAME, ''))] on a name that
    [isBookingSheetName] accepts: the value of its four digits. *)
Definition sheet_year (name : jsstring) : Z := js_digits_value (skipn 4 name).

(** [getAllBookingSheetNames()] (part_002, lines 202-223) on the names of
    the spreadsheet's sheets, in sheet order; the comparator is
    [yearB - yearA]. *)
Definition getAllBookingSheetNames (sheetNames : list jsstring) : list jsstring :=
  sort_by (fun a b => sheet_year b <? sheet_year a)
          (filter isBookingSheetName sheetNames).

(** The code units of a string of ASCII characters, such as a date that
    passed [/^\d{4}-\d{2}-\d{2}$/]. *)
Definition js_of_ascii_string (s : string) : jsstring :=
  map (fun a => Z.of_nat (nat_of_ascii a)) (list_ascii_of_string s).

(* ------------------------------------------------------------------ *)
(** ** The calendar deletion sync *)

(** A changed event of [Calendar.Events.list] with a sync token: its [id]
    and [status]. *)
Record cal_change := mkChange { change_id : string; change_status : string }.

(** A data row of a booking sheet (row 2 and below): [String(value)] of
    its column 11, the calendar event id, and its other cells. *)
Record sheet_row := mkRow { eventIdCell : string; otherCells : list string }.

(** A sheet: its name and its data rows; row 1 is the header row, so
    [getLastRow()] is one more than the number of data rows, and a sheet
    without data rows has [lastRow <= 1]. *)
Definition sheet := (jsstring * list sheet_row)%type.

(** [sheetId.split('@')[0]] *)
Fixpoint before_at (s : string) : string :=
  match s with
  | EmptyString => EmptyString
  | String c rest => if Ascii.eqb c "@"%char then EmptyString else String c (before_at rest)
  end.

(** [if (sheetId.includes('@google.com')) sheetId = sheetId.split('@')[0]] *)
Definition normalizeSheetId (sheetId : string) : string :=
  match String.index 0 "@google.com" sheetId with
  | Some _ => before_at sheetId
  | None => sheetId
  end.

(** The inner [for] loop: the row numbers [i + 2] whose id matches. *)
Fixpoint scan_ids (targetId : string) (i : Z) (eventIdsInSheet : list string) : list Z :=
  match eventIdsInSheet with
  | [] => []
  | sheetId :: rest =>
      (if String.eqb (normalizeSheetId sheetId) targetId then [i + 2] else [])
      ++ scan_ids targetId (i + 1) rest
  end.

(** [rowsToDelete], filled by [deletedEventIds.forEach]. *)
Definition rowsToDelete (deletedEventIds eventIdsInSheet : list string) : list Z :=
  flat_map (fun targetId => scan_ids targetId 0 eventIdsInSheet) deletedEventIds.

(** [[...new Set(l)]]: the first occurrences, in order. *)
Definition set_of_list (l : list Z) : list Z :=
  fold_left (fun acc x => if existsb (Z.eqb x) acc then acc else acc ++ [x]) l [].

(** [sheet.deleteRow(row)]: the rows below move up by one. *)
Definition deleteRow (row : Z) (rows : list sheet_row) : list sheet_row :=
  firstn (Z.to_nat (row - 2)) rows ++ skipn (S (Z.to_nat (row - 2))) rows.

(** The body of the [for (const sheetName of bookingSheetNames)] loop on
    one sheet's data rows: the rows left and the rows deleted.  Every row
    deleted lies in the sheet, so no [deleteRow] throws. *)
Definition processSheet (deletedEventIds : list string) (rows : list sheet_row)
    : list sheet_row * Z :=
  match rows with
  | [] => (rows, 0)
  | _ =>
      let eventIdsInSheet := map eventIdCell rows in
      match rowsToDelete deletedEventIds eventIdsInSheet with
      | [] => (rows, 0)
      | toDelete =>
          let uniqueRows := sort_by (fun a b => b <? a) (set_of_list toDelete) in
          (fold_left (fun rs row => deleteRow row rs) uniqueRows rows,
           Z.of_nat (List.length uniqueRows))
      end
  end.

(** [getSheet(name)] on an existing sheet, and the update of its rows. *)
Fixpoint sheet_rows (name : jsstring) (sheets : list sheet) : list sheet_row :=
  match sheets with
  | [] => []
  | (n, rows) :: rest => if list_eq_dec Z.eq_dec n name then rows else sheet_rows name rest
  end.

Fixpoint set_sheet_rows (name : jsstring) (rows : list sheet_row) (sheets : list sheet)
    : list sheet :=
  match sheets with
  | [] => []
  | (n, rs) :: rest =>
      if list_eq_dec Z.eq_dec n name then (n, rows) :: rest
      else (n, rs) :: set_sheet_rows name rows rest
  end.

(** One iteration of the [bookingSheetNames.forEach] loop of
    [processCalendarChanges]: process the named sheet and add its count. *)
Definition sync_step (deletedEventIds : list string) (acc : list sheet * Z) (sheetName : jsstring)
    : list sheet * Z :=
  let '(shs, total) := acc in
  let '(rows', n) := processSheet deletedEventIds (sheet_rows sheetName shs) in
  (set_sheet_rows sheetName rows' shs, total + n).

(** [processCalendarChanges(events)] (calendarService.gs, lines 537-612)
    on the spreadsheet's sheets: the sheets after the deletions and the
    cache effect ([clearBookingCache()] when a row was deleted). *)
Definition processCalendarChanges (events : list cal_change) (sheets : list sheet)
    : list sheet * list effect :=
  let deletedEventIds :=
    map change_id (filter (fun e => String.eqb (change_status e) "cancelled") events) in
  match deletedEventIds with
  | [] => (sheets, [])
  | _ =>
      let bookingSheetNames := getAllBookingSheetNames (map fst sheets) in
      let '(sheets', totalDeletedCount) :=
        fold_left (sync_step deletedEventIds) bookingSheetNames (sheets, 0) in
      (sheets', if 0 <? totalDeletedCount then [ClearBookingCache] else [])
  end.

(* ================================================================== *)
(** * Auxiliary notions for the properties *)

(** An effect other than taking or releasing the script lock. *)
Definition not_lock_effect (e : effect) : Prop :=
  match e with LockWait _ | LockRelease => False | _ => True end.

(** [b] does not sort strictly before [a] under the comparator [before]. *)
Definition not_after {A} (before : A -> A -> bool) (a b : A) : Prop := before b a = false.

(** The elements of [l] whose position (counted from [k]) satisfies [P]. *)
Fixpoint keep_from {A} (P : nat -> bool) (k : nat) (l : list A) : list A :=
  match l with
  | [] => []
  | x :: rest => if P k then x :: keep_from P (S k) rest else keep_from P (S k) rest
  end.

(** The successive [deleteRow] calls of [processSheet]. *)
Definition del_rows (L : list Z) (rows : list sheet_row) : list sheet_row :=
  fold_left (fun rs row => deleteRow row rs) L rows.

Definition name_in (m : jsstring) (P : list jsstring) : bool :=
  if in_dec (list_eq_dec Z.eq_dec) m P then true else false.

(** The rows whose normalised event id is not among [ids]. *)
Definition kept_rows (ids : list string) (rows : list sheet_row) : list sheet_row :=
  filter (fun r => negb (existsb (String.eqb (normalizeSheetId (eventIdCell r))) ids)) rows.

(** The state of the [processCalendarChanges] loop after the sheets [P]:
    those sheets keep only their [kept_rows], and the count is positive
    exactly when one of them lost a row. *)
Definition sync_inv (sheets : list sheet) (ids : list string)
    (P : list jsstring) (acc : list sheet * Z) : Prop :=
  fst acc = map (fun p => (fst p, if name_in (fst p) P then kept_rows ids (snd p) else snd p)) sheets
  /\ 0 <= snd acc
  /\ (0 <? snd acc)
     = existsb (fun n => (List.length (kept_rows ids (sheet_rows n sheets))
                          <? List.length (sheet_rows n sheets))%nat) P.

(** Gregorian leap years and month lengths: the calendar dates that a
    [YYYY-MM-DD] string can name. *)
Definition leap_year (y : Z) : bool :=
  ((y mod 4 =? 0) && negb (y mod 100 =? 0)) || (y mod 400 =? 0).

Definition days_in_month (y m : Z) : Z :=
  if m =? 2 then (if leap_year y then 29 else 28)
  else if (m =? 4) || (m =? 6) || (m =? 9) || (m =? 11) then 30 else 31.

(** The length of month [mp] (0 = March, ..., 11 = February) of the year
    [yoe] of a 400-year era in [civil_from_days], whose February falls in
    the calendar year [yoe + 1]. *)
Definition shifted_month_length (yoe mp : Z) : Z :=
  if mp =? 11 then
    (if (((yoe + 1) mod 4 =? 0) && negb ((yoe + 1) mod 100 =? 0)) || ((yoe + 1) mod 400 =? 0)
     then 29 else 28)
  else if (mp =? 1) || (mp =? 3) || (mp =? 6) || (mp =? 8) then 30 else 31.

(* ------------------------------------------------------------------ *)
(** ** Example inputs *)

(** An events list that answers [booking_1000] and the token ["page2"] on
    its first call, and an empty last page on every later call. *)
Definition upstream_two_pages : upstream :=
  mkUpstream (fun n _ => match n with
                         | 1%nat => PageOk [booking_1000] (Some "page2"%string)
                         | _ => PageOk [] None
                         end) None.

Definition pages_two : list (list event * option string) :=
  [([booking_1000], Some "page2"%string); ([], None)].

(** The same first page, then an error on every later call. *)
Definition upstream_error_second : upstream :=
  mkUpstream (fun n _ => match n with
                         | 1%nat => PageOk [booking_1000] (Some "page2"%string)
                         | _ => PageError
                         end) None.

(** An event whose start time is the invalid date. *)
Definition event_invalid_start : event := mkEvent [] None None.

(** The name of the 2025 booking sheet. *)
Definition sheet_name_2025 : jsstring := BOOKING_SHEET_NAME ++ [50; 48; 50; 53].

(** A cancelled and a confirmed event. *)
Definition changes_one_cancelled : list cal_change :=
  [mkChange "evt1" "cancelled"; mkChange "evt2" "confirmed"].

(** A booking sheet with a row for each event, and a sheet named "Cu"
    that is not a booking sheet. *)
Definition sheets_example : list sheet :=
  [(sheet_name_2025, [mkRow "evt1@google.com" []; mkRow "evt2@google.com" []]);
   ([67; 117], [mkRow "evt1" []])].

(* ================================================================== *)
(** * Properties *)

Example day_2025_07_15_value : ymd_day_number day_2025_07_15 = Some 20284.
Proof. reflexivity. Qed.

Example civil_from_days_2025_07_15 : civil_from_days 20284 = day_2025_07_15.
Proof. reflexivity. Qed.

Lemma ymd_eqb_true a b : ymd_eqb a b = true -> a = b.
Proof.
  destruct a as [[y m] d], b as [[y' m'] d']. cbn.
  rewrite !andb_true_iff, !Z.eqb_eq. intros [[-> ->] ->]. reflexivity.
Qed.

Example getTaipeiDateString_midnight :
  getTaipeiDateString (parseTaipeiDateTime day_2025_07_15 0 0) = Ok day_2025_07_15.
Proof. reflexivity. Qed.

(** Scenario C: slot 10:00, event 09:30-10:30, gives one conflict. *)
Example scenario_C :
  let ev := mkEvent [] (parseTaipeiDateTime day_2025_07_15 9 30)
                       (parseTaipeiDateTime day_2025_07_15 10 30) in
  checkSingleTimeSlotAvailability [ev] (SlotHM 10 0) day_2025_07_15
  = mkAvail false 1 [ev].
Proof. reflexivity. Qed.

Lemma conflict_loop_acc events s1 s2 qd acc :
  conflict_loop events s1 s2 qd acc =
  res_bind (conflict_loop events s1 s2 qd []) (fun l => Ok (acc ++ l)).
Proof.
  revert acc. induction events as [|e rest IH]; intros acc; simpl.
  - rewrite app_nil_r. reflexivity.
  - destruct (getTaipeiDateString (ev_start e)) as [d|m]; simpl; [|reflexivity].
    destruct (negb (ymd_eqb d qd)); [apply IH|].
    destruct (date_lt s1 (ev_end e) && date_lt (ev_start e) s2).
    + rewrite IH, (IH [e]). simpl.
      destruct (conflict_loop rest s1 s2 qd []); simpl; [|reflexivity].
      rewrite <- app_assoc. reflexivity.
    + apply IH.
Qed.

(** With valid events, the loop collects exactly the events of the
    query date that satisfy the code's comparisons. *)
Lemma conflict_loop_valid events s1 s2 qd :
  Forall valid_event events ->
  conflict_loop events s1 s2 qd [] =
  Ok (filter (fun e =>
                match ev_start e with
                | Some a => ymd_eqb (civil_from_days ((a + UTC_OFFSET_MS) / MS_PER_DAY)) qd
                            && date_lt s1 (ev_end e) && date_lt (ev_start e) s2
                | None => false
                end) events).
Proof.
  induction 1 as [|e rest He Hrest IH]; [reflexivity|].
  destruct He as (a & b & Ha & Hb).
  cbn [conflict_loop filter]. rewrite Ha. cbn [getTaipeiDateString res_bind].
  destruct (ymd_eqb (civil_from_days ((a + UTC_OFFSET_MS) / MS_PER_DAY)) qd) eqn:Hd;
    cbn [negb andb].
  - destruct (date_lt s1 (ev_end e) && date_lt (Some a) s2) eqn:Hc.
    + rewrite conflict_loop_acc, IH. reflexivity.
    + exact IH.
  - exact IH.
Qed.

Lemma parseTaipeiDateTime_valid date day hour minute :
  ymd_day_number date = Some day ->
  0 <= hour <= 24 -> 0 <= minute <= 59 -> (hour = 24 -> minute = 0) ->
  parseTaipeiDateTime date hour minute =
  Some (day * MS_PER_DAY + hour * MS_PER_HOUR + minute * MS_PER_MINUTE
        - UTC_OFFSET_MS).
Proof.
  intros Hday Hh Hm H24.
  unfold parseTaipeiDateTime, parseTaipeiDateTimeSec. rewrite Hday.
  rewrite (proj2 (Z.leb_le 0 hour)), (proj2 (Z.leb_le hour 24)),
          (proj2 (Z.leb_le 0 minute)), (proj2 (Z.leb_le minute 59)) by lia.
  cbn [andb Z.leb Z.compare].
  destruct (Z.eqb_spec hour 24) as [E|E]; cbn [implb].
  - rewrite (H24 E). cbn. f_equal. lia.
  - f_equal. lia.
Qed.

(** Where the end field [hour + defaultDuration] stays a valid ISO hour
    (the slot does not end after midnight with a non-zero minute), the code
    counts exactly the interval overlaps of the specification. *)
Lemma checkSingle_interval events hour minute queryDateStr day :
  ymd_day_number queryDateStr = Some day ->
  Forall valid_event events ->
  0 <= hour <= 23 -> 0 <= minute <= 59 ->
  (hour + defaultDuration < 24 \/ minute = 0) ->
  let s := day * MS_PER_DAY + hour * MS_PER_HOUR
           + minute * MS_PER_MINUTE - UTC_OFFSET_MS in
  let c := spec_conflicts events queryDateStr s in
  checkSingleTimeSlotAvailability events (SlotHM hour minute) queryDateStr =
  mkAvail (Z.of_nat (List.length c) =? 0) (Z.of_nat (List.length c)) c.
Proof.
  intros Hday Hv Hh Hm Hend s c.
  unfold checkSingleTimeSlotAvailability, checkSingle_body, slot_window.
  rewrite (parseTaipeiDateTime_valid queryDateStr day hour minute Hday) by lia.
  rewrite (parseTaipeiDateTime_valid queryDateStr day (hour + defaultDuration) minute Hday)
    by (unfold defaultDuration in *; lia).
  cbn [res_bind].
  rewrite conflict_loop_valid by exact Hv. cbn [res_bind try_catch].
  replace (filter _ events) with c; [reflexivity|].
  subst c. unfold spec_conflicts. apply filter_ext_in. intros e He.
  rewrite Forall_forall in Hv. destruct (Hv e He) as (a & b & Ha & Hb).
  rewrite Ha, Hb. unfold date_lt, spec_overlap. subst s.
  unfold defaultDuration, MS_PER_HOUR, MS_PER_MINUTE.
  rewrite andb_assoc. f_equal. f_equal. lia.
Qed.

(** ** C1: overlap rule of the availability check *)

(** C1 (code_bug at the failing input).  Slot 23:30 of 2025-07-15 against a
    booking 23:00-24:00 of the same Taipei day: the interval reading gives
    one conflict, but the code builds [slotEnd] as the string
    ["2025-07-15T24:30:00+08:00"], an invalid date, so [slotEnd > eventStart]
    is false and the slot is reported available with zero conflicts, in the
    single-day and in the batch copy of the check. *)
Theorem C1_slot_2330_end_invalid :
  let ev := mkEvent [] (parseTaipeiDateTime day_2025_07_15 23 0)
                       (parseTaipeiDateTime day_2025_07_15 24 0) in
  let s := 20284 * MS_PER_DAY + 23 * MS_PER_HOUR
           + 30 * MS_PER_MINUTE - UTC_OFFSET_MS in
  getTaipeiDateString (ev_start ev) = Ok day_2025_07_15 /\
  spec_conflicts [ev] day_2025_07_15 s = [ev] /\
  parseTaipeiDateTime day_2025_07_15 (23 + defaultDuration) 30 = None /\
  checkSingleTimeSlotAvailability [ev] (SlotHM 23 30) day_2025_07_15
    = mkAvail true 0 [] /\
  checkSingleTimeSlotAvailabilityFromEvents [ev] (SlotHM 23 30) day_2025_07_15
    = mkAvail true 0 [].
Proof. repeat split; reflexivity. Qed.

(** ** C10: events of another Taipei day *)

Lemma conflict_loop_skip_other_day evs1 evs2 e t s1 s2 qd acc :
  ev_start e = Some t ->
  ymd_eqb (civil_from_days ((t + UTC_OFFSET_MS) / MS_PER_DAY)) qd = false ->
  conflict_loop (evs1 ++ e :: evs2) s1 s2 qd acc =
  conflict_loop (evs1 ++ evs2) s1 s2 qd acc.
Proof.
  intros Ht Hd. revert acc.
  induction evs1 as [|e' rest IH]; intros acc; cbn [app conflict_loop].
  - rewrite Ht. cbn [getTaipeiDateString res_bind].
    rewrite Hd. reflexivity.
  - destruct (getTaipeiDateString (ev_start e')) as [d|m]; cbn [res_bind];
      [|reflexivity].
    destruct (negb (ymd_eqb d qd)); [apply IH|].
    destruct (date_lt s1 (ev_end e') && date_lt (ev_start e') s2); apply IH.
Qed.

(** C10.  A booking event whose start lies on another Taipei calendar day
    than the query date contributes nothing: inserting it anywhere in the
    event list leaves the result of the single-day check and of its batch
    copy unchanged, for every slot of the query date (so an event that
    starts the day before and runs past midnight never blocks a slot). *)
Theorem C10_other_day_event_ignored (evs1 evs2 : list event) (e : event)
    (t : Z) (timeSlot : slot_arg) (queryDateStr : ymd) :
  ev_start e = Some t ->
  getTaipeiDateString (ev_start e) <> Ok queryDateStr ->
  checkSingleTimeSlotAvailability (evs1 ++ e :: evs2) timeSlot queryDateStr
  = checkSingleTimeSlotAvailability (evs1 ++ evs2) timeSlot queryDateStr /\
  checkSingleTimeSlotAvailabilityFromEvents (evs1 ++ e :: evs2) timeSlot queryDateStr
  = checkSingleTimeSlotAvailabilityFromEvents (evs1 ++ evs2) timeSlot queryDateStr.
Proof.
  intros Ht Hne.
  assert (Hd : ymd_eqb (civil_from_days ((t + UTC_OFFSET_MS) / MS_PER_DAY))
                       queryDateStr = false).
  { destruct (ymd_eqb _ _) eqn:E; [|reflexivity].
    exfalso. apply Hne. rewrite Ht. cbn [getTaipeiDateString].
    rewrite (ymd_eqb_true _ _ E). reflexivity. }
  unfold checkSingleTimeSlotAvailability, checkSingleTimeSlotAvailabilityFromEvents,
         checkSingle_body.
  destruct (slot_window timeSlot queryDateStr) as [[s1 s2]|m]; cbn [res_bind];
    [|split; reflexivity].
  rewrite (conflict_loop_skip_other_day evs1 evs2 e t s1 s2 queryDateStr [] Ht Hd).
  split; reflexivity.
Qed.

(** C10 at a booking 23:00 on 2025-07-14 to 01:00 on 2025-07-15, against
    the 00:00 slot of 2025-07-15. *)
Lemma C10_witness :
  let e := mkEvent [] (parseTaipeiDateTime (2025, 7, 14) 23 0)
                      (parseTaipeiDateTime day_2025_07_15 1 0) in
  checkSingleTimeSlotAvailability ([] ++ e :: []) (SlotHM 0 0) day_2025_07_15
  = checkSingleTimeSlotAvailability ([] ++ []) (SlotHM 0 0) day_2025_07_15 /\
  checkSingleTimeSlotAvailabilityFromEvents ([] ++ e :: []) (SlotHM 0 0) day_2025_07_15
  = checkSingleTimeSlotAvailabilityFromEvents ([] ++ []) (SlotHM 0 0) day_2025_07_15.
Proof.
  apply (C10_other_day_event_ignored [] [] _
           (days_from_civil 2025 7 14 * MS_PER_DAY + 23 * MS_PER_HOUR - UTC_OFFSET_MS)).
  - vm_compute. reflexivity.
  - vm_compute. discriminate.
Defined.

(** ** C4: the 12-hour correction *)

(** Scenario A: the afternoon title "下午2:00" gives 14:00, afternoon. *)
Example scenario_A :
  extractTimeSlotsFromTitle title_pm_2 None = [mkSlot (TimeHM 14 0) Afternoon].
Proof. reflexivity. Qed.

(** C4 (code_bug at the failing input).  The correction tests only the
    afternoon marker: on the evening title "晚上8:00" the evening pattern
    matches hour 8, no 12 is added, and the extractor yields 08:00 with
    period morning instead of 20:00; the afternoon title "下午2:00" is
    corrected to 14:00. *)
Theorem C4_evening_marker_uncorrected :
  includes title_eve_8 MARK_EVE = true /\
  correct_hour title_eve_8 8 = 8 /\
  extractTimeSlotsFromTitle title_eve_8 None = [mkSlot (TimeHM 8 0) Morning] /\
  extractTimeSlotsFromTitle title_pm_2 None = [mkSlot (TimeHM 14 0) Afternoon].
Proof. repeat split; reflexivity. Qed.

(** ** C8: the extractor's fallback *)

Lemma exec_all_no_match pattern s :
  (forall n, pattern (skipn n s) = None) -> exec_all pattern s = [].
Proof.
  funelim (exec_all pattern s); intros Hn.
  - reflexivity.
  - specialize (Hn 0%nat). simpl in Hn. congruence.
  - apply H. intros n. apply (Hn (S n)).
Qed.

Lemma found_times_no_match title :
  (forall pattern, In pattern timePatterns ->
     forall n, pattern (skipn n title) = None) ->
  found_times title = [].
Proof.
  intros H. unfold found_times.
  assert (Hp : forall pattern, In pattern timePatterns -> exec_all pattern title = [])
    by (intros p Hin; apply exec_all_no_match; apply H; exact Hin).
  revert Hp. generalize timePatterns (@nil time_str).
  intros pats. induction pats as [|p ps IH]; intros found Hp; [reflexivity|].
  cbn [fold_left]. rewrite (Hp p (or_introl eq_refl)). cbn [fold_left].
  apply IH. intros q Hq. apply Hp. right. exact Hq.
Qed.

(** C8.  The extractor is a total function (its body is also wrapped in a
    [catch] that returns the slots built so far).  When no pattern of
    [timePatterns] matches at any position of the title, it returns exactly
    one slot, the [getHours():getMinutes()] of the event start, or no slot
    when no start time is given. *)
Theorem C8_fallback_slot (title : jsstring) (eventStartTime : option jsdate) :
  (forall pattern, In pattern timePatterns ->
     forall n, pattern (skipn n title) = None) ->
  extractTimeSlotsFromTitle title eventStartTime =
  match eventStartTime with
  | Some d => [mkSlot (local_time_str d) (period_of (local_time_str d))]
  | None => []
  end.
Proof.
  intros H. unfold extractTimeSlotsFromTitle.
  rewrite (found_times_no_match title H).
  destruct eventStartTime; reflexivity.
Qed.

(** Scenario B: a title without a time (two ideographs) and an event
    starting at 09:15 Taipei time give the single slot 09:15, morning. *)
Lemma C8_witness :
  let title := [32654; 30002] in
  (forall pattern, In pattern timePatterns ->
     forall n, pattern (skipn n title) = None) /\
  extractTimeSlotsFromTitle title (Some (parseTaipeiDateTime day_2025_07_15 9 15))
  = [mkSlot (TimeHM 9 15) Morning].
Proof.
  intros title.
  assert (H : forall pattern, In pattern timePatterns ->
                forall n, pattern (skipn n title) = None).
  { intros p Hp n. subst title.
    destruct n as [|[|n]]; cbn [skipn]; try rewrite skipn_nil;
      repeat (destruct Hp as [<-|Hp]; [reflexivity|]); destruct Hp. }
  split; [exact H|].
  rewrite (C8_fallback_slot title _ H). reflexivity.
Defined.

(** ** C5: termination of the pagination loop *)

Lemma paginate_loop_fetches api pageCount pageToken allEvents fetches :
  (pageCount <= 20)%nat ->
  (List.length (snd (paginate_loop api pageCount pageToken allEvents fetches))
   <= List.length fetches + (21 - pageCount))%nat.
Proof.
  funelim (paginate_loop api pageCount pageToken allEvents fetches);
    intros Hpc; cbn [snd]; rewrite ?length_app;
    cbn [List.length]; try lia.
  match goal with
  | IH : _ -> (List.length (snd (paginate_loop _ _ _ _ _)) <= _)%nat |- _ =>
      specialize (IH ltac:(lia)); rewrite length_app in IH;
      cbn [List.length] in IH
  end.
  lia.
Qed.

(** Whatever the responses, the paginated query stops after at most 21
    calls of [Calendar.Events.list]. *)
Lemma executePaginatedQuery_fetches (u : upstream) :
  (List.length (snd (executePaginatedQuery u)) <= 21)%nat.
Proof.
  unfold executePaginatedQuery.
  pose proof (paginate_loop_fetches (events_list u) 0 None [] [] ltac:(lia)) as H.
  cbn [List.length] in H. lia.
Qed.

(** C5 (code_bug at the failing input).  [pageCount > 20] is tested after
    the page of iteration [pageCount] has been fetched, so on a stream of
    responses whose token never becomes empty the loop makes 21 page
    fetches, not at most 20. *)
Theorem C5_endless_tokens_21_fetches :
  List.length (snd (executePaginatedQuery (mkUpstream endless_token_api None)))
  = 21%nat.
Proof. reflexivity. Qed.

(** ** C2: the backend re-check of the commit protocol *)

(** C2 (confirmed).  For every submission that passes validation, with the
    lock acquired and the booking calendar configured, [handleSaveBooking]
    fetches the booking calendar's events afresh (the [FetchEvents] right
    after [LockWait true]), re-runs the single-slot matcher on them, and:
    when the record [r] says not available it returns the failure
    [TIME_SLOT_CONFLICT] with [r] as conflict details, appends no row and
    releases the lock; otherwise it appends the booking. *)
Theorem C2_backend_recheck_under_lock (w : world) (b : booking) (s0 : state)
    (d : ymd) (ts : slot_arg) (calId : string) (startTime endTime : jsdate)
    (Hlock : w_lock_free w = true)
    (Hvalid : validateBooking b = Ok (d, ts))
    (Hcal : calendarId (w_config w) = Ok calId)
    (Hconfigured : String.eqb calId CALENDAR_PLACEHOLDER = false)
    (Hrange : getOptimizedQueryRange d = (startTime, endTime)) :
  let r := checkSingleTimeSlotAvailability
             (getEvents (w_calendar w calId startTime endTime) startTime endTime) ts d in
  handleSaveBooking w b s0 =
    if available r then
      (Ok SaveSuccess,
       mkState (trace s0 ++ [LockWait true; FetchEvents calId startTime endTime;
                             ClearCustomerCache; AppendRow b; ClearBookingCache;
                             UpdateCustomerBookingInfo; CreateCalendarEvent;
                             SendLineBookingConfirmation; LockRelease])
               (store s0 ++ [b]))
    else
      (Ok (SaveRejected "TIME_SLOT_CONFLICT" (Some r)),
       mkState (trace s0 ++ [LockWait true; FetchEvents calId startTime endTime;
                             LockRelease])
               (store s0)).
Proof.
  intros r.
  unfold handleSaveBooking, verifyBackendTimeSlotAvailability,
    checkTimeSlotsAvailability, getEventsM, finallyM, catchM, bindM, liftM,
    emit, retM, appendRow.
  rewrite Hlock, Hvalid, Hcal, Hconfigured, Hrange.
  cbn -[getEvents checkSingleTimeSlotAvailability].
  fold r. destruct (available r); cbn; rewrite <- !app_assoc; reflexivity.
Qed.

(** A 10:00 booking against a calendar holding a 10:00-11:00 booking. *)
Lemma C2_witness :
  handleSaveBooking world_busy_1000 booking_0715_1000 (mkState [] []) =
    (Ok (SaveRejected "TIME_SLOT_CONFLICT" (Some (mkAvail false 1 [booking_1000]))),
     mkState [LockWait true;
              FetchEvents "salon@example.com" (Some (20284 * MS_PER_DAY))
                (Some (20284 * MS_PER_DAY + 14 * MS_PER_HOUR + 59000));
              LockRelease] []).
Proof.
  pose proof (C2_backend_recheck_under_lock world_busy_1000 booking_0715_1000
                (mkState [] []) day_2025_07_15 (SlotHM 10 0) "salon@example.com"
                (Some (20284 * MS_PER_DAY))
                (Some (20284 * MS_PER_DAY + 14 * MS_PER_HOUR + 59000))
                eq_refl eq_refl eq_refl eq_refl eq_refl) as H.
  cbv zeta in H. rewrite H. vm_compute. reflexivity.
Defined.

(** ** C6: validation and the lock *)

(** C6 (corrected).  The lock is requested before the submission is
    validated.  For every submission that fails validation with message
    [m]: when the lock is free it is acquired, [m] is thrown, the lock is
    released in [finally], and nothing is fetched or appended; when the
    lock is busy the result is [LOCK_TIMEOUT] and the validation never
    runs. *)
Theorem C6_lock_before_validation (w : world) (b : booking) (s0 : state) (m : string)
    (Hinvalid : validateBooking b = Throw m) :
  handleSaveBooking w b s0 =
    if w_lock_free w then
      (Throw m, mkState (trace s0 ++ [LockWait true; LockRelease]) (store s0))
    else
      (Ok SaveLockTimeout, mkState (trace s0 ++ [LockWait false]) (store s0)).
Proof.
  unfold handleSaveBooking, finallyM, bindM, liftM, emit, retM.
  destruct (w_lock_free w); cbn; [rewrite Hinvalid; cbn; rewrite <- app_assoc|]; reflexivity.
Qed.

(** A booking without a phone, lock free. *)
Lemma C6_witness :
  handleSaveBooking world_busy_1000 booking_no_phone (mkState [] []) =
    (Throw "Error: missing required field: phone", mkState [LockWait true; LockRelease] []).
Proof.
  rewrite (C6_lock_before_validation world_busy_1000 booking_no_phone (mkState [] [])
             "Error: missing required field: phone" eq_refl).
  reflexivity.
Defined.

(** A booking without a phone acquires the lock before it is rejected,
    and with the lock busy it gets [LOCK_TIMEOUT], not a validation
    error. *)
Lemma C6_counterexample :
  trace (snd (handleSaveBooking world_busy_1000 booking_no_phone (mkState [] [])))
    = [LockWait true; LockRelease]
  /\ fst (handleSaveBooking (mkWorld false example_config (w_calendar world_busy_1000))
            booking_no_phone (mkState [] [])) = Ok SaveLockTimeout.
Proof. split; vm_compute; reflexivity. Qed.

(** ** C9: failures of the availability check *)

(** When every list call and the CalendarApp fallback fail, the Event
    Source answers an empty list. *)
Lemma getEvents_all_fail (u : upstream) (startTime endTime : jsdate)
    (Hlist : forall n tok, events_list u n tok = PageError)
    (Happ : calendar_app u = None) :
  getEvents u startTime endTime = [].
Proof.
  unfold getEvents, getEventsDirectly, fallbackToCalendarApp, executePaginatedQuery.
  rewrite Happ.
  destruct startTime, endTime; try reflexivity.
  destruct (shouldUsePagination _ _).
  - simp paginate_loop. rewrite Hlist. reflexivity.
  - rewrite Hlist. reflexivity.
Qed.

(** The booking calendar cannot be read: the 10:00 slot is reported
    available with no conflict, and the booking is written. *)
Lemma C9_counterexample :
  fst (checkTimeSlotsAvailability world_fetch_fails day_2025_07_15 [SlotHM 10 0]
         "salon@example.com" (mkState [] []))
    = Ok [(SlotHM 10 0, mkAvail true 0 [])]
  /\ handleSaveBooking world_fetch_fails booking_0715_1000 (mkState [] [])
    = (Ok SaveSuccess,
       mkState [LockWait true;
                FetchEvents "salon@example.com" (Some (20284 * MS_PER_DAY))
                  (Some (20284 * MS_PER_DAY + 14 * MS_PER_HOUR + 59000));
                ClearCustomerCache; AppendRow booking_0715_1000; ClearBookingCache;
                UpdateCustomerBookingInfo; CreateCalendarEvent;
                SendLineBookingConfirmation; LockRelease]
               [booking_0715_1000]).
Proof. split; vm_compute; reflexivity. Qed.

(** C9 (corrected).  An error raised inside the single-slot check gives
    the failure record (not available, [conflictCount] -1); the backend
    re-validation reports available only with a slot record that is
    available, and an error there (the calendar id getter) gives
    [TIME_SLOT_CHECK_FAILED]; but a failure of the event fetch is absorbed
    by the Event Source, which answers an empty list, so every slot is then
    reported available with [conflictCount] 0. *)
Theorem C9_errors_and_fetch_failures :
  (forall events ts d m,
      checkSingle_body events ts d = Throw m ->
      checkSingleTimeSlotAvailability events ts d = failedAvailability)
  /\ (forall w d ts s v,
      fst (verifyBackendTimeSlotAvailability w d ts s) = Ok v ->
      v_available v = true ->
      exists r, v_slotStatus v = Some r /\ available r = true)
  /\ (forall w d ts s m,
      calendarId (w_config w) = Throw m ->
      fst (verifyBackendTimeSlotAvailability w d ts s)
        = Ok (verify_default "TIME_SLOT_CHECK_FAILED"))
  /\ (forall w d calId startTime endTime hour minute s,
      getOptimizedQueryRange d = (startTime, endTime) ->
      (forall n tok, events_list (w_calendar w calId startTime endTime) n tok = PageError) ->
      calendar_app (w_calendar w calId startTime endTime) = None ->
      fst (checkTimeSlotsAvailability w d [SlotHM hour minute] calId s)
        = Ok [(SlotHM hour minute, mkAvail true 0 [])]).
Proof.
  split; [|split; [|split]].
  - intros events ts d m H. unfold checkSingleTimeSlotAvailability, try_catch.
    rewrite H. reflexivity.
  - intros w d ts s v.
    unfold verifyBackendTimeSlotAvailability, checkTimeSlotsAvailability,
      getEventsM, catchM, bindM, liftM, emit, retM.
    destruct (calendarId (w_config w)) as [calId|m]; cbn; [|intros [= <-]; discriminate].
    destruct (String.eqb calId CALENDAR_PLACEHOLDER); cbn; [intros [= <-]; discriminate|].
    destruct (getOptimizedQueryRange d) as [st en]; cbn.
    intros [= <-]. cbn. intros Ha. eexists. split; [reflexivity|].
    destruct (available _); [reflexivity|discriminate].
  - intros w d ts s m Hcal.
    unfold verifyBackendTimeSlotAvailability, catchM, bindM, liftM.
    rewrite Hcal. reflexivity.
  - intros w d calId st en hour minute s Hrange Hlist Happ.
    unfold checkTimeSlotsAvailability, getEventsM, catchM, bindM, emit, retM.
    rewrite Hrange. cbn -[getEvents].
    rewrite (getEvents_all_fail _ _ _ Hlist Happ). reflexivity.
Qed.

(** ** The batch query: grouping, day loop and range check *)
Lemma ymd_eqb_refl (a : ymd) : ymd_eqb a a = true.
Proof. destruct a as [[y m] d]. cbn. rewrite !Z.eqb_refl. reflexivity. Qed.

Lemma ymd_eqb_spec (a b : ymd) : reflect (a = b) (ymd_eqb a b).
Proof.
  destruct (ymd_eqb a b) eqn:E; constructor.
  - apply ymd_eqb_true. exact E.
  - intros <-. rewrite ymd_eqb_refl in E. discriminate.
Qed.

Lemma dict_push_find (k : ymd) (e : event) (m : date_dict) (d : ymd) :
  dict_find d (dict_push k e m) = if ymd_eqb k d then dict_find d m ++ [e] else dict_find d m.
Proof.
  unfold dict_find. induction m as [|[k' l] rest IH]; cbn [dict_push dict_get].
  - destruct (ymd_eqb_spec k d) as [<-|Hne].
    + rewrite ymd_eqb_refl. reflexivity.
    + destruct (ymd_eqb_spec d k); [congruence|reflexivity].
  - destruct (ymd_eqb_spec k k') as [<-|Hne]; cbn [dict_get].
    + destruct (ymd_eqb_spec d k) as [->|Hne']; cbn [dict_get].
      * rewrite ymd_eqb_refl. reflexivity.
      * destruct (ymd_eqb_spec k d); [congruence|reflexivity].
    + destruct (ymd_eqb_spec d k') as [->|Hne']; [|exact IH].
      destruct (ymd_eqb_spec k k'); [congruence|reflexivity].
Qed.

Lemma group_by_date_spec sd ed evs acc :
  (forall ev, In ev evs -> ev_start ev <> None) ->
  exists m, group_by_date sd ed evs acc = Ok m /\
    forall d, dict_find d m = dict_find d acc ++ bucket sd ed evs d.
Proof.
  revert acc. induction evs as [|ev rest IH]; intros acc Hvalid.
  - exists acc. split; [reflexivity|]. intros d. unfold bucket. cbn. rewrite app_nil_r. reflexivity.
  - destruct (ev_start ev) as [t|] eqn:Hst; [|exfalso; apply (Hvalid ev); [left; reflexivity|exact Hst]].
    assert (Hrest : forall ev', In ev' rest -> ev_start ev' <> None)
      by (intros ev' Hin; apply Hvalid; right; exact Hin).
    cbn [group_by_date]. rewrite Hst. cbn [getTaipeiDateString res_bind].
    set (d0 := civil_from_days ((t + UTC_OFFSET_MS) / MS_PER_DAY)).
    unfold bucket. cbn [filter]. rewrite Hst. cbn [getTaipeiDateString]. fold d0.
    destruct (ymd_leb sd d0 && ymd_leb d0 ed) eqn:Hin.
    + destruct (IH (dict_push d0 ev acc) Hrest) as [m [Hm Hf]].
      exists m. split; [exact Hm|]. intros d. rewrite Hf, dict_push_find.
      fold (bucket sd ed rest d).
      destruct (ymd_eqb_spec d0 d) as [<-|Hne]; cbn [andb].
      * rewrite Hin, <- app_assoc. reflexivity.
      * reflexivity.
    + destruct (IH acc Hrest) as [m [Hm Hf]].
      exists m. split; [exact Hm|]. intros d. rewrite Hf.
      fold (bucket sd ed rest d).
      destruct (ymd_eqb_spec d0 d) as [<-|Hne]; cbn [andb].
      * rewrite Hin. reflexivity.
      * reflexivity.
Qed.

Lemma div_day x r : 0 <= r < MS_PER_DAY -> (x * MS_PER_DAY + r) / MS_PER_DAY = x.
Proof.
  intros Hr. rewrite Z.div_add_l by (unfold MS_PER_DAY; lia).
  rewrite (Z.div_small r) by exact Hr. lia.
Qed.

Lemma getTaipeiDateString_day x :
  getTaipeiDateString (Some (x * MS_PER_DAY)) = Ok (civil_from_days x).
Proof.
  unfold getTaipeiDateString. rewrite div_day; [reflexivity|].
  unfold UTC_OFFSET_MS, MS_PER_DAY; lia.
Qed.

Lemma ceil_div_days x : ceil_div (x * MS_PER_DAY) MS_PER_DAY = x.
Proof.
  unfold ceil_div. rewrite <- Z.mul_opp_l, Z.div_mul by (unfold MS_PER_DAY; lia). lia.
Qed.

Lemma day_loop_spec (n : nat) (x e : Z) (tsm bkm : date_dict) :
  (x + Z.of_nat n - 1) * MS_PER_DAY <= e < (x + Z.of_nat n) * MS_PER_DAY ->
  day_loop n (x * MS_PER_DAY) e tsm bkm =
  Ok (map (fun k => let d := civil_from_days (x + Z.of_nat k) in
                    (d, processDay (dict_find d tsm) (dict_find d bkm) d))
          (seq 0 n)).
Proof.
  revert x. induction n as [|n IH]; intros x He; [reflexivity|].
  cbn [day_loop].
  rewrite (proj2 (Z.leb_le _ _)) by (rewrite Nat2Z.inj_succ in He; unfold MS_PER_DAY in *; lia).
  rewrite getTaipeiDateString_day. cbn [res_bind].
  replace (x * MS_PER_DAY + MS_PER_DAY) with ((x + 1) * MS_PER_DAY) by ring.
  rewrite IH by (rewrite Nat2Z.inj_succ in He; unfold MS_PER_DAY in *; lia).
  cbn [res_bind seq map]. rewrite Z.add_0_r, <- seq_shift, map_map.
  f_equal. f_equal. apply map_ext. intros k.
  rewrite Nat2Z.inj_succ. replace (x + Z.succ (Z.of_nat k)) with (x + 1 + Z.of_nat k) by lia.
  reflexivity.
Qed.

Lemma getOptimizedQueryRangeBatch_days sd ed da db :
  ymd_day_number sd = Some da -> ymd_day_number ed = Some db ->
  getOptimizedQueryRangeBatch sd ed
    = (Some (da * MS_PER_DAY), Some (db * MS_PER_DAY + 14 * MS_PER_HOUR)).
Proof.
  intros Hda Hdb. unfold getOptimizedQueryRangeBatch, parseTaipeiDateTimeSec, setHoursTaipei.
  rewrite Hda, Hdb. cbn [andb implb Z.leb Z.eqb Z.compare Pos.compare Pos.compare_cont Pos.eqb].
  replace (da * MS_PER_DAY + 0 * MS_PER_HOUR + 0 * MS_PER_MINUTE + 0 * 1000
           - UTC_OFFSET_MS + UTC_OFFSET_MS) with (da * MS_PER_DAY + 0) by ring.
  replace (db * MS_PER_DAY + 23 * MS_PER_HOUR + 59 * MS_PER_MINUTE + 59 * 1000
           - UTC_OFFSET_MS + UTC_OFFSET_MS) with (db * MS_PER_DAY + 86399000)
    by (unfold MS_PER_HOUR, MS_PER_MINUTE; ring).
  rewrite (div_day da 0), (div_day db 86399000) by (unfold MS_PER_DAY; lia).
  unfold MS_PER_DAY, MS_PER_HOUR, MS_PER_MINUTE, UTC_OFFSET_MS. f_equal; f_equal; lia.
Qed.

Lemma calendarId_nonempty c id : calendarId c = Ok id -> String.eqb id "" = false.
Proof.
  unfold calendarId. destruct (String.eqb (GOOGLE_CALENDAR_ID c) "") eqn:E;
    [discriminate|]. intros [= <-]. exact E.
Qed.

Lemma timeSlotsCalendarId_nonempty c id :
  timeSlotsCalendarId c = Ok id -> String.eqb id "" = false.
Proof.
  unfold timeSlotsCalendarId.
  destruct (String.eqb (GOOGLE_TIMESLOTS_CALENDAR_ID c) "") eqn:E.
  - apply calendarId_nonempty.
  - intros [= <-]. exact E.
Qed.

(** ** C7: two fetches for the whole range *)

(** C7 (confirmed).  For every valid range [startDate..endDate] of at most
    62 days with the calendars configured (and events whose start is a
    valid date, on which the grouping would throw), the batch query makes
    exactly two Calendar Event Source calls, for the time-slot calendar and
    for the booking calendar, both over the window from [startDate] 08:00
    to [endDate] 22:00 (+08:00), whatever the number of days; and the
    result of each day [d] of the range is computed from the events of
    each list whose Taipei date is [d]. *)
Theorem C7_two_fetches_then_buckets (w : world) (startDate endDate : string)
    (s0 : state) (sd ed : ymd) (da db : Z) (tsCal bkCal : string)
    (Hsd : date_regex_match startDate = Some sd)
    (Hed : date_regex_match endDate = Some ed)
    (Hda : ymd_day_number sd = Some da) (Hdb : ymd_day_number ed = Some db)
    (Horder : da <= db) (Hmax : db - da <= maxDays)
    (Hts : timeSlotsCalendarId (w_config w) = Ok tsCal)
    (Hbk : calendarId (w_config w) = Ok bkCal) :
  let rangeStart := Some (da * MS_PER_DAY) in
  let rangeEnd := Some (db * MS_PER_DAY + 14 * MS_PER_HOUR) in
  let timeSlotsEvents := getEvents (w_calendar w tsCal rangeStart rangeEnd) rangeStart rangeEnd in
  let bookingEvents := getEvents (w_calendar w bkCal rangeStart rangeEnd) rangeStart rangeEnd in
  (forall ev, In ev (timeSlotsEvents ++ bookingEvents) -> ev_start ev <> None) ->
  handleBatchCheckTimeSlotAvailability w startDate endDate s0 =
    (Ok (BatchOk
           (map (fun k => let d := civil_from_days (da + Z.of_nat k) in
                          (d, processDay (bucket sd ed timeSlotsEvents d)
                                         (bucket sd ed bookingEvents d) d))
                (seq 0 (Z.to_nat (db - da) + 1)))),
     mkState (trace s0 ++ [FetchEvents tsCal rangeStart rangeEnd;
                           FetchEvents bkCal rangeStart rangeEnd])
             (store s0)).
Proof.
  intros rangeStart rangeEnd timeSlotsEvents bookingEvents Hvalid.
  destruct (group_by_date_spec sd ed timeSlotsEvents []) as [m1 [Hm1 Hf1]].
  { intros ev Hin. apply Hvalid, in_or_app. left. exact Hin. }
  destruct (group_by_date_spec sd ed bookingEvents []) as [m2 [Hm2 Hf2]].
  { intros ev Hin. apply Hvalid, in_or_app. right. exact Hin. }
  unfold handleBatchCheckTimeSlotAvailability, parseDateOnly.
  rewrite Hsd, Hed, Hda, Hdb.
  rewrite (proj2 (Z.ltb_ge _ _)) by (unfold MS_PER_DAY; lia).
  replace (db * MS_PER_DAY - da * MS_PER_DAY) with ((db - da) * MS_PER_DAY) by ring.
  rewrite ceil_div_days, (proj2 (Z.ltb_ge _ _)) by exact Hmax.
  rewrite Z.div_mul by (unfold MS_PER_DAY; lia).
  unfold getEventsM, catchM, bindM, liftM, retM, emit.
  rewrite Hts, Hbk, (timeSlotsCalendarId_nonempty _ _ Hts), (calendarId_nonempty _ _ Hbk).
  cbn [orb]. rewrite (getOptimizedQueryRangeBatch_days sd ed da db Hda Hdb).
  cbv beta iota. fold rangeStart rangeEnd timeSlotsEvents bookingEvents.
  rewrite Hm1, Hm2.
  rewrite (day_loop_spec (Z.to_nat (db - da) + 1) da (db * MS_PER_DAY) m1 m2)
    by (rewrite Nat2Z.inj_add, Z2Nat.id by lia; unfold MS_PER_DAY; lia).
  cbn [trace store]. rewrite <- app_assoc. cbn [app]. f_equal. f_equal. f_equal.
  apply map_ext. intros k. cbn zeta. rewrite Hf1, Hf2. reflexivity.
Qed.

(** Three days around the 10:00 booking of 2025-07-15. *)
Lemma C7_witness :
  handleBatchCheckTimeSlotAvailability world_busy_1000 "2025-07-14" "2025-07-16"
      (mkState [] [])
    = (Ok (BatchOk [((2025, 7, 14), DayEmpty);
                    ((2025, 7, 15), DaySlots [(TimeHM 10 0, mkAvail false 1 [booking_1000])]);
                    ((2025, 7, 16), DayEmpty)]),
       mkState [FetchEvents "salon@example.com" (Some (20283 * MS_PER_DAY))
                  (Some (20285 * MS_PER_DAY + 14 * MS_PER_HOUR));
                FetchEvents "salon@example.com" (Some (20283 * MS_PER_DAY))
                  (Some (20285 * MS_PER_DAY + 14 * MS_PER_HOUR))] []).
Proof.
  pose proof (C7_two_fetches_then_buckets world_busy_1000 "2025-07-14" "2025-07-16"
                (mkState [] []) (2025, 7, 14) (2025, 7, 16) 20283 20285
                "salon@example.com" "salon@example.com"
                eq_refl eq_refl eq_refl eq_refl ltac:(lia)
                ltac:(unfold maxDays; lia) eq_refl eq_refl) as H.
  cbv zeta in H. rewrite H.
  - vm_compute. reflexivity.
  - intros ev Hin. vm_compute in Hin.
    destruct Hin as [<-|[<-|[]]]; discriminate.
Defined.

Ltac no_branching t :=
  lazymatch t with
  | context [match _ with Ok _ => _ | Throw _ => _ end] => fail
  | context [if _ then _ else _] => fail
  | _ => idtac
  end.

Lemma calendar_getters_throw c m :
  (calendarId c = Throw m \/ timeSlotsCalendarId c = Throw m) -> m = MSG_CALENDAR_ID_UNSET.
Proof.
  unfold timeSlotsCalendarId, calendarId.
  destruct (String.eqb (GOOGLE_CALENDAR_ID c) ""), (String.eqb (GOOGLE_TIMESLOTS_CALENDAR_ID c) "");
    intros [H|H]; inversion H; reflexivity.
Qed.

Lemma group_by_date_throw sd ed evs acc m :
  group_by_date sd ed evs acc = Throw m -> m = "RangeError: Invalid time value"%string.
Proof.
  revert acc. induction evs as [|ev rest IH]; intros acc; cbn [group_by_date]; [discriminate|].
  destruct (ev_start ev); cbn [getTaipeiDateString res_bind].
  - destruct (_ && _); apply IH.
  - intros [= <-]. reflexivity.
Qed.

Lemma day_loop_throw n c e tsm bkm m :
  day_loop n c e tsm bkm = Throw m -> False.
Proof.
  revert c m. induction n as [|n IH]; intros c m; cbn [day_loop]; [discriminate|].
  destruct (c <=? e); [|discriminate]. cbn [getTaipeiDateString res_bind].
  destruct (day_loop n (c + MS_PER_DAY) e tsm bkm) eqn:E; cbn [res_bind].
  - discriminate.
  - intros _. exact (IH _ _ E).
Qed.

(** ** C3: the 62-day limit *)

(** C3 (corrected).  For well-formed dates with [startDate <= endDate], the
    batch query fails with the range error exactly when [endDate] is more
    than 62 days after [startDate] ([Math.ceil((end - start) / day) > 62]);
    a range of 63 days inclusive (62 days apart) is accepted. *)
Theorem C3_range_limit (w : world) (startDate endDate : string) (s0 : state)
    (sd ed : ymd) (da db : Z)
    (Hsd : date_regex_match startDate = Some sd)
    (Hed : date_regex_match endDate = Some ed)
    (Hda : ymd_day_number sd = Some da) (Hdb : ymd_day_number ed = Some db)
    (Horder : da <= db) :
  fst (handleBatchCheckTimeSlotAvailability w startDate endDate s0)
    = Ok (BatchFail MSG_RANGE_TOO_LARGE)
  <-> maxDays < db - da.
Proof.
  unfold handleBatchCheckTimeSlotAvailability, parseDateOnly.
  rewrite Hsd, Hed, Hda, Hdb.
  rewrite (proj2 (Z.ltb_ge _ _)) by (unfold MS_PER_DAY; lia).
  replace (db * MS_PER_DAY - da * MS_PER_DAY) with ((db - da) * MS_PER_DAY) by ring.
  rewrite ceil_div_days.
  destruct (Z.ltb_spec maxDays (db - da)) as [Hbig|Hsmall].
  - split; [intros _; exact Hbig|intros _; reflexivity].
  - split; [|lia]. intros H. exfalso.
    unfold getEventsM, catchM, bindM, liftM, retM, throwM, emit in H.
    cbv beta iota in H.
    repeat match type of H with
    | context [match ?x with Ok _ => _ | Throw _ => _ end] =>
        no_branching x;
        let E := fresh "E" in destruct x eqn:E; cbv beta iota in H
    | context [if ?b then _ else _] =>
        no_branching b; destruct b; cbv beta iota in H
    | context [getOptimizedQueryRangeBatch ?a ?b] =>
        destruct (getOptimizedQueryRangeBatch a b); cbv beta iota in H
    end.
    all: cbn [fst] in H. all: injection H as H; try discriminate H;
    subst; repeat match goal with
    | E : timeSlotsCalendarId _ = Throw _ |- _ =>
        apply (fun h => calendar_getters_throw _ _ (or_intror h)) in E
    | E : calendarId _ = Throw _ |- _ =>
        apply (fun h => calendar_getters_throw _ _ (or_introl h)) in E
    | E : group_by_date _ _ _ _ = Throw _ |- _ => apply group_by_date_throw in E
    | E : day_loop _ _ _ _ _ = Throw _ |- _ => exact (day_loop_throw _ _ _ _ _ _ E)
    end; subst; discriminate.
Qed.

(** 2025-07-01..2025-09-02, 63 days apart, is rejected. *)
Lemma C3_witness :
  fst (handleBatchCheckTimeSlotAvailability world_busy_1000 "2025-07-01" "2025-09-02"
         (mkState [] []))
    = Ok (BatchFail MSG_RANGE_TOO_LARGE).
Proof.
  apply (proj2 (C3_range_limit world_busy_1000 "2025-07-01" "2025-09-02" (mkState [] [])
                  (2025, 7, 1) (2025, 9, 2) 20270 20333
                  eq_refl eq_refl eq_refl eq_refl ltac:(lia))).
  unfold maxDays. lia.
Defined.

(** Scenario E: 2025-07-01..2025-09-01 (63 days inclusive) is not
    rejected; it answers one entry per day, 63 of them. *)
Lemma C3_counterexample :
  match fst (handleBatchCheckTimeSlotAvailability world_busy_1000 "2025-07-01" "2025-09-01"
               (mkState [] [])) with
  | Ok (BatchOk data) => List.length data = 63%nat
  | _ => False
  end.
Proof. vm_compute. reflexivity. Qed.
Lemma paginate_loop_pages api pages pc tok acc f :
  pages <> [] -> (pc + List.length pages <= 21)%nat ->
  (forall k t, (k < List.length pages)%nat ->
     api (S (pc + k)) t = PageOk (fst (nth k pages ([], None))) (snd (nth k pages ([], None)))) ->
  (forall k, (S k < List.length pages)%nat -> token_truthy (snd (nth k pages ([], None))) = true) ->
  token_truthy (snd (last pages ([], None))) = false ->
  fst (paginate_loop api pc tok acc f) = acc ++ List.concat (map fst pages).
Proof.
  revert pc tok acc f.
  induction pages as [|[items next] rest IH]; intros pc tok acc f Hne Hlen Hapi Htok Hlast; [congruence|].
  simp paginate_loop.
  specialize (Hapi 0%nat tok ltac:(cbn; lia)) as Hp0. rewrite Nat.add_0_r in Hp0. rewrite Hp0. cbn [fst snd nth].
  simp paginate_loop. cbn [map List.concat].
  destruct (lt_dec 20 (S pc)) as [Hc|Hc]; simp paginate_loop.
  - destruct rest; [|cbn in Hlen; lia]. cbn. rewrite !app_nil_r. reflexivity.
  - destruct rest as [|p2 rest].
    + cbn in Hlast. rewrite Hlast. simp paginate_loop. cbn. rewrite app_nil_r. reflexivity.
    + pose proof (Htok 0%nat ltac:(cbn; lia)) as Ht0. cbn in Ht0. rewrite Ht0. cbn [paginate_loop_unfold_clause_1_clause_2_clause_2 fst].
      rewrite IH; [rewrite app_assoc; reflexivity|congruence|cbn in *; lia| | |].
      * intros k t Hk. replace (S (S pc + k)) with (S (pc + S k)) by lia. apply (Hapi (S k) t). cbn in *; lia.
      * intros k Hk. apply (Htok (S k)). cbn in *; lia.
      * exact Hlast.
Qed.
Lemma paginate_loop_error api pages pc tok acc f :
  (pc + List.length pages <= 20)%nat ->
  (forall k t, (k < List.length pages)%nat ->
     api (S (pc + k)) t = PageOk (fst (nth k pages ([], None))) (snd (nth k pages ([], None)))) ->
  (forall k, (k < List.length pages)%nat -> token_truthy (snd (nth k pages ([], None))) = true) ->
  (forall t, api (S (pc + List.length pages)) t = PageError) ->
  fst (paginate_loop api pc tok acc f) = acc ++ List.concat (map fst pages).
Proof.
  revert pc tok acc f.
  induction pages as [|[items next] rest IH]; intros pc tok acc f Hlen Hapi Htok Herr.
  - simp paginate_loop. cbn in Herr. rewrite Nat.add_0_r in Herr. rewrite Herr.
    simp paginate_loop. cbn. rewrite app_nil_r. reflexivity.
  - simp paginate_loop.
    specialize (Hapi 0%nat tok ltac:(cbn; lia)) as Hp0. rewrite Nat.add_0_r in Hp0.
    rewrite Hp0. cbn [fst snd nth]. simp paginate_loop.
    destruct (lt_dec 20 (S pc)) as [Hc|Hc]; [cbn in Hlen; lia|]. simp paginate_loop.
    pose proof (Htok 0%nat ltac:(cbn; lia)) as Ht0. cbn in Ht0. rewrite Ht0.
    cbn [paginate_loop_unfold_clause_1_clause_2_clause_2 fst map List.concat].
    rewrite IH; [rewrite app_assoc; reflexivity|cbn in *; lia| | |].
    + intros k t Hk. replace (S (S pc + k)) with (S (pc + S k)) by lia.
      apply (Hapi (S k) t). cbn in *; lia.
    + intros k Hk. apply (Htok (S k)). cbn in *; lia.
    + intros t. replace (S (S pc + List.length rest)) with (S (pc + List.length ((items, next) :: rest))) by (cbn; lia).
      apply Herr.
Qed.

Lemma shouldUsePagination_days st en :
  shouldUsePagination st en = (12 <=? ceil_div (en - st) MS_PER_DAY).
Proof.
  unfold shouldUsePagination.
  generalize (ceil_div (en - st) MS_PER_DAY) as q. intros q.
  destruct (12 <=? q) eqn:H12.
  - apply Z.leb_le in H12. apply orb_true_iff. left. apply orb_true_iff. right.
    apply Z.ltb_lt. lia.
  - apply Z.leb_gt in H12.
    replace (30 <? q) with false by (symmetry; apply Z.ltb_ge; lia).
    replace (200 * 10 <? q * 15 * 12) with false by (symmetry; apply Z.ltb_ge; lia).
    reflexivity.
Qed.

Lemma getOptimizedQueryRange_day d day (Hd : ymd_day_number d = Some day) :
  getOptimizedQueryRange d
  = (Some (day * MS_PER_DAY), Some (day * MS_PER_DAY + 14 * MS_PER_HOUR + 59000)).
Proof.
  unfold getOptimizedQueryRange, parseTaipeiDateTimeSec. rewrite Hd. cbn [andb implb Z.leb Z.eqb Z.compare Pos.compare Pos.compare_cont Pos.eqb].
  unfold date_lt, MS_PER_DAY, MS_PER_HOUR, MS_PER_MINUTE, UTC_OFFSET_MS.
  repeat match goal with
         | |- context [?a <? ?b] => destruct (Z.ltb_spec a b); [lia|]
         end.
  f_equal; f_equal; lia.
Qed.
Ltac save_cases w b :=
  unfold handleSaveBooking, verifyBackendTimeSlotAvailability,
    checkTimeSlotsAvailability, getEventsM, finallyM, catchM, bindM, liftM,
    emit, retM, appendRow;
  destruct (w_lock_free w); cbn -[getEvents checkSingleTimeSlotAvailability getOptimizedQueryRange];
  [destruct (validateBooking b) as [[d ts]|m]; cbn -[getEvents checkSingleTimeSlotAvailability getOptimizedQueryRange];
   [destruct (calendarId (w_config w)) as [c|m]; cbn -[getEvents checkSingleTimeSlotAvailability getOptimizedQueryRange];
    [destruct (String.eqb c CALENDAR_PLACEHOLDER); cbn -[getEvents checkSingleTimeSlotAvailability getOptimizedQueryRange];
     [|destruct (getOptimizedQueryRange d) as [st en]; cbn -[getEvents checkSingleTimeSlotAvailability];
       destruct (available (checkSingleTimeSlotAvailability _ ts d)); cbn]
    |]
   |]
  |].

(** X5 (extra): [handleSaveBooking] either fails to take the lock, records only that attempt and answers the lock timeout with the store unchanged, or takes the lock and releases it exactly once, as its last effect, with no lock operation in between. *)
Theorem save_lock w b s :
  let '(r, s') := handleSaveBooking w b s in
  if w_lock_free w then
    exists mid, trace s' = trace s ++ [LockWait true] ++ mid ++ [LockRelease]
                /\ Forall not_lock_effect mid
  else r = Ok SaveLockTimeout /\ s' = mkState (trace s ++ [LockWait false]) (store s).
Proof.
  save_cases w b.
  all: rewrite <- ?app_assoc; cbn [app].
  all: try (split; reflexivity).
  all: match goal with
       | |- exists mid, _ ++ LockWait true :: ?l = _ /\ _ =>
           exists (removelast l); split; [reflexivity|repeat constructor]
       end.
Qed.

Lemma insert_by_perm {A} (before : A -> A -> bool) x l :
  Permutation (insert_by before x l) (x :: l).
Proof.
  induction l as [|y l IH]; cbn; [reflexivity|].
  destruct (before x y); [reflexivity|].
  rewrite IH. apply perm_swap.
Qed.

Lemma sort_by_perm_acc {A} (before : A -> A -> bool) l acc :
  Permutation (fold_left (fun acc x => insert_by before x acc) l acc) (l ++ acc).
Proof.
  revert acc. induction l as [|x l IH]; intros acc; cbn; [reflexivity|].
  rewrite IH, insert_by_perm. symmetry. apply Permutation_middle.
Qed.

Lemma sort_by_perm {A} (before : A -> A -> bool) l : Permutation (sort_by before l) l.
Proof. unfold sort_by. rewrite sort_by_perm_acc, app_nil_r. reflexivity. Qed.

Section SortedInsert.
Context {A : Type} (before : A -> A -> bool).
Hypothesis before_asym : forall a b, before a b = true -> before b a = false.

Lemma insert_by_sorted x l : Sorted (not_after before) l -> Sorted (not_after before) (insert_by before x l).
Proof.
  induction 1 as [|y l Hs IH Hd]; cbn.
  - repeat constructor.
  - destruct (before x y) eqn:Hxy.
    + constructor; [constructor; auto|]. constructor. unfold not_after. auto.
    + constructor; [exact IH|].
      destruct l as [|z l]; cbn.
      * constructor. exact Hxy.
      * inversion Hd; subst. destruct (before x z); constructor; auto.
Qed.

Lemma sort_by_sorted l : Sorted (not_after before) (sort_by before l).
Proof.
  unfold sort_by.
  assert (H : forall acc, Sorted (not_after before) acc -> Sorted (not_after before) (fold_left (fun acc x => insert_by before x acc) l acc)).
  { induction l as [|x l IH]; intros acc Hacc; cbn; [exact Hacc|].
    apply IH, insert_by_sorted, Hacc. }
  apply H. constructor.
Qed.
End SortedInsert.

Lemma insert_slot_by sl l :
  insert_slot sl l = insert_by (fun a b => time_str_ltb (slot_time a) (slot_time b)) sl l.
Proof. induction l as [|x l IH]; cbn; [reflexivity|]. rewrite IH. reflexivity. Qed.

Lemma sort_slots_by l :
  sort_slots l = sort_by (fun a b => time_str_ltb (slot_time a) (slot_time b)) l.
Proof.
  unfold sort_slots, sort_by. generalize (@nil slot) as acc.
  induction l as [|x l IH]; intros acc; cbn; [reflexivity|].
  rewrite insert_slot_by. apply IH.
Qed.

Lemma time_str_ltb_asym a b : time_str_ltb a b = true -> time_str_ltb b a = false.
Proof.
  destruct a, b; cbn; try discriminate; try reflexivity.
  intros H. apply orb_true_iff in H. apply orb_false_iff.
  rewrite andb_false_iff, !Z.ltb_ge, Z.eqb_neq.
  destruct H as [H|H]; [apply Z.ltb_lt in H; lia|].
  apply andb_true_iff in H. destruct H as [H1 H2].
  apply Z.eqb_eq in H1. apply Z.ltb_lt in H2. lia.
Qed.

Lemma time_str_ltb_total a b : a <> b -> time_str_ltb b a = false -> time_str_ltb a b = true.
Proof.
  destruct a as [h m|], b as [h' m'|]; cbn; intros Hne H; try reflexivity; try discriminate;
    [|congruence].
  apply orb_false_iff in H. rewrite andb_false_iff, !Z.ltb_ge, Z.eqb_neq in H.
  apply orb_true_iff. rewrite andb_true_iff, !Z.ltb_lt, Z.eqb_eq.
  destruct (Z.eq_dec h h'); [subst; right; split; [reflexivity|]|left; lia].
  assert (m <> m') by congruence. lia.
Qed.

Lemma time_str_eqb_eq a b : time_str_eqb a b = true <-> a = b.
Proof.
  destruct a, b; cbn; split; intros H; try discriminate; try congruence; auto.
  - apply andb_true_iff in H. destruct H as [H1 H2].
    apply Z.eqb_eq in H1, H2. subst. reflexivity.
  - injection H as -> ->. rewrite !Z.eqb_refl. reflexivity.
Qed.

Lemma slot_add_nodup acc sl :
  NoDup (map slot_time acc) -> NoDup (map slot_time (slot_add acc sl)).
Proof.
  unfold slot_add. destruct (existsb _ acc) eqn:E; intros Hnd; [exact Hnd|].
  rewrite map_app. cbn.
  apply Permutation_NoDup with (l := slot_time sl :: map slot_time acc);
    [apply Permutation_cons_append|].
  constructor; [|exact Hnd].
  intros Hin. apply in_map_iff in Hin. destruct Hin as [x [Hx Hin]].
  assert (existsb (fun s => time_str_eqb (slot_time s) (slot_time sl)) acc = true) as E'.
  { apply existsb_exists. exists x. split; [exact Hin|]. apply time_str_eqb_eq. exact Hx. }
  congruence.
Qed.

Lemma fold_slot_add_nodup l acc :
  NoDup (map slot_time acc) -> NoDup (map slot_time (fold_left slot_add l acc)).
Proof.
  revert acc. induction l as [|x l IH]; intros acc H; cbn; [exact H|].
  apply IH, slot_add_nodup, H.
Qed.

Lemma extract_loop_nodup events d acc r :
  NoDup (map slot_time acc) -> extract_loop events d acc = Ok r -> NoDup (map slot_time r).
Proof.
  revert acc. induction events as [|ev events IH]; intros acc Hacc; cbn.
  - intros H. injection H as <-. exact Hacc.
  - destruct (getTaipeiDateString (ev_start ev)) as [ed|m]; cbn; [|discriminate].
    destruct (ymd_eqb ed d); apply IH; [apply fold_slot_add_nodup|]; exact Hacc.
Qed.

Lemma sorted_slots_strict l :
  NoDup (map slot_time l) ->
  Sorted (fun a b => time_str_ltb (slot_time b) (slot_time a) = false) l ->
  Sorted (fun a b => time_str_ltb (slot_time a) (slot_time b) = true) l.
Proof.
  intros Hnd Hs. induction Hs as [|x l Hs IH Hd]; constructor.
  - apply IH. cbn in Hnd. inversion Hnd; assumption.
  - destruct Hd as [|y l' Hxy]; constructor.
    cbn in Hnd. inversion Hnd as [|? ? Hni _]; subst.
    apply time_str_ltb_total; [|exact Hxy].
    intros E. apply Hni. rewrite E. left. reflexivity.
Qed.

Lemma sort_slots_strict l :
  NoDup (map slot_time l) ->
  NoDup (map slot_time (sort_slots l))
  /\ Sorted (fun a b => time_str_ltb (slot_time a) (slot_time b) = true) (sort_slots l).
Proof.
  intros Hnd. rewrite sort_slots_by.
  assert (Hnd' : NoDup (map slot_time (sort_by (fun a b => time_str_ltb (slot_time a) (slot_time b)) l))).
  { eapply Permutation_NoDup; [|exact Hnd]. apply Permutation_map.
    symmetry. apply sort_by_perm. }
  split; [exact Hnd'|].
  apply sorted_slots_strict; [exact Hnd'|].
  apply (sort_by_sorted (fun a b => time_str_ltb (slot_time a) (slot_time b))).
  intros a b. apply time_str_ltb_asym.
Qed.

(** X7 (extra): the slots of [extractTimeSlotsFromEvents] have pairwise distinct times and are strictly increasing by time; [getAvailableTimeSlotsFromCalendar] never fails and returns such a list. *)
Theorem slots_sorted events dateStr w date s :
  (let l := extractTimeSlotsFromEvents events dateStr in
   NoDup (map slot_time l)
   /\ Sorted (fun a b => time_str_ltb (slot_time a) (slot_time b) = true) l)
  /\ exists l, fst (getAvailableTimeSlotsFromCalendar w date s) = Ok l
     /\ NoDup (map slot_time l)
     /\ Sorted (fun a b => time_str_ltb (slot_time a) (slot_time b) = true) l.
Proof.
  split.
  - unfold extractTimeSlotsFromEvents.
    destruct (extract_loop events dateStr []) as [acc|m] eqn:E; cbn.
    + apply sort_slots_strict. eapply extract_loop_nodup with (acc := []); [constructor|exact E].
    + split; constructor.
  - unfold getAvailableTimeSlotsFromCalendar, catchM, bindM, liftM, retM, getEventsM, emit.
    destruct (timeSlotsCalendarId (w_config w)) as [c|m]; cbn;
      [|exists []; repeat split; constructor].
    destruct (getTaipeiDateString date) as [qd|m]; cbn;
      [|exists []; repeat split; constructor].
    destruct (getOptimizedQueryRange qd) as [st en]; cbn.
    destruct (extract_loop _ qd []) as [acc|m] eqn:E; cbn;
      [|exists []; repeat split; constructor].
    exists (sort_slots acc). split; [reflexivity|].
    apply sort_slots_strict. eapply extract_loop_nodup with (acc := []); [constructor|exact E].
Qed.

Lemma sorted_impl {A} (R R' : A -> A -> Prop) l :
  (forall a b, R a b -> R' a b) -> Sorted R l -> Sorted R' l.
Proof.
  intros HR Hs. induction Hs as [|x l Hs IH Hd]; constructor; [exact IH|].
  destruct Hd; constructor. apply HR. assumption.
Qed.

(** X14 (extra): [getAllBookingSheetNames] returns exactly the booking-sheet names among the sheet names (a permutation of them), ordered by year from the latest to the earliest. *)
Theorem sheet_names_sorted (sheetNames : list jsstring) :
  Permutation (getAllBookingSheetNames sheetNames) (filter isBookingSheetName sheetNames)
  /\ Sorted (fun a b => sheet_year b <= sheet_year a) (getAllBookingSheetNames sheetNames).
Proof.
  unfold getAllBookingSheetNames. split; [apply sort_by_perm|].
  eapply sorted_impl; [|apply sort_by_sorted].
  - intros a b H. cbn in H. apply Z.ltb_ge in H. exact H.
  - intros a b H. apply Z.ltb_lt in H. apply Z.ltb_ge. lia.
Qed.

Lemma ascii_digit_code a v :
  ascii_digit a = Some v -> is_digit (Z.of_nat (nat_of_ascii a)) = true
                            /\ Z.of_nat (nat_of_ascii a) - 48 = v.
Proof.
  unfold ascii_digit, is_digit. destruct (_ && _) eqn:E; intros H; [|discriminate].
  injection H as <-. split; reflexivity.
Qed.

Lemma digits_value4 a b c e y :
  digits_value [a; b; c; e] = Some y ->
  exists v1 v2 v3 v4, ascii_digit a = Some v1 /\ ascii_digit b = Some v2
    /\ ascii_digit c = Some v3 /\ ascii_digit e = Some v4
    /\ y = ((v1 * 10 + v2) * 10 + v3) * 10 + v4.
Proof.
  unfold digits_value. cbn [fold_left].
  destruct (ascii_digit a) as [v1|], (ascii_digit b) as [v2|],
    (ascii_digit c) as [v3|], (ascii_digit e) as [v4|]; intros H; cbv beta iota in H; try discriminate.
  assert (Hy : y = 10 * (10 * (10 * (10 * 0 + v1) + v2) + v3) + v4) by congruence.
  exists v1, v2, v3, v4. repeat split. lia.
Qed.

Lemma validateBooking_date b d ts :
  validateBooking b = Ok (d, ts) ->
  exists ds, date b = Some ds /\ date_regex_match ds = Some d.
Proof.
  unfold validateBooking.
  destruct (field_missing (customerName b)); [discriminate|].
  destruct (field_missing (phone b)); [discriminate|].
  destruct (field_missing (date b)) eqn:Hd; [discriminate|].
  destruct (field_missing (time b)); [discriminate|].
  destruct (date b) as [ds|]; [|discriminate].
  destruct (date_regex_match ds) as [d'|] eqn:Hre; [|discriminate].
  destruct (has_TZ ds); [discriminate|].
  destruct (time_regex_match _) as [[h m]|]; [|discriminate].
  intros H. injection H as <- _. exists ds. split; [reflexivity|exact Hre].
Qed.

(** X15 (extra): for a booking that passes validation, [getBookingSheetNameByDate] on its date names a booking sheet whose year is the booking's year, and that name, when the spreadsheet has such a sheet, is among [getAllBookingSheetNames]. *)
Theorem booking_sheet_of_valid_booking b d ts (sheetNames : list jsstring)
    (Hvalid : validateBooking b = Ok (d, ts)) :
  exists ds, date b = Some ds /\ exists name,
    getBookingSheetNameByDate (js_of_ascii_string ds) = Ok name
    /\ isBookingSheetName name = true
    /\ sheet_year name = fst (fst d)
    /\ (In name sheetNames -> In name (getAllBookingSheetNames sheetNames)).
Proof.
  destruct (validateBooking_date b d ts Hvalid) as [ds [Hds Hre]].
  exists ds. split; [exact Hds|].
  unfold date_regex_match in Hre.
  unfold js_of_ascii_string.
  destruct (list_ascii_of_string ds) as
    [|y1 [|y2 [|y3 [|y4 [|s1 [|m1 [|m2 [|s2 [|a1 [|a2 [|? ?]]]]]]]]]]];
    try discriminate.
  destruct (Ascii.eqb s1 "-"%char && Ascii.eqb s2 "-"%char); [|discriminate].
  destruct (digits_value [y1; y2; y3; y4]) as [y|] eqn:Hy; [|discriminate].
  destruct (digits_value [m1; m2]) as [m|]; [|discriminate].
  destruct (digits_value [a1; a2]) as [dd|]; [|discriminate].
  injection Hre as <-.
  destruct (digits_value4 _ _ _ _ _ Hy) as [v1 [v2 [v3 [v4 [H1 [H2 [H3 [H4 Hyv]]]]]]]].
  apply ascii_digit_code in H1, H2, H3, H4.
  destruct H1 as [D1 E1], H2 as [D2 E2], H3 as [D3 E3], H4 as [D4 E4].
  set (c1 := Z.of_nat (nat_of_ascii y1)) in *.
  set (c2 := Z.of_nat (nat_of_ascii y2)) in *.
  set (c3 := Z.of_nat (nat_of_ascii y3)) in *.
  set (c4 := Z.of_nat (nat_of_ascii y4)) in *.
  exists (BOOKING_SHEET_NAME ++ [c1; c2; c3; c4]).
  cbn [map].
  unfold getBookingSheetNameByDate. cbn [firstn List.length Nat.eqb forallb].
  subst c1 c2 c3 c4. rewrite D1, D2, D3, D4. cbn [andb].
  split; [reflexivity|].
  split; [unfold isBookingSheetName, BOOKING_SHEET_NAME; cbn [app]; rewrite D1, D2, D3, D4; reflexivity|].
  split; [unfold sheet_year, js_digits_value, BOOKING_SHEET_NAME; cbn [app skipn fold_left fst]; lia|].
  intros Hin. eapply Permutation_in; [symmetry; apply (sort_by_perm _ (filter isBookingSheetName sheetNames))|].
  apply filter_In. split; [exact Hin|].
  unfold isBookingSheetName, BOOKING_SHEET_NAME; cbn [app]; rewrite D1, D2, D3, D4; reflexivity.
Qed.

Lemma booking_sheet_of_valid_booking_witness :
  exists ds, date booking_0715_1000 = Some ds /\ exists name,
    getBookingSheetNameByDate (js_of_ascii_string ds) = Ok name
    /\ isBookingSheetName name = true
    /\ sheet_year name = fst (fst day_2025_07_15)
    /\ (In name [sheet_name_2025] -> In name (getAllBookingSheetNames [sheet_name_2025])).
Proof.
  apply (booking_sheet_of_valid_booking booking_0715_1000 day_2025_07_15 (SlotHM 10 0)
           [sheet_name_2025]).
  reflexivity.
Defined.

Lemma keep_from_app {A} P k (l1 l2 : list A) :
  keep_from P k (l1 ++ l2) = keep_from P k l1 ++ keep_from P (k + List.length l1) l2.
Proof.
  revert k. induction l1 as [|x l1 IH]; intros k; cbn.
  - rewrite Nat.add_0_r. reflexivity.
  - rewrite IH, Nat.add_succ_r. destruct (P k); reflexivity.
Qed.

Lemma keep_from_ext {A} P Q k (l : list A) :
  (forall j, (k <= j < k + List.length l)%nat -> P j = Q j) ->
  keep_from P k l = keep_from Q k l.
Proof.
  revert k. induction l as [|x l IH]; intros k H; cbn; [reflexivity|].
  rewrite (H k) by (cbn; lia).
  rewrite (IH (S k)) by (intros j Hj; apply H; cbn; lia). reflexivity.
Qed.

Lemma keep_from_true {A} P k (l : list A) :
  (forall j, (k <= j < k + List.length l)%nat -> P j = true) -> keep_from P k l = l.
Proof.
  revert k. induction l as [|x l IH]; intros k H; cbn; [reflexivity|].
  rewrite (H k) by (cbn; lia). rewrite IH; [reflexivity|]. intros j Hj; apply H; cbn; lia.
Qed.

Lemma keep_from_filter {A} P k (f : A -> bool) (d : A) (l : list A) :
  (forall j, (j < List.length l)%nat -> P (k + j)%nat = f (nth j l d)) ->
  keep_from P k l = filter f l.
Proof.
  revert k. induction l as [|x l IH]; intros k H; cbn; [reflexivity|].
  pose proof (H 0%nat ltac:(cbn; lia)) as H0. rewrite Nat.add_0_r in H0. cbn in H0. rewrite H0.
  rewrite (IH (S k)); [reflexivity|].
  intros j Hj. replace (S k + j)%nat with (k + S j)%nat by lia. apply (H (S j)). cbn; lia.
Qed.

Lemma deleteRow_app r (A B : list sheet_row) :
  2 <= r -> (Z.to_nat (r - 2) < List.length A)%nat ->
  deleteRow r (A ++ B) = deleteRow r A ++ B.
Proof.
  intros H2 Hlt. unfold deleteRow.
  rewrite firstn_app, skipn_app.
  replace (Z.to_nat (r - 2) - List.length A)%nat with 0%nat by lia.
  replace (S (Z.to_nat (r - 2)) - List.length A)%nat with 0%nat by lia.
  cbn. rewrite app_nil_r, app_assoc. reflexivity.
Qed.

Lemma deleteRow_length r (A : list sheet_row) :
  2 <= r -> (Z.to_nat (r - 2) < List.length A)%nat ->
  List.length (deleteRow r A) = (List.length A - 1)%nat.
Proof.
  intros H2 Hlt. unfold deleteRow. rewrite length_app, length_firstn, length_skipn. lia.
Qed.

Lemma del_rows_app L (A B : list sheet_row) :
  StronglySorted (fun a b => b < a) L ->
  (forall r, In r L -> 2 <= r <= Z.of_nat (List.length A) + 1) ->
  del_rows L (A ++ B) = del_rows L A ++ B.
Proof.
  unfold del_rows. revert A. induction L as [|r L IH]; intros A Hs Hr; cbn; [reflexivity|].
  inversion Hs as [|? ? Hs' Hall]; subst.
  assert (Hr0 : 2 <= r <= Z.of_nat (List.length A) + 1) by (apply Hr; left; reflexivity).
  rewrite deleteRow_app by lia.
  apply IH; [exact Hs'|].
  intros r' Hin. rewrite deleteRow_length by lia.
  assert (r' < r) by (rewrite Forall_forall in Hall; apply Hall; exact Hin).
  assert (2 <= r') by (apply Hr; right; exact Hin). lia.
Qed.

Lemma del_rows_length L (rows : list sheet_row) :
  StronglySorted (fun a b => b < a) L ->
  (forall r, In r L -> 2 <= r <= Z.of_nat (List.length rows) + 1) ->
  List.length (del_rows L rows) = (List.length rows - List.length L)%nat.
Proof.
  unfold del_rows. revert rows. induction L as [|r L IH]; intros rows Hs Hr; cbn; [lia|].
  inversion Hs as [|? ? Hs' Hall]; subst.
  assert (Hr0 : 2 <= r <= Z.of_nat (List.length rows) + 1) by (apply Hr; left; reflexivity).
  rewrite IH; [rewrite deleteRow_length by lia; lia|exact Hs'|].
  intros r' Hin. rewrite deleteRow_length by lia.
  assert (r' < r) by (rewrite Forall_forall in Hall; apply Hall; exact Hin).
  assert (2 <= r') by (apply Hr; right; exact Hin). lia.
Qed.

Lemma del_rows_keep L (rows : list sheet_row) :
  StronglySorted (fun a b => b < a) L ->
  (forall r, In r L -> 2 <= r <= Z.of_nat (List.length rows) + 1) ->
  del_rows L rows
  = keep_from (fun j => negb (existsb (Z.eqb (Z.of_nat j + 2)) L)) 0 rows.
Proof.
  revert rows. induction L as [|r L IH]; intros rows Hs Hr.
  - cbn. symmetry. apply keep_from_true. intros; reflexivity.
  - inversion Hs as [|? ? Hs' Hall]; subst. rewrite Forall_forall in Hall.
    assert (Hr0 : 2 <= r <= Z.of_nat (List.length rows) + 1) by (apply Hr; left; reflexivity).
    set (i := Z.to_nat (r - 2)).
    assert (Hi : (i < List.length rows)%nat) by (unfold i; lia).
    unfold del_rows. cbn [fold_left]. fold (del_rows L (deleteRow r rows)).
    unfold deleteRow at 1. fold i.
    assert (HlenA : List.length (firstn i rows) = i) by (rewrite length_firstn; lia).
    rewrite del_rows_app; [|exact Hs'|].
    2:{ intros r' Hin. rewrite HlenA.
        assert (r' < r) by (apply Hall; exact Hin).
        assert (2 <= r') by (apply Hr; right; exact Hin). unfold i. lia. }
    rewrite IH; [|exact Hs'|].
    2:{ intros r' Hin. rewrite HlenA.
        assert (r' < r) by (apply Hall; exact Hin).
        assert (2 <= r') by (apply Hr; right; exact Hin). unfold i. lia. }
    rewrite <- (firstn_skipn i rows) at 3.
    rewrite keep_from_app, HlenA.
    destruct (skipn i rows) as [|x B] eqn:Eskip.
    { apply (f_equal (@List.length _)) in Eskip. rewrite length_skipn in Eskip. cbn in Eskip. lia. }
    assert (EB : skipn (S i) rows = B).
    { rewrite <- (skipn_skipn 1 i), Eskip. reflexivity. }
    rewrite EB. cbn [keep_from].
    replace (negb (existsb (Z.eqb (Z.of_nat (0 + i) + 2)) (r :: L))) with false.
    2:{ cbn. replace (Z.of_nat i + 2 =? r) with true; [reflexivity|].
        symmetry. apply Z.eqb_eq. unfold i. lia. }
    f_equal.
    + apply keep_from_ext. intros j Hj. rewrite HlenA in Hj.
      cbn [existsb]. replace (Z.of_nat j + 2 =? r) with false; [reflexivity|].
      symmetry. apply Z.eqb_neq. unfold i in Hj. lia.
    + symmetry. apply keep_from_true. intros j Hj.
      apply negb_true_iff. apply not_true_is_false. intros Hex.
      apply existsb_exists in Hex. destruct Hex as [r' [Hin Heq]]. apply Z.eqb_eq in Heq.
      destruct Hin as [<-|Hin]; [unfold i in Hj; lia|].
      assert (r' < r) by (apply Hall; exact Hin). unfold i in Hj. lia.
Qed.

Lemma rowsToDelete_nil ids : rowsToDelete ids [] = [].
Proof. induction ids as [|t ids IH]; [reflexivity|exact IH]. Qed.

Lemma scan_ids_In t i l z :
  In z (scan_ids t i l) <->
  exists j, (j < List.length l)%nat /\ z = i + Z.of_nat j + 2
            /\ String.eqb (normalizeSheetId (nth j l ""%string)) t = true.
Proof.
  revert i. induction l as [|x l IH]; intros i; cbn.
  - split; [intros []|]. intros [j [Hj _]]. lia.
  - rewrite in_app_iff, IH. split.
    + intros [Hin|[j [Hj [Hz Heq]]]].
      * destruct (String.eqb (normalizeSheetId x) t) eqn:E; [|destruct Hin].
        destruct Hin as [<-|[]]. exists 0%nat. split; [lia|]. split; [lia|exact E].
      * exists (S j). split; [lia|]. split; [lia|exact Heq].
    + intros [[|j] [Hj [Hz Heq]]].
      * left. rewrite Heq. left. lia.
      * right. exists j. split; [lia|]. split; [lia|exact Heq].
Qed.

Lemma rowsToDelete_In ids l z :
  In z (rowsToDelete ids l) <->
  exists j, (j < List.length l)%nat /\ z = Z.of_nat j + 2
            /\ existsb (String.eqb (normalizeSheetId (nth j l ""%string))) ids = true.
Proof.
  unfold rowsToDelete. rewrite in_flat_map. split.
  - intros [t [Ht Hin]]. apply scan_ids_In in Hin. destruct Hin as [j [Hj [Hz Heq]]].
    exists j. split; [exact Hj|]. split; [lia|].
    apply existsb_exists. exists t. split; assumption.
  - intros [j [Hj [Hz Hex]]]. apply existsb_exists in Hex. destruct Hex as [t [Ht Heq]].
    exists t. split; [exact Ht|]. apply scan_ids_In. exists j. split; [exact Hj|]. split; [lia|exact Heq].
Qed.

Lemma set_of_list_spec l :
  (forall x, In x (set_of_list l) <-> In x l) /\ NoDup (set_of_list l).
Proof.
  unfold set_of_list.
  assert (H : forall acc, NoDup acc ->
     (forall x, In x (fold_left (fun acc x => if existsb (Z.eqb x) acc then acc else acc ++ [x]) l acc)
                <-> In x acc \/ In x l)
     /\ NoDup (fold_left (fun acc x => if existsb (Z.eqb x) acc then acc else acc ++ [x]) l acc)).
  { induction l as [|y l IH]; intros acc Hnd; cbn.
    - split; [intros x; tauto|exact Hnd].
    - destruct (existsb (Z.eqb y) acc) eqn:E.
      + destruct (IH acc Hnd) as [H1 H2]. split; [|exact H2].
        intros x. rewrite H1. split; [tauto|].
        intros [Hx|[<-|Hx]]; auto.
        left. apply existsb_exists in E. destruct E as [z [Hz Hyz]].
        apply Z.eqb_eq in Hyz. subst. exact Hz.
      + assert (Hnd' : NoDup (acc ++ [y])).
        { apply Permutation_NoDup with (l := y :: acc); [apply Permutation_cons_append|].
          constructor; [|exact Hnd]. intros Hin.
          assert (existsb (Z.eqb y) acc = true) by (apply existsb_exists; exists y; split; [exact Hin|apply Z.eqb_refl]).
          congruence. }
        destruct (IH (acc ++ [y]) Hnd') as [H1 H2]. split; [|exact H2].
        intros x. rewrite H1, in_app_iff. cbn. tauto. }
  destruct (H [] (NoDup_nil _)) as [H1 H2]. split; [|exact H2].
  intros x. rewrite H1. cbn. tauto.
Qed.

Lemma uniqueRows_spec (toDelete : list Z) :
  let U := sort_by (fun a b => b <? a) (set_of_list toDelete) in
  StronglySorted (fun a b => b < a) U /\ NoDup U /\ (forall x, In x U <-> In x toDelete).
Proof.
  intros U. destruct (set_of_list_spec toDelete) as [Hin Hnd].
  assert (Hperm : Permutation U (set_of_list toDelete)) by apply sort_by_perm.
  assert (HndU : NoDup U) by (eapply Permutation_NoDup; [symmetry; exact Hperm|exact Hnd]).
  split; [|split; [exact HndU|]].
  - apply Sorted_StronglySorted; [intros a b c; lia|].
    assert (Hs : Sorted (fun a b => (a <? b) = false) U).
    { apply (sort_by_sorted (fun a b => b <? a)).
      intros a b H. apply Z.ltb_lt in H. apply Z.ltb_ge. lia. }
    clear Hperm. induction Hs as [|x l Hs IH Hd]; constructor.
    + apply IH. inversion HndU; assumption.
    + destruct Hd as [|y l' Hxy]; constructor.
      apply Z.ltb_ge in Hxy. inversion HndU as [|? ? Hni _]; subst.
      assert (x <> y) by (intros ->; apply Hni; left; reflexivity). lia.
  - intros x. rewrite <- Hin. split; apply Permutation_in; [exact Hperm|symmetry; exact Hperm].
Qed.

Lemma processSheet_kept (deletedEventIds : list string) (rows : list sheet_row) :
  let kept := filter (fun r => negb (existsb (String.eqb (normalizeSheetId (eventIdCell r)))
                                            deletedEventIds)) rows in
  processSheet deletedEventIds rows
  = (kept, Z.of_nat (List.length rows) - Z.of_nat (List.length kept)).
Proof.
  intros kept.
  set (toDelete := rowsToDelete deletedEventIds (map eventIdCell rows)).
  set (U := sort_by (fun a b => b <? a) (set_of_list toDelete)).
  destruct (uniqueRows_spec toDelete) as [Hss [Hnd HU]]. fold U in Hss, Hnd, HU.
  assert (Hrange : forall r, In r U -> 2 <= r <= Z.of_nat (List.length rows) + 1).
  { intros r Hr. apply HU in Hr. apply rowsToDelete_In in Hr.
    destruct Hr as [j [Hj [-> _]]]. rewrite length_map in Hj. lia. }
  assert (Hdel : processSheet deletedEventIds rows = (del_rows U rows, Z.of_nat (List.length U))).
  { unfold processSheet, U, toDelete.
    destruct rows as [|r0 rows'].
    - cbn [map]. rewrite rowsToDelete_nil. reflexivity.
    - destruct (rowsToDelete deletedEventIds (map eventIdCell (r0 :: rows'))); reflexivity. }
  assert (Hkeep : del_rows U rows = kept).
  { rewrite del_rows_keep by assumption.
    apply (keep_from_filter _ 0 _ (mkRow ""%string [])). intros j Hj. cbn [Nat.add].
    f_equal. apply eq_iff_eq_true. rewrite existsb_exists.
    split.
    - intros [x [Hx Heq]]. apply Z.eqb_eq in Heq. subst x.
      apply HU, rowsToDelete_In in Hx. destruct Hx as [j' [_ [Hjj Hex]]].
      assert (j' = j) by lia. subst j'.
      rewrite (map_nth eventIdCell rows (mkRow ""%string [])) in Hex. exact Hex.
    - intros Hex. exists (Z.of_nat j + 2). split; [|apply Z.eqb_refl].
      apply HU, rowsToDelete_In. exists j. rewrite length_map. split; [exact Hj|]. split; [reflexivity|].
      rewrite (map_nth eventIdCell rows (mkRow ""%string [])). exact Hex. }
  rewrite Hdel, Hkeep. f_equal.
  pose proof (del_rows_length U rows Hss Hrange) as Hlen. rewrite Hkeep in Hlen.
  assert (HlenU : (List.length U <= List.length rows)%nat).
  { replace (List.length rows) with (List.length (map (fun j => Z.of_nat j + 2) (seq 0 (List.length rows))))
      by (rewrite length_map, length_seq; reflexivity).
    apply NoDup_incl_length; [exact Hnd|].
    intros x Hx. apply HU, rowsToDelete_In in Hx. destruct Hx as [j [Hj [-> _]]].
    rewrite length_map in Hj. apply in_map_iff. exists j. split; [reflexivity|apply in_seq; lia]. }
  lia.
Qed.

Lemma sheet_rows_map (g : jsstring -> list sheet_row -> list sheet_row) n sheets :
  sheet_rows n (map (fun p => (fst p, g (fst p) (snd p))) sheets)
  = if in_dec (list_eq_dec Z.eq_dec) n (map fst sheets) then g n (sheet_rows n sheets)
    else [].
Proof.
  induction sheets as [|[m rows] sheets IH]; cbn [sheet_rows map fst snd]; [reflexivity|].
  destruct (list_eq_dec Z.eq_dec m n) as [->|Hne].
  - destruct (in_dec (list_eq_dec Z.eq_dec) n (n :: map fst sheets)) as [_|Hn]; [reflexivity|].
    exfalso. apply Hn. left. reflexivity.
  - rewrite IH.
    destruct (in_dec (list_eq_dec Z.eq_dec) n (map fst sheets)) as [Hin|Hnin];
      destruct (in_dec (list_eq_dec Z.eq_dec) n (m :: map fst sheets)) as [Hin'|Hnin']; try reflexivity.
    + exfalso. apply Hnin'. right. exact Hin.
    + destruct Hin' as [->|Hin']; [congruence|contradiction].
Qed.

Lemma set_sheet_rows_map n r sheets :
  NoDup (map fst sheets) ->
  set_sheet_rows n r sheets
  = map (fun p => (fst p, if list_eq_dec Z.eq_dec (fst p) n then r else snd p)) sheets.
Proof.
  induction sheets as [|[m rows] sheets IH]; intros Hnd; cbn [set_sheet_rows map fst snd]; [reflexivity|].
  inversion Hnd as [|? ? Hni Hnd']; subst.
  destruct (list_eq_dec Z.eq_dec m n) as [->|Hne].
  - f_equal. symmetry. rewrite <- (map_id sheets) at 2. apply map_ext_in.
    intros [m' rows'] Hin. cbn [fst snd].
    destruct (list_eq_dec Z.eq_dec m' n) as [->|]; [|reflexivity].
    exfalso. apply Hni. apply in_map_iff. exists (n, rows'). split; [reflexivity|exact Hin].
  - f_equal. apply IH, Hnd'.
Qed.

Lemma sheet_rows_In n rows sheets :
  NoDup (map fst sheets) -> In (n, rows) sheets -> sheet_rows n sheets = rows.
Proof.
  induction sheets as [|[m rs] sheets IH]; intros Hnd Hin; [destruct Hin|].
  inversion Hnd as [|? ? Hni Hnd']; subst. cbn [sheet_rows].
  destruct Hin as [E|Hin].
  - injection E as -> ->. destruct (list_eq_dec Z.eq_dec n n); [reflexivity|congruence].
  - destruct (list_eq_dec Z.eq_dec m n) as [->|]; [|apply IH; assumption].
    exfalso. apply Hni. apply in_map_iff. exists (n, rows). split; [reflexivity|exact Hin].
Qed.

Lemma filter_length_le {A} (f : A -> bool) l : (List.length (filter f l) <= List.length l)%nat.
Proof. induction l as [|x l IH]; cbn; [lia|]. destruct (f x); cbn; lia. Qed.

Section DeletionSync.
Variable sheets : list sheet.
Variable ids : list string.
Hypothesis Hnd : NoDup (map fst sheets).

Lemma sync_fold N P acc :
  NoDup (P ++ N) -> (forall n, In n N -> In n (map fst sheets)) ->
  sync_inv sheets ids P acc -> sync_inv sheets ids (P ++ N) (fold_left (sync_step ids) N acc).
Proof.
  revert P acc. induction N as [|n N IH]; intros P [shs total] HndPN HN [Hshs [Hpos Htot]].
  - rewrite app_nil_r. split; [exact Hshs|split; assumption].
  - cbn [fold_left]. replace (P ++ n :: N) with ((P ++ [n]) ++ N) by (rewrite <- app_assoc; reflexivity).
    apply IH; [rewrite <- app_assoc; exact HndPN|intros m Hm; apply HN; right; exact Hm|].
    assert (HnP : ~ In n P).
    { intros Hin. apply NoDup_remove_2 in HndPN. apply HndPN. apply in_app_iff. left. exact Hin. }
    assert (Hrows : sheet_rows n shs = sheet_rows n sheets).
    { cbn [fst] in Hshs. rewrite Hshs.
      rewrite (sheet_rows_map (fun m rows => if name_in m P then kept_rows ids rows else rows)).
      destruct (in_dec (list_eq_dec Z.eq_dec) n (map fst sheets)) as [_|Hno];
        [|exfalso; apply Hno, HN; left; reflexivity].
      unfold name_in. destruct (in_dec (list_eq_dec Z.eq_dec) n P); [contradiction|reflexivity]. }
    unfold sync_step. rewrite Hrows, processSheet_kept. fold (kept_rows ids (sheet_rows n sheets)).
    split; [|split]; cbn [fst snd].
    + cbn [fst] in Hshs. rewrite Hshs, set_sheet_rows_map.
      2:{ rewrite map_map. cbn. exact Hnd. }
      rewrite map_map. apply map_ext_in. intros [m rows] Hin. cbn [fst snd].
      unfold name_in.
      destruct (list_eq_dec Z.eq_dec m n) as [->|Hne].
      * destruct (in_dec (list_eq_dec Z.eq_dec) n (P ++ [n])) as [_|Hno];
          [|exfalso; apply Hno, in_app_iff; right; left; reflexivity].
        rewrite (sheet_rows_In n rows sheets Hnd Hin). reflexivity.
      * destruct (in_dec (list_eq_dec Z.eq_dec) m P) as [HmP|HmP];
          destruct (in_dec (list_eq_dec Z.eq_dec) m (P ++ [n])) as [HmPn|HmPn]; try reflexivity.
        -- exfalso. apply HmPn, in_app_iff. left. exact HmP.
        -- exfalso. apply in_app_iff in HmPn. destruct HmPn as [?|[?|[]]]; [contradiction|congruence].
    + pose proof (filter_length_le (fun r => negb (existsb (String.eqb (normalizeSheetId (eventIdCell r))) ids))
                                   (sheet_rows n sheets)). cbn [snd] in Hpos. unfold kept_rows. lia.
    + rewrite existsb_app. cbn [existsb]. rewrite orb_false_r. cbn [snd] in Htot. rewrite <- Htot.
      pose proof (filter_length_le (fun r => negb (existsb (String.eqb (normalizeSheetId (eventIdCell r))) ids))
                                   (sheet_rows n sheets)). fold (kept_rows ids (sheet_rows n sheets)) in H.
      cbn [snd] in Hpos.
      destruct (0 <? total) eqn:E1, (List.length (kept_rows ids (sheet_rows n sheets)) <? List.length (sheet_rows n sheets))%nat eqn:E2;
        cbn [orb]; apply Z.ltb_lt || apply Z.ltb_ge;
        rewrite ?Z.ltb_lt, ?Z.ltb_ge, ?Nat.ltb_lt, ?Nat.ltb_ge in *; lia.
Qed.
End DeletionSync.

Lemma kept_nil rows :
  filter (fun r => negb (existsb (String.eqb (normalizeSheetId (eventIdCell r))) [])) rows = rows.
Proof.
  induction rows as [|r rows IH]; [reflexivity|].
  change (r :: filter (fun r => negb (existsb (String.eqb (normalizeSheetId (eventIdCell r))) []))
                      rows = r :: rows).
  rewrite IH. reflexivity.
Qed.

(** X16 (extra): when sheet names are distinct, [processCalendarChanges] leaves every booking sheet with exactly its rows whose normalised event id is not a cancelled event's id, leaves other sheets unchanged, and clears the booking cache exactly when some booking sheet lost a row. *)
Theorem processCalendarChanges_spec (events : list cal_change) (sheets : list sheet)
    (Hnd : NoDup (map fst sheets)) :
  let ids := map change_id (filter (fun e => String.eqb (change_status e) "cancelled") events) in
  let kept rows :=
    filter (fun r => negb (existsb (String.eqb (normalizeSheetId (eventIdCell r))) ids)) rows in
  processCalendarChanges events sheets
  = (map (fun p => (fst p, if isBookingSheetName (fst p) then kept (snd p) else snd p)) sheets,
     if existsb (fun p => isBookingSheetName (fst p)
                          && (List.length (kept (snd p)) <? List.length (snd p))%nat) sheets
     then [ClearBookingCache] else []).
Proof.
  cbv zeta. unfold processCalendarChanges.
  destruct (map change_id (filter (fun e => String.eqb (change_status e) "cancelled") events))
    as [|i0 ids'] eqn:Eids.
  - f_equal.
    + rewrite <- (map_id sheets) at 1. apply map_ext. intros [n rows]. cbn [fst snd].
      rewrite kept_nil. destruct (isBookingSheetName n); reflexivity.
    + replace (existsb _ sheets) with false; [reflexivity|].
      symmetry. apply not_true_is_false. intros Hex. apply existsb_exists in Hex.
      destruct Hex as [[n rows] [_ Hx]]. cbn [fst snd] in Hx. rewrite kept_nil in Hx.
      apply andb_true_iff in Hx. destruct Hx as [_ Hx]. apply Nat.ltb_lt in Hx. lia.
  - set (N := getAllBookingSheetNames (map fst sheets)).
    assert (HpermN : Permutation N (filter isBookingSheetName (map fst sheets))) by apply sort_by_perm.
    assert (HndN : NoDup N).
    { eapply Permutation_NoDup; [symmetry; exact HpermN|]. apply NoDup_filter, Hnd. }
    assert (HinN : forall m, In m (map fst sheets) -> (In m N <-> isBookingSheetName m = true)).
    { intros m Hm. split.
      - intros H. apply (Permutation_in _ HpermN), filter_In in H. apply H.
      - intros H. apply (Permutation_in _ (Permutation_sym HpermN)), filter_In. split; assumption. }
    pose proof (sync_fold sheets (i0 :: ids') Hnd N [] (sheets, 0)) as Hf.
    cbn [app] in Hf.
    specialize (Hf HndN).
    assert (HN : forall n, In n N -> In n (map fst sheets)).
    { intros n Hn. apply (Permutation_in _ HpermN), filter_In in Hn. apply Hn. }
    specialize (Hf HN).
    destruct (fold_left (sync_step (i0 :: ids')) N (sheets, 0)) as [shs total].
    destruct Hf as [Hshs [Hpos Htot]].
    { split; [|split; reflexivity]. cbn [fst].
      rewrite <- (map_id sheets) at 1. apply map_ext. intros [n rows]. reflexivity. }
    cbn [fst snd] in Hshs, Hpos, Htot. unfold kept_rows in Hshs, Htot.
    f_equal.
    + rewrite Hshs. apply map_ext_in. intros [n rows] Hin. cbn [fst snd].
      unfold name_in.
      assert (Hn : In n (map fst sheets)) by (apply in_map_iff; exists (n, rows); split; [reflexivity|exact Hin]).
      destruct (in_dec (list_eq_dec Z.eq_dec) n N) as [H|H];
        destruct (isBookingSheetName n) eqn:Eb; try reflexivity.
      * apply (HinN n Hn) in H. congruence.
      * exfalso. apply H, (HinN n Hn), Eb.
    + match goal with |- (if ?c then _ else _) = (if ?c' then _ else _) =>
        replace c' with c; [reflexivity|] end.
      rewrite Htot. apply eq_iff_eq_true. rewrite !existsb_exists. split.
      * intros [n [Hn Hs]].
        assert (Hn' : In n (map fst sheets)) by (apply HN, Hn).
        apply in_map_iff in Hn'. destruct Hn' as [[n' rows] [E Hin]]. cbn [fst] in E. subst n'.
        exists (n, rows). split; [exact Hin|]. cbn [fst snd].
        rewrite (sheet_rows_In n rows sheets Hnd Hin) in Hs.
        apply andb_true_iff. split; [|exact Hs].
        apply (HinN n); [apply in_map_iff; exists (n, rows); split; [reflexivity|exact Hin]|exact Hn].
      * intros [[n rows] [Hin Hx]]. cbn [fst snd] in Hx. apply andb_true_iff in Hx. destruct Hx as [Hb Hs].
        exists n. split.
        -- apply (HinN n); [apply in_map_iff; exists (n, rows); split; [reflexivity|exact Hin]|exact Hb].
        -- rewrite (sheet_rows_In n rows sheets Hnd Hin). exact Hs.
Qed.

Lemma processCalendarChanges_spec_witness :
  let ids := map change_id (filter (fun e => String.eqb (change_status e) "cancelled")
                              changes_one_cancelled) in
  let kept rows :=
    filter (fun r => negb (existsb (String.eqb (normalizeSheetId (eventIdCell r))) ids)) rows in
  processCalendarChanges changes_one_cancelled sheets_example
  = (map (fun p => (fst p, if isBookingSheetName (fst p) then kept (snd p) else snd p))
       sheets_example,
     if existsb (fun p => isBookingSheetName (fst p)
                          && (List.length (kept (snd p)) <? List.length (snd p))%nat) sheets_example
     then [ClearBookingCache] else []).
Proof.
  apply processCalendarChanges_spec.
  vm_compute. apply NoDup_cons; [intros [H|[]]; discriminate|].
  apply NoDup_cons; [intros []|apply NoDup_nil].
Defined.

Lemma conflict_loop_app e1 e2 ss se q acc :
  conflict_loop (e1 ++ e2) ss se q acc
  = match conflict_loop e1 ss se q acc with
    | Ok a => conflict_loop e2 ss se q a
    | Throw m => Throw m
    end.
Proof.
  revert acc. induction e1 as [|ev rest IH]; intros acc; cbn [conflict_loop app]; [reflexivity|].
  destruct (getTaipeiDateString (ev_start ev)) as [eds|m]; cbn [res_bind]; [|reflexivity].
  destruct (negb (ymd_eqb eds q)); [apply IH|].
  destruct (date_lt ss (ev_end ev) && date_lt (ev_start ev) se); apply IH.
Qed.

Lemma conflict_loop_invalid events ss se q acc ev :
  In ev events -> ev_start ev = None ->
  exists m, conflict_loop events ss se q acc = Throw m.
Proof.
  revert acc. induction events as [|e rest IH]; intros acc Hin Hst; [destruct Hin|].
  cbn [conflict_loop].
  destruct Hin as [<-|Hin].
  - rewrite Hst. cbn. eexists. reflexivity.
  - destruct (getTaipeiDateString (ev_start e)) as [eds|m]; cbn [res_bind]; [|eexists; reflexivity].
    destruct (negb (ymd_eqb eds q)); [apply IH; assumption|].
    destruct (date_lt ss (ev_end e) && date_lt (ev_start e) se); apply IH; assumption.
Qed.

(** X12 (extra): if any event has an invalid start time, [checkSingleTimeSlotAvailability] answers the failure record (not available, conflict count -1) for every slot. *)
Theorem checkSingle_invalid_event events ts d
    (Hbad : exists ev, In ev events /\ ev_start ev = None) :
  checkSingleTimeSlotAvailability events ts d = failedAvailability.
Proof.
  destruct Hbad as [ev [Hin Hst]].
  unfold checkSingleTimeSlotAvailability, checkSingle_body.
  destruct (slot_window ts d) as [[ss se]|m]; cbn [res_bind]; [|reflexivity].
  destruct (conflict_loop_invalid events ss se d [] ev Hin Hst) as [m ->]. reflexivity.
Qed.

Lemma checkSingle_invalid_event_witness :
  checkSingleTimeSlotAvailability [booking_1000; event_invalid_start] (SlotHM 18 0) day_2025_07_15
  = failedAvailability.
Proof.
  apply checkSingle_invalid_event.
  exists event_invalid_start. split; [right; left; reflexivity|reflexivity].
Defined.

(** X13 (extra): a slot is available against the concatenation of two event lists exactly when it is available against each of them. *)
Theorem checkSingle_app_available e1 e2 ts d :
  available (checkSingleTimeSlotAvailability (e1 ++ e2) ts d)
  = available (checkSingleTimeSlotAvailability e1 ts d)
    && available (checkSingleTimeSlotAvailability e2 ts d).
Proof.
  unfold checkSingleTimeSlotAvailability, checkSingle_body.
  destruct (slot_window ts d) as [[ss se]|m]; cbn [res_bind try_catch]; [|reflexivity].
  rewrite conflict_loop_app.
  destruct (conflict_loop e1 ss se d []) as [r1|m]; cbn [try_catch available]; [|reflexivity].
  rewrite conflict_loop_acc.
  destruct (conflict_loop e2 ss se d []) as [r2|m]; cbn [res_bind try_catch available];
    [|rewrite andb_false_r; reflexivity].
  rewrite length_app.
  destruct r1, r2; reflexivity.
Qed.

Lemma date_regex_match_nonempty ds d :
  date_regex_match ds = Some d -> field_missing (Some ds) = false.
Proof.
  intros H. cbn [field_missing]. destruct (String.eqb ds "") eqn:E; [|reflexivity].
  apply String.eqb_eq in E. subst ds. discriminate.
Qed.

Lemma taipei_midnight_lt day now :
  date_lt (Some (day * MS_PER_DAY)) (setHoursTaipei (Some now) 0 0)
  = (day <? (now + UTC_OFFSET_MS) / MS_PER_DAY).
Proof.
  unfold date_lt, setHoursTaipei.
  generalize ((now + UTC_OFFSET_MS) / MS_PER_DAY) as T. intros T.
  unfold MS_PER_DAY, MS_PER_HOUR, MS_PER_MINUTE, UTC_OFFSET_MS.
  destruct (Z.ltb_spec day T) as [H|H].
  - apply Z.ltb_lt. nia.
  - apply Z.ltb_ge. nia.
Qed.

(** X9 (extra): for a well-formed, configured request, [handleGetAvailableTimeSlots] answers the past-date result, without any calendar query, exactly when the day is before the current Taipei day; otherwise it answers the slots of [getAvailableTimeSlotsFromCalendar] for UTC midnight of that day. *)
Theorem getAvailableSlots_past_date w now ds d day c s
    (Hre : date_regex_match ds = Some d) (Hday : ymd_day_number d = Some day)
    (Hc : calendarId (w_config w) = Ok c) (Hp : String.eqb c CALENDAR_PLACEHOLDER = false) :
  (day < (now + UTC_OFFSET_MS) / MS_PER_DAY ->
     handleGetAvailableTimeSlots w now (Some ds) s = (Ok SlotsPastDate, s))
  /\ ((now + UTC_OFFSET_MS) / MS_PER_DAY <= day ->
     handleGetAvailableTimeSlots w now (Some ds) s
     = let '(r, s') := getAvailableTimeSlotsFromCalendar w (Some (day * MS_PER_DAY)) s in
       (match r with Ok l => Ok (SlotsFound l) | Throw m => Ok (SlotsFail m) end, s')).
Proof.
  unfold handleGetAvailableTimeSlots, catchM, bindM, liftM, throwM, retM.
  rewrite (date_regex_match_nonempty ds d Hre), Hre, Hc, Hp.
  unfold parseDateOnly. rewrite Hday, taipei_midnight_lt.
  split; intros H.
  - apply Z.ltb_lt in H. rewrite H. reflexivity.
  - apply Z.ltb_ge in H. rewrite H.
    destruct (getAvailableTimeSlotsFromCalendar w (Some (day * MS_PER_DAY)) s) as [[l|m] s']; reflexivity.
Qed.

Lemma getAvailableSlots_past_date_witness :
  (20284 < (20285 * MS_PER_DAY + UTC_OFFSET_MS) / MS_PER_DAY ->
     handleGetAvailableTimeSlots world_busy_1000 (20285 * MS_PER_DAY) (Some "2025-07-15"%string)
       (mkState [] []) = (Ok SlotsPastDate, mkState [] []))
  /\ ((20285 * MS_PER_DAY + UTC_OFFSET_MS) / MS_PER_DAY <= 20284 ->
     handleGetAvailableTimeSlots world_busy_1000 (20285 * MS_PER_DAY) (Some "2025-07-15"%string)
       (mkState [] [])
     = let '(r, s') := getAvailableTimeSlotsFromCalendar world_busy_1000
                         (Some (20284 * MS_PER_DAY)) (mkState [] []) in
       (match r with Ok l => Ok (SlotsFound l) | Throw m => Ok (SlotsFail m) end, s')).
Proof.
  apply (getAvailableSlots_past_date world_busy_1000 (20285 * MS_PER_DAY) "2025-07-15"
           day_2025_07_15 20284 "salon@example.com" (mkState [] []));
    reflexivity.
Defined.

Lemma getAvailableTimeSlotsFromCalendar_ok w date s :
  exists l s', getAvailableTimeSlotsFromCalendar w date s = (Ok l, s').
Proof.
  unfold getAvailableTimeSlotsFromCalendar, catchM.
  match goal with |- context [match ?c s with _ => _ end] =>
    destruct (c s) as [[l|m] s'] end;
    unfold retM; eexists; eexists; reflexivity.
Qed.

Lemma taipei_date_of_midnight day :
  getTaipeiDateString (Some (day * MS_PER_DAY)) = Ok (civil_from_days day).
Proof.
  cbn [getTaipeiDateString]. f_equal. f_equal.
  unfold MS_PER_DAY, UTC_OFFSET_MS.
  rewrite Z.div_add_l by lia. rewrite Z.div_small by lia. lia.
Qed.

Lemma slots_day_loop_days w today : forall fuel day0 eday s,
  (Z.to_nat (eday - day0 + 1) <= fuel)%nat ->
  exists l s', slots_day_loop w fuel (day0 * MS_PER_DAY) (eday * MS_PER_DAY) today s = (Ok l, s')
    /\ List.length l = Z.to_nat (eday - day0 + 1)
    /\ forall k dt x, nth_error l k = Some (dt, x) ->
         dt = civil_from_days (day0 + Z.of_nat k)
         /\ (x = DaySkipped <-> date_lt (Some ((day0 + Z.of_nat k) * MS_PER_DAY)) today = true).
Proof.
  induction fuel as [|fuel IH]; intros day0 eday s Hf.
  - exists [], s. cbn [slots_day_loop retM]. split; [reflexivity|]. split; [cbn; lia|].
    intros k dt x Hk. destruct k; discriminate.
  - cbn [slots_day_loop].
    destruct (Z.leb_spec (day0 * MS_PER_DAY) (eday * MS_PER_DAY)) as [Hle|Hgt].
    + assert (Hd : day0 <= eday) by (unfold MS_PER_DAY in Hle; lia).
      unfold bindM at 1, liftM. rewrite taipei_date_of_midnight.
      replace (day0 * MS_PER_DAY + MS_PER_DAY) with ((day0 + 1) * MS_PER_DAY) by lia.
      assert (Hf' : (Z.to_nat (eday - (day0 + 1) + 1) <= fuel)%nat) by lia.
      destruct (date_lt (Some (day0 * MS_PER_DAY)) today) eqn:Epast.
      * destruct (IH (day0 + 1) eday s Hf') as [l [s' [Hrun [Hlen Hnth]]]].
        unfold bindM. rewrite Hrun. unfold retM.
        exists ((civil_from_days day0, DaySkipped) :: l), s'. split; [reflexivity|].
        split; [cbn [List.length]; lia|].
        intros [|k] dt x Hk; cbn [nth_error] in Hk.
        -- injection Hk as <- <-. rewrite Z.add_0_r, Epast. split; [reflexivity|tauto].
        -- destruct (Hnth k dt x Hk) as [Hdt Hx].
           replace (day0 + Z.of_nat (S k)) with (day0 + 1 + Z.of_nat k) by lia. tauto.
      * destruct (getAvailableTimeSlotsFromCalendar_ok w (Some (day0 * MS_PER_DAY)) s)
          as [a [s1 Ha]].
        destruct (IH (day0 + 1) eday s1 Hf') as [l [s' [Hrun [Hlen Hnth]]]].
        unfold bindM. rewrite Ha, Hrun. unfold retM.
        exists ((civil_from_days day0, DayQueried a) :: l), s'. split; [reflexivity|].
        split; [cbn [List.length]; lia|].
        intros [|k] dt x Hk; cbn [nth_error] in Hk.
        -- injection Hk as <- <-. rewrite Z.add_0_r, Epast. split; [reflexivity|].
           split; discriminate.
        -- destruct (Hnth k dt x Hk) as [Hdt Hx].
           replace (day0 + Z.of_nat (S k)) with (day0 + 1 + Z.of_nat k) by lia. tauto.
    + assert (Hd : eday < day0) by (unfold MS_PER_DAY in Hgt; lia).
      exists [], s. unfold retM. split; [reflexivity|]. split; [cbn; lia|].
      intros k dt x Hk. destruct k; discriminate.
Qed.

(** X10 (extra): for well-formed dates with start <= end at most 62 days apart and a configured calendar, [handleGetBatchAvailableTimeSlots] succeeds with one entry per day from start to end, in order, keyed by that day's date, and an entry is the skipped-day marker exactly when its day is before the current Taipei day. *)
Theorem batch_slots_days w now sds eds sd ed sday eday c s
    (Hs : date_regex_match sds = Some sd) (He : date_regex_match eds = Some ed)
    (Hsd : ymd_day_number sd = Some sday) (Hed : ymd_day_number ed = Some eday)
    (Hc : calendarId (w_config w) = Ok c) (Hp : String.eqb c CALENDAR_PLACEHOLDER = false)
    (Hle : sday <= eday) (Hmax : eday - sday <= maxDays) :
  exists l,
    fst (handleGetBatchAvailableTimeSlots w now (Some sds) (Some eds) s) = Ok (BatchSlotsOk l)
    /\ List.length l = Z.to_nat (eday - sday + 1)
    /\ forall k dt x, nth_error l k = Some (dt, x) ->
         dt = civil_from_days (sday + Z.of_nat k)
         /\ (x = DaySkipped <-> sday + Z.of_nat k < (now + UTC_OFFSET_MS) / MS_PER_DAY).
Proof.
  unfold handleGetBatchAvailableTimeSlots, catchM, bindM at 1, liftM, throwM, retM at 1.
  rewrite (date_regex_match_nonempty sds sd Hs), (date_regex_match_nonempty eds ed He).
  cbn [orb]. rewrite Hs, He, Hc, Hp. unfold parseDateOnly. rewrite Hsd, Hed.
  replace (eday * MS_PER_DAY <? sday * MS_PER_DAY) with false
    by (symmetry; apply Z.ltb_ge; unfold MS_PER_DAY; lia).
  replace (ceil_div (eday * MS_PER_DAY - sday * MS_PER_DAY) MS_PER_DAY) with (eday - sday).
  2:{ unfold ceil_div. replace (- (eday * MS_PER_DAY - sday * MS_PER_DAY))
        with ((sday - eday) * MS_PER_DAY) by lia.
      rewrite Z.div_mul by (unfold MS_PER_DAY; lia). lia. }
  replace (maxDays <? eday - sday) with false by (symmetry; apply Z.ltb_ge; exact Hmax).
  replace ((eday * MS_PER_DAY - sday * MS_PER_DAY) / MS_PER_DAY) with (eday - sday).
  2:{ replace (eday * MS_PER_DAY - sday * MS_PER_DAY) with ((eday - sday) * MS_PER_DAY) by lia.
      rewrite Z.div_mul by (unfold MS_PER_DAY; lia). reflexivity. }
  destruct (slots_day_loop_days w (setHoursTaipei (Some now) 0 0)
              (Z.to_nat (eday - sday) + 1) sday eday s ltac:(lia))
    as [l [s' [Hrun [Hlen Hnth]]]].
  unfold bindM. rewrite Hrun. unfold retM.
  exists l. split; [reflexivity|]. split; [exact Hlen|].
  intros k dt x Hk. destruct (Hnth k dt x Hk) as [Hdt Hx].
  rewrite taipei_midnight_lt, Z.ltb_lt in Hx. tauto.
Qed.

Lemma batch_slots_days_witness :
  exists l,
    fst (handleGetBatchAvailableTimeSlots world_busy_1000 (20285 * MS_PER_DAY)
           (Some "2025-07-15"%string) (Some "2025-07-17"%string) (mkState [] []))
    = Ok (BatchSlotsOk l)
    /\ List.length l = Z.to_nat (20286 - 20284 + 1)
    /\ forall k dt x, nth_error l k = Some (dt, x) ->
         dt = civil_from_days (20284 + Z.of_nat k)
         /\ (x = DaySkipped <-> 20284 + Z.of_nat k < (20285 * MS_PER_DAY + UTC_OFFSET_MS) / MS_PER_DAY).
Proof.
  apply (batch_slots_days world_busy_1000 (20285 * MS_PER_DAY) "2025-07-15" "2025-07-17"
           day_2025_07_15 (2025, 7, 17) 20284 20286 "salon@example.com" (mkState [] []));
    try reflexivity; unfold maxDays; lia.
Defined.




Lemma yoe_bounds doe : 0 <= doe <= 146096 ->
  let yoe := (doe - doe / 1460 + doe / 36524 - doe / 146096) / 365 in
  0 <= yoe <= 399 /\ 0 <= doe - (365 * yoe + yoe / 4 - yoe / 100) <= 365.
Proof.
  intros H yoe. subst yoe.
  Z.div_mod_to_equations. lia.
Qed.

Lemma ymd_day_number_civil z : ymd_day_number (civil_from_days z) = Some z.
Proof.
  unfold civil_from_days. cbv zeta.
  remember ((z + 719468) / 146097) as era eqn:Hera.
  remember (z + 719468 - era * 146097) as doe eqn:Hdoe.
  assert (Hb : 0 <= doe <= 146096).
  { pose proof (Z.div_mod (z + 719468) 146097 ltac:(lia)).
    pose proof (Z.mod_pos_bound (z + 719468) 146097 ltac:(lia)). lia. }
  pose proof (yoe_bounds doe Hb) as Hy. cbv zeta in Hy.
  remember ((doe - doe / 1460 + doe / 36524 - doe / 146096) / 365) as yoe eqn:Hyoe.
  clear Hyoe.
  remember (doe - (365 * yoe + yoe / 4 - yoe / 100)) as doy eqn:Hdoy.
  remember ((5 * doy + 2) / 153) as mp eqn:Hmp.
  assert (Hmpb : 0 <= mp <= 11) by (subst mp; Z.div_mod_to_equations; lia).
  remember (doy - (153 * mp + 2) / 5 + 1) as dd eqn:Hdd.
  assert (Hddb : 1 <= dd <= 31) by (subst dd mp; Z.div_mod_to_equations; lia).
  assert (Hdoy2 : (153 * mp + 2) / 5 + dd - 1 = doy) by lia.
  unfold ymd_day_number, days_from_civil. cbv zeta.
  destruct (Z.ltb_spec mp 10) as [Hlt|Hge].
  - replace (mp + 3 <=? 2) with false by (symmetry; apply Z.leb_gt; lia).
    replace ((1 <=? mp + 3) && (mp + 3 <=? 12) && (1 <=? dd) && (dd <=? 31)) with true
      by (symmetry; rewrite !andb_true_iff, !Z.leb_le; lia).
    replace ((mp + 3 + 9) mod 12) with mp
      by (rewrite <- (Z.mod_small mp 12) at 1 by lia; replace (mp + 3 + 9) with (mp + 1 * 12) by lia;
          rewrite Z.mod_add by lia; reflexivity).
    rewrite Hdoy2.
    replace ((yoe + era * 400) / 400) with era
      by (rewrite Z.div_add by lia; rewrite Z.div_small by lia; lia).
    replace (yoe + era * 400 - era * 400) with yoe by lia.
    f_equal. lia.
  - replace (mp - 9 <=? 2) with true by (symmetry; apply Z.leb_le; lia).
    replace ((1 <=? mp - 9) && (mp - 9 <=? 12) && (1 <=? dd) && (dd <=? 31)) with true
      by (symmetry; rewrite !andb_true_iff, !Z.leb_le; lia).
    replace ((mp - 9 + 9) mod 12) with mp by (replace (mp - 9 + 9) with mp by lia; symmetry; apply Z.mod_small; lia).
    rewrite Hdoy2.
    replace (yoe + era * 400 + 1 - 1) with (yoe + era * 400) by lia.
    replace ((yoe + era * 400) / 400) with era
      by (rewrite Z.div_add by lia; rewrite Z.div_small by lia; lia).
    replace (yoe + era * 400 - era * 400) with yoe by lia.
    f_equal. lia.
Qed.

Lemma inv_core yoe mp d :
  0 <= yoe <= 399 -> 0 <= mp <= 11 -> 1 <= d ->
  d <= (if mp =? 11 then
          (if (((yoe + 1) mod 4 =? 0) && negb ((yoe + 1) mod 100 =? 0)) || ((yoe + 1) mod 400 =? 0)
           then 29 else 28)
        else if (mp =? 1) || (mp =? 3) || (mp =? 6) || (mp =? 8) then 30 else 31) ->
  let doy := (153 * mp + 2) / 5 + d - 1 in
  let doe := yoe * 365 + yoe / 4 - yoe / 100 + doy in
  (0 <= doe <= 146096 /\ (doe - doe / 1460 + doe / 36524 - doe / 146096) / 365 = yoe)
  /\ (5 * doy + 2) / 153 = mp.
Proof.
  intros Hy Hmp Hd1 Hd doy doe. subst doy doe.
  assert (Hm : mp = 0 \/ mp = 1 \/ mp = 2 \/ mp = 3 \/ mp = 4 \/ mp = 5 \/ mp = 6 \/ mp = 7
               \/ mp = 8 \/ mp = 9 \/ mp = 10 \/ mp = 11) by lia.
  destruct Hm as [->|[->|[->|[->|[->|[->|[->|[->|[->|[->|[->| ->]]]]]]]]]]];
    cbn -[Z.div Z.modulo Z.mul Z.add Z.sub] in Hd |- *.
  all: try (destruct (_ || _) eqn:E in Hd; [apply orb_true_iff in E|apply orb_false_iff in E];
            rewrite ?andb_true_iff, ?andb_false_iff, ?negb_true_iff, ?negb_false_iff, ?Z.eqb_eq, ?Z.eqb_neq in E).
  all: split; [split|]; Z.div_mod_to_equations; lia.
Qed.

Lemma leap_year_shift yoe era :
  leap_year (yoe + era * 400 + 1) = leap_year (yoe + 1).
Proof.
  unfold leap_year.
  replace (yoe + era * 400 + 1) with ((yoe + 1) + (era * 100) * 4) by ring.
  rewrite Z.mod_add by lia.
  replace ((yoe + 1) + (era * 100) * 4) with ((yoe + 1) + (era * 4) * 100) by ring.
  rewrite Z.mod_add by lia.
  replace ((yoe + 1) + (era * 4) * 100) with ((yoe + 1) + era * 400) by ring.
  rewrite Z.mod_add by lia. reflexivity.
Qed.

Lemma civil_of_days y m d :
  1 <= m <= 12 -> 1 <= d <= days_in_month y m ->
  civil_from_days (days_from_civil y m d) = (y, m, d).
Proof.
  intros Hm Hd.
  unfold days_from_civil. cbv zeta.
  remember (if m <=? 2 then y - 1 else y) as y' eqn:Hy'.
  remember (y' / 400) as era eqn:Hera.
  assert (Hyoe : 0 <= y' - era * 400 <= 399).
  { subst era. pose proof (Z.div_mod y' 400 ltac:(lia)). pose proof (Z.mod_pos_bound y' 400 ltac:(lia)). lia. }
  remember (y' - era * 400) as yoe eqn:Hyoedef.
  remember ((m + 9) mod 12) as mp eqn:Hmp.
  assert (Hmpv : mp = (if m <=? 2 then m + 9 else m - 3)).
  { subst mp. destruct (Z.leb_spec m 2).
    - apply Z.mod_small. lia.
    - replace (m + 9) with ((m - 3) + 1 * 12) by ring. rewrite Z.mod_add by lia. apply Z.mod_small. lia. }
  assert (Hlen : d <= (if mp =? 11 then
          (if (((yoe + 1) mod 4 =? 0) && negb ((yoe + 1) mod 100 =? 0)) || ((yoe + 1) mod 400 =? 0)
           then 29 else 28)
        else if (mp =? 1) || (mp =? 3) || (mp =? 6) || (mp =? 8) then 30 else 31)).
  { unfold days_in_month in Hd. rewrite Hmpv.
    destruct (Z.leb_spec m 2) as [Hle|Hgt].
    - assert (Hm12 : m = 1 \/ m = 2) by lia. destruct Hm12 as [->| ->]; cbn in Hd |- *; [lia|].
      replace y with (yoe + era * 400 + 1) in Hd by lia.
      rewrite leap_year_shift in Hd. unfold leap_year in Hd. lia.
    - assert (Hm3 : m = 3 \/ m = 4 \/ m = 5 \/ m = 6 \/ m = 7 \/ m = 8 \/ m = 9 \/ m = 10 \/ m = 11 \/ m = 12) by lia.
      destruct Hm3 as [->|[->|[->|[->|[->|[->|[->|[->|[->| ->]]]]]]]]]; cbn in Hd |- *; lia. }
  assert (Hmpb : 0 <= mp <= 11) by (rewrite Hmpv; destruct (Z.leb_spec m 2); lia).
  destruct (inv_core yoe mp d ltac:(lia) Hmpb ltac:(lia) Hlen) as [[Hdoe Hyoe'] Hmp'].
  cbv zeta in Hdoe, Hyoe', Hmp'.
  remember ((153 * mp + 2) / 5 + d - 1) as doy eqn:Hdoy in *.
  remember (yoe * 365 + yoe / 4 - yoe / 100 + doy) as doe eqn:Hdoedef in *.
  unfold civil_from_days. cbv zeta.
  replace (era * 146097 + doe - 719468 + 719468) with (doe + era * 146097) by ring.
  rewrite (Z.div_add doe era 146097) by lia. rewrite (Z.div_small doe 146097) by lia. rewrite Z.add_0_l.
  replace (doe + era * 146097 - era * 146097) with doe by ring.
  rewrite Hyoe'.
  replace (doe - (365 * yoe + yoe / 4 - yoe / 100)) with doy by lia.
  rewrite Hmp'.
  replace (doy - (153 * mp + 2) / 5 + 1) with d by lia.
  rewrite Hmpv.
  destruct (Z.leb_spec m 2) as [Hle|Hgt].
  - replace (m + 9 <? 10) with false by (symmetry; apply Z.ltb_ge; lia).
    replace (m + 9 - 9) with m by ring.
    replace (m <=? 2) with true by (symmetry; apply Z.leb_le; lia).
    f_equal. f_equal. lia.
  - replace (m - 3 <? 10) with true by (symmetry; apply Z.ltb_lt; lia).
    replace (m - 3 + 3) with m by ring.
    replace (m <=? 2) with false by (symmetry; apply Z.leb_gt; lia).
    f_equal. f_equal. lia.
Qed.

Lemma valid_core doe yoe doy mp :
  0 <= doe <= 146096 ->
  yoe = (doe - doe / 1460 + doe / 36524 - doe / 146096) / 365 ->
  doy = doe - (365 * yoe + yoe / 4 - yoe / 100) ->
  mp = (5 * doy + 2) / 153 ->
  0 <= mp <= 11 /\ 1 <= doy - (153 * mp + 2) / 5 + 1 <= shifted_month_length yoe mp.
Proof.
  intros Hb Hyoe Hdoy Hmpd.
  assert (Hy : 0 <= yoe <= 399 /\ 0 <= doy <= 365) by (subst doy yoe; Z.div_mod_to_equations; lia).
  assert (Hmp : 0 <= mp <= 11) by (subst mp; Z.div_mod_to_equations; lia).
  split; [exact Hmp|].
  unfold shifted_month_length.
  assert (Hm : mp = 0 \/ mp = 1 \/ mp = 2 \/ mp = 3 \/ mp = 4 \/ mp = 5 \/ mp = 6 \/ mp = 7
               \/ mp = 8 \/ mp = 9 \/ mp = 10 \/ mp = 11) by lia.
  destruct Hm as [E|[E|[E|[E|[E|[E|[E|[E|[E|[E|[E|E]]]]]]]]]]]; rewrite E;
    cbn -[Z.div Z.modulo Z.mul Z.add Z.sub].
  all: try (destruct (_ || _) eqn:L; [apply orb_true_iff in L|apply orb_false_iff in L];
            rewrite ?andb_true_iff, ?andb_false_iff, ?negb_true_iff, ?negb_false_iff, ?Z.eqb_eq, ?Z.eqb_neq in L).
  all: subst doy yoe; Z.div_mod_to_equations; lia.
Qed.

Lemma civil_valid z :
  let '(y, m, d) := civil_from_days z in 1 <= m <= 12 /\ 1 <= d <= days_in_month y m.
Proof.
  unfold civil_from_days. cbv zeta.
  remember ((z + 719468) / 146097) as era eqn:Hera.
  remember (z + 719468 - era * 146097) as doe eqn:Hdoe.
  assert (Hb : 0 <= doe <= 146096).
  { pose proof (Z.div_mod (z + 719468) 146097 ltac:(lia)).
    pose proof (Z.mod_pos_bound (z + 719468) 146097 ltac:(lia)). lia. }
  remember ((doe - doe / 1460 + doe / 36524 - doe / 146096) / 365) as yoe eqn:Hyoe.
  remember (doe - (365 * yoe + yoe / 4 - yoe / 100)) as doy eqn:Hdoy.
  remember ((5 * doy + 2) / 153) as mp eqn:Hmp.
  destruct (valid_core doe yoe doy mp Hb Hyoe Hdoy Hmp) as [Hmpb Hdd].
  remember (doy - (153 * mp + 2) / 5 + 1) as dd eqn:Hdd' in *.
  unfold shifted_month_length in Hdd. unfold days_in_month.
  destruct (Z.ltb_spec mp 10) as [Hlt|Hge].
  - replace (mp + 3 <=? 2) with false by (symmetry; apply Z.leb_gt; lia).
    split; [lia|].
    assert (Hm : mp = 0 \/ mp = 1 \/ mp = 2 \/ mp = 3 \/ mp = 4 \/ mp = 5 \/ mp = 6 \/ mp = 7
               \/ mp = 8 \/ mp = 9) by lia.
    destruct Hm as [E|[E|[E|[E|[E|[E|[E|[E|[E|E]]]]]]]]]; rewrite E in Hdd |- *; cbn in Hdd |- *; lia.
  - replace (mp - 9 <=? 2) with true by (symmetry; apply Z.leb_le; lia).
    split; [lia|].
    assert (Hm : mp = 10 \/ mp = 11) by lia.
    destruct Hm as [E|E]; rewrite E in Hdd |- *.
    + cbn in Hdd |- *. lia.
    + replace (11 - 9) with 2 by reflexivity. replace (11 - 9 <=? 2) with true by reflexivity.
      cbn -[leap_year Z.add Z.mul] in Hdd |- *.
      rewrite leap_year_shift. unfold leap_year. exact Hdd.
Qed.

(** X17 (extra): for every valid instant, [createTaipeiDateFromYMD] applied to [getTaipeiDateString] of the instant gives the Taipei midnight of its day, the instant [setHours(0, 0)] gives. *)
Theorem taipei_date_roundtrip t :
  match getTaipeiDateString (Some t) with
  | Ok d => createTaipeiDateFromYMD d = setHoursTaipei (Some t) 0 0
  | Throw _ => False
  end.
Proof.
  cbn [getTaipeiDateString]. unfold createTaipeiDateFromYMD, parseTaipeiDateTimeSec.
  rewrite ymd_day_number_civil. cbn [setHoursTaipei].
  cbn [andb implb Z.leb Z.eqb Z.compare Pos.compare Pos.compare_cont Pos.eqb].
  f_equal. lia.
Qed.

(** X18 (extra): for month 1..12 and day 1..31, [getTaipeiDateString (createTaipeiDateFromYMD (y, m, d))] gives back (y, m, d) exactly when the day exists in that month of the Gregorian calendar; a later day rolls over into the next month. *)
Theorem ymd_roundtrip y m d (Hm : 1 <= m <= 12) (Hd : 1 <= d <= 31) :
  getTaipeiDateString (createTaipeiDateFromYMD (y, m, d)) = Ok (y, m, d)
  <-> d <= days_in_month y m.
Proof.
  unfold createTaipeiDateFromYMD, parseTaipeiDateTimeSec, ymd_day_number.
  replace ((1 <=? m) && (m <=? 12) && (1 <=? d) && (d <=? 31)) with true
    by (symmetry; rewrite !andb_true_iff, !Z.leb_le; lia).
  cbn [andb implb Z.leb Z.eqb Z.compare Pos.compare Pos.compare_cont Pos.eqb getTaipeiDateString].
  replace ((days_from_civil y m d * MS_PER_DAY + 0 * MS_PER_HOUR + 0 * MS_PER_MINUTE + 0 * 1000
            - UTC_OFFSET_MS + UTC_OFFSET_MS) / MS_PER_DAY) with (days_from_civil y m d).
  2:{ replace (days_from_civil y m d * MS_PER_DAY + 0 * MS_PER_HOUR + 0 * MS_PER_MINUTE + 0 * 1000
               - UTC_OFFSET_MS + UTC_OFFSET_MS) with (days_from_civil y m d * MS_PER_DAY) by ring.
      rewrite Z.div_mul by (unfold MS_PER_DAY; lia). reflexivity. }
  split.
  - intros H.
    assert (E : civil_from_days (days_from_civil y m d) = (y, m, d)) by congruence.
    pose proof (civil_valid (days_from_civil y m d)) as Hv. rewrite E in Hv. lia.
  - intros H. rewrite civil_of_days by lia. reflexivity.
Qed.

Lemma ymd_roundtrip_witness :
  getTaipeiDateString (createTaipeiDateFromYMD (2024, 2, 29)) = Ok (2024, 2, 29)
  <-> 29 <= days_in_month 2024 2.
Proof. apply ymd_roundtrip; lia. Defined.

(** X1 (extra): when the events list answers page [k] on call [k+1] (whatever token is sent), every page but the last carries a truthy [nextPageToken], the last a falsy one, and there are at most 21 pages, [executePaginatedQuery] returns the concatenation of all pages' items. *)
Theorem executePaginatedQuery_all_pages (u : upstream) (pages : list (list event * option string))
    (Hne : pages <> []) (Hlen : (List.length pages <= 21)%nat)
    (Hapi : forall k t, (k < List.length pages)%nat ->
       events_list u (S k) t = PageOk (fst (nth k pages ([], None))) (snd (nth k pages ([], None))))
    (Htok : forall k, (S k < List.length pages)%nat -> token_truthy (snd (nth k pages ([], None))) = true)
    (Hlast : token_truthy (snd (last pages ([], None))) = false) :
  fst (executePaginatedQuery u) = List.concat (map fst pages).
Proof.
  unfold executePaginatedQuery.
  apply (paginate_loop_pages (events_list u) pages 0 None [] []); assumption.
Qed.

Lemma executePaginatedQuery_all_pages_witness :
  fst (executePaginatedQuery upstream_two_pages) = List.concat (map fst pages_two).
Proof.
  apply (executePaginatedQuery_all_pages upstream_two_pages pages_two).
  - discriminate.
  - cbn. lia.
  - intros k t Hk. destruct k as [|[|k]]; [reflexivity|reflexivity|cbn in Hk; lia].
  - intros k Hk. destruct k as [|k]; [reflexivity|cbn in Hk; lia].
  - reflexivity.
Defined.

(** X2 (extra): when the first n calls (n <= 20) answer pages with truthy tokens and call n+1 fails, [executePaginatedQuery] does not fail: it returns the items of the n pages fetched before the error. *)
Theorem executePaginatedQuery_error_keeps (u : upstream) (pages : list (list event * option string))
    (Hlen : (List.length pages <= 20)%nat)
    (Hapi : forall k t, (k < List.length pages)%nat ->
       events_list u (S k) t = PageOk (fst (nth k pages ([], None))) (snd (nth k pages ([], None))))
    (Htok : forall k, (k < List.length pages)%nat -> token_truthy (snd (nth k pages ([], None))) = true)
    (Herr : forall t, events_list u (S (List.length pages)) t = PageError) :
  fst (executePaginatedQuery u) = List.concat (map fst pages).
Proof.
  unfold executePaginatedQuery.
  apply (paginate_loop_error (events_list u) pages 0 None [] []); assumption.
Qed.

Lemma executePaginatedQuery_error_keeps_witness :
  fst (executePaginatedQuery upstream_error_second)
  = List.concat (map fst [([booking_1000], Some "page2"%string)]).
Proof.
  apply (executePaginatedQuery_error_keeps upstream_error_second [([booking_1000], Some "page2"%string)]).
  - cbn. lia.
  - intros k t Hk. destruct k as [|k]; [reflexivity|cbn in Hk; lia].
  - intros k Hk. destruct k as [|k]; [reflexivity|cbn in Hk; lia].
  - intros t. reflexivity.
Defined.

(** X3 (extra): on a valid window, [getEvents] uses the paginated query exactly when the window spans at least 12 days (rounded up), and otherwise the single direct call; the 30-day tests of [analyzeQueryComplexity] never decide. *)
Theorem getEvents_pagination_threshold (u : upstream) (st en : Z) :
  getEvents u (Some st) (Some en)
  = if 12 <=? ceil_div (en - st) MS_PER_DAY
    then fst (executePaginatedQuery u)
    else getEventsDirectly u.
Proof. cbn [getEvents]. rewrite shouldUsePagination_days. reflexivity. Qed.

(** X4 (extra): for a date accepted by [new Date], [getOptimizedQueryRange] gives the window from 08:00:00 to 22:00:59 Taipei time of that day, and [getEvents] on that window makes the single direct call. *)
Theorem single_day_query_window (u : upstream) (d : ymd) (day : Z)
    (Hd : ymd_day_number d = Some day) :
  getOptimizedQueryRange d
  = (Some (day * MS_PER_DAY), Some (day * MS_PER_DAY + 14 * MS_PER_HOUR + 59000))
  /\ parseTaipeiDateTimeSec d 8 0 0 = Some (day * MS_PER_DAY)
  /\ parseTaipeiDateTimeSec d 22 0 59 = Some (day * MS_PER_DAY + 14 * MS_PER_HOUR + 59000)
  /\ getEvents u (fst (getOptimizedQueryRange d)) (snd (getOptimizedQueryRange d))
     = getEventsDirectly u.
Proof.
  rewrite (getOptimizedQueryRange_day d day Hd). cbn [fst snd].
  unfold parseTaipeiDateTimeSec. rewrite Hd.
  cbn [andb implb Z.leb Z.eqb Z.compare Pos.compare Pos.compare_cont Pos.eqb].
  split; [reflexivity|]. split; [f_equal; unfold MS_PER_DAY, MS_PER_HOUR, MS_PER_MINUTE, UTC_OFFSET_MS; lia|].
  split; [f_equal; unfold MS_PER_DAY, MS_PER_HOUR, MS_PER_MINUTE, UTC_OFFSET_MS; lia|].
  cbn [getEvents]. rewrite shouldUsePagination_days.
  replace (day * MS_PER_DAY + 14 * MS_PER_HOUR + 59000 - day * MS_PER_DAY)
    with (14 * MS_PER_HOUR + 59000) by ring.
  reflexivity.
Qed.

Lemma single_day_query_window_witness :
  getOptimizedQueryRange day_2025_07_15
  = (Some (20284 * MS_PER_DAY), Some (20284 * MS_PER_DAY + 14 * MS_PER_HOUR + 59000))
  /\ parseTaipeiDateTimeSec day_2025_07_15 8 0 0 = Some (20284 * MS_PER_DAY)
  /\ parseTaipeiDateTimeSec day_2025_07_15 22 0 59
     = Some (20284 * MS_PER_DAY + 14 * MS_PER_HOUR + 59000)
  /\ getEvents upstream_two_pages (fst (getOptimizedQueryRange day_2025_07_15))
       (snd (getOptimizedQueryRange day_2025_07_15))
     = getEventsDirectly upstream_two_pages.
Proof.
  apply (single_day_query_window upstream_two_pages day_2025_07_15 20284). reflexivity.
Defined.

Lemma set_add_nodup t s : NoDup s -> NoDup (set_add t s).
Proof.
  unfold set_add. destruct (existsb (time_str_eqb t) s) eqn:E; intros Hnd; [exact Hnd|].
  apply Permutation_NoDup with (l := t :: s); [apply Permutation_cons_append|].
  constructor; [|exact Hnd].
  intros Hin. assert (existsb (time_str_eqb t) s = true) as E'.
  { apply existsb_exists. exists t. split; [exact Hin|]. apply time_str_eqb_eq. reflexivity. }
  congruence.
Qed.

Lemma set_add_nonempty t s : set_add t s <> [].
Proof. unfold set_add. destruct s as [|x s]; cbn; [discriminate|]. destruct (_ || _); discriminate. Qed.

Lemma found_times_nodup title : NoDup (found_times title).
Proof.
  unfold found_times.
  assert (Hgen : forall pats acc, NoDup acc ->
    NoDup (fold_left (fun found pattern =>
      fold_left (fun found '(h, m) =>
          set_add (TimeHM (correct_hour title h) (match m with Some v => v | None => 0 end)) found)
        (exec_all pattern title) found) pats acc)).
  { induction pats as [|p pats IH]; intros acc Hacc; cbn [fold_left]; [exact Hacc|].
    apply IH. generalize (exec_all p title) as ms. intros ms. revert acc Hacc.
    induction ms as [|[h m] ms IHm]; intros acc Hacc; cbn [fold_left]; [exact Hacc|].
    apply IHm, set_add_nodup, Hacc. }
  apply Hgen. constructor.
Qed.

(** X8 (extra): [extractTimeSlotsFromTitle] returns slots with pairwise distinct times, each labelled with the period of its time, and at least one slot whenever an event start time is given. *)
Theorem extractTimeSlotsFromTitle_shape (title : jsstring) (eventStartTime : option jsdate) :
  let l := extractTimeSlotsFromTitle title eventStartTime in
  NoDup (map slot_time l)
  /\ Forall (fun sl => slot_period sl = period_of (slot_time sl)) l
  /\ match eventStartTime with Some _ => l <> [] | None => True end.
Proof.
  cbv zeta. unfold extractTimeSlotsFromTitle.
  rewrite map_map. cbn [slot_time slot_period]. rewrite map_id.
  pose proof (found_times_nodup title) as Hnd.
  split; [|split].
  - destruct (found_times title) as [|t ts] eqn:E, eventStartTime; try exact Hnd.
    apply set_add_nodup. exact Hnd.
  - apply Forall_map, Forall_forall. intros x _. reflexivity.
  - destruct eventStartTime as [d|]; [|exact I].
    destruct (found_times title) as [|t ts]; intros H; apply map_eq_nil in H;
      [apply (set_add_nonempty _ _ H)|discriminate].
Qed.
